(** * ComfyUI-Annotations: the annotation-driven node adapter

    A shallow embedding of [comfy_annotations.py].  Python values are an
    inductive universe; module-level variables are fields of records (the
    configuration, the type registry, the node registries) that the
    stateful functions thread through; [raise] is the [Raise] branch of a
    result type; class objects live in a heap, so that registry entries
    can share one; and what the module obtains from PyTorch, the file
    system or the host is a method of the [Runtime] class. *)

From Stdlib Require Import QArith.
From Stdlib Require Import Ascii DecimalString.
From stdpp Require Import gmap strings list fin_maps.

Open Scope string_scope.

(** ** Exceptions and results *)

(** The subclasses of [Exception] that the module raises itself, and one
    constructor for whatever user code raises.  Exits that derive from
    [BaseException] only (keyboard interrupt, interpreter exit) are not
    failures of a node and are outside the model; [assert] statements are
    taken as enabled. *)
Inductive Exn :=
| AssertionError (msg : string)
| ValueError (msg : string)
| TypeError (msg : string)
| AttributeError (msg : string)
| IndexError (msg : string)
| KeyError (msg : string)
| RuntimeError (msg : string)
| UserException (cls msg : string).

(** [str(e)]. *)
Definition exn_str (e : Exn) : string :=
  match e with
  | AssertionError m | ValueError m | TypeError m | AttributeError m
  | IndexError m | KeyError m | RuntimeError m | UserException _ m => m
  end.

Inductive res (A : Type) :=
| Ok (a : A)
| Raise (e : Exn).
Arguments Ok {A} a.
Arguments Raise {A} e.

#[global] Instance res_ret : MRet res := fun _ a => Ok a.
#[global] Instance res_bind : MBind res := fun _ _ k r =>
  match r with
  | Ok a => k a
  | Raise e => Raise e
  end.

Definition is_ok {A} (r : res A) : bool :=
  match r with Ok _ => true | Raise _ => false end.

(** [assert cond, msg]. *)
Definition py_assert (cond : bool) (msg : string) : res unit :=
  if cond then Ok tt else Raise (AssertionError msg).

(** [str(n)] for an [int] that is a length or a line number. *)
Definition str_nat (n : nat) : string :=
  NilEmpty.string_of_uint (Nat.to_uint n).

(** [", ".join(l)]. *)
Fixpoint join (sep : string) (l : list string) : string :=
  match l with
  | [] => ""
  | [s] => s
  | s :: rest => s ++ sep ++ join sep rest
  end.

(** [repr] of a list of ints, as in an f-string: [[1, 3, 4]]. *)
Definition repr_int_list (l : list nat) : string :=
  "[" ++ join ", " (map str_nat l) ++ "]".

(** ** Tensors *)

(** An element of a tensor: a number (every float and every integer is a
    rational), an infinity, or not-a-number. *)
Inductive scalar :=
| Fin (q : Q)
| PInf
| NInf
| NaN.

(** [a <= b] on elements; any comparison with NaN is false. *)
Definition scalar_leb (a b : scalar) : bool :=
  match a, b with
  | NaN, _ | _, NaN => false
  | NInf, _ => true
  | _, PInf => true
  | Fin x, Fin y => Qle_bool x y
  | _, _ => false
  end.

(** The reductions [min] and [max] propagate NaN. *)
Definition scalar_min (a b : scalar) : scalar :=
  match a, b with
  | NaN, _ | _, NaN => NaN
  | _, _ => if scalar_leb a b then a else b
  end.

Definition scalar_max (a b : scalar) : scalar :=
  match a, b with
  | NaN, _ | _, NaN => NaN
  | _, _ => if scalar_leb a b then b else a
  end.

Inductive Device := Cpu | Cuda0.

Record Tensor := {
  shape : list nat;
  data : list scalar;   (* the elements, row-major *)
  device : Device
}.

(** [arg.to(device)]. *)
Definition tensor_to (d : Device) (t : Tensor) : Tensor :=
  {| shape := shape t; data := data t; device := d |}.

(** [arg.unsqueeze(0)]. *)
Definition unsqueeze0 (t : Tensor) : Tensor :=
  {| shape := 1 :: shape t; data := data t; device := device t |}.

(** [arg.min()] and [arg.max()]: the reduction over all elements; torch
    raises on a tensor without elements. *)
Definition tensor_min (t : Tensor) : res scalar :=
  match data t with
  | [] =>
      Raise (RuntimeError
               "min(): Expected reduction dim to be specified for input.numel() == 0.")
  | x :: xs => Ok (fold_left scalar_min xs x)
  end.

Definition tensor_max (t : Tensor) : res scalar :=
  match data t with
  | [] =>
      Raise (RuntimeError
               "max(): Expected reduction dim to be specified for input.numel() == 0.")
  | x :: xs => Ok (fold_left scalar_max xs x)
  end.

(** ** Python values *)

#[warnings="-register-all"]
Inductive PyVal :=
| VNone
| VBool (b : bool)
| VInt (z : Z)
| VFloat (x : scalar)
| VStr (s : string)
| VAnyType (s : string)      (* an instance of [AnyType], a subclass of [str] *)
| VTensor (t : Tensor)
| VList (l : list PyVal)
| VTuple (l : list PyVal)
| VObj (id : nat).           (* any other object, by identity *)

(** The text of a [str] or of an instance of a subclass of [str]. *)
Definition str_value (v : PyVal) : option string :=
  match v with
  | VStr s | VAnyType s => Some s
  | _ => None
  end.

(** [v == "literal"] for the values the schema stores: [AnyType] inherits
    [str.__eq__], everything else that is not a string is different. *)
Definition eq_str (v : PyVal) (lit : string) : bool :=
  match str_value v with
  | Some s => String.eqb s lit
  | None => false
  end.

(** [hash(v)], as far as it can fail: a list cannot be hashed, nor can a
    tuple that holds one; tensors and other objects are hashed by
    identity. *)
Fixpoint hashable (v : PyVal) : res unit :=
  match v with
  | VList _ => Raise (TypeError "unhashable type: 'list'")
  | VTuple l => (fix all (l : list PyVal) : res unit :=
                   match l with
                   | [] => Ok tt
                   | x :: rest => _ ← hashable x; all rest
                   end) l
  | _ => Ok tt
  end.

(** [_all_to(device, arg)]: tensors are moved, lists are mapped, anything
    else (tuples included) is returned as it is. *)
Fixpoint _all_to (d : Device) (arg : PyVal) : PyVal :=
  match arg with
  | VTensor t => VTensor (tensor_to d t)
  | VList l => VList (map (_all_to d) l)
  | _ => arg
  end.

(** ** Type objects, signatures and functions *)

Record PyClass := {
  __module__ : string;
  __qualname__ : string
}.

Inductive Origin := OriginList | OriginTuple | OriginOther.

(** What an annotation (or the [cls] of [register_type]) can be. *)
#[warnings="-register-all"]
Inductive PyType :=
| TyEmpty                      (* inspect.Parameter.empty, the class inspect._empty *)
| TyClass (c : PyClass)        (* a class: int, torch.Tensor, ImageTensor, a user class *)
| TyAlias (c : option PyClass) (origin : Origin) (args : list PyType)
                               (* list[T], tuple[A, B], ...: what the alias reports as
                                  its module and qualified name, if it has them *)
| TyObject.                    (* None, a string, ...: no __module__ at all *)

(** [typing.get_origin] and [typing.get_args]. *)
Definition get_origin (t : PyType) : option Origin :=
  match t with
  | TyAlias _ o _ => Some o
  | _ => None
  end.

Definition get_args (t : PyType) : list PyType :=
  match t with
  | TyAlias _ _ args => args
  | _ => []
  end.

Definition origin_is_list (t : PyType) : bool :=
  match get_origin t with
  | Some OriginList => true
  | _ => false
  end.

Definition origin_is_tuple (t : PyType) : bool :=
  match get_origin t with
  | Some OriginTuple => true
  | _ => false
  end.

Definition is_empty (t : PyType) : bool :=
  match t with
  | TyEmpty => true
  | _ => false
  end.

Definition _get_fully_qualified_name (cls : PyType) : res string :=
  match cls with
  | TyEmpty => Ok "inspect._empty"
  | TyClass c | TyAlias (Some c) _ _ => Ok (__module__ c ++ "." ++ __qualname__ c)
  | TyAlias None _ _ | TyObject => Raise (AttributeError "__module__")
  end.

(** A Python [dict] with [str] keys whose iteration order matters: pairs
    in insertion order, no key twice. *)
Definition PyDict (A : Type) := list (string * A).

Fixpoint dict_get {A} (d : PyDict A) (k : string) : option A :=
  match d with
  | [] => None
  | (k', v) :: rest => if String.eqb k' k then Some v else dict_get rest k
  end.

(** [d[k] = v]: an existing key keeps its place. *)
Fixpoint dict_set {A} (d : PyDict A) (k : string) (v : A) : PyDict A :=
  match d with
  | [] => [(k, v)]
  | (k', v') :: rest =>
      if String.eqb k' k then (k, v) :: rest else (k', v') :: dict_set rest k v
  end.

Definition dict_keys {A} (d : PyDict A) : list string := map fst d.

(** The default of a parameter, as [_annotate_input] tells them apart. *)
Inductive Default :=
| DefEmpty                        (* inspect.Parameter.empty: no default *)
| DefNone
| DefChoice (choices : list string)
| DefStringInput (value : string) (multiline force_input optional hidden : bool)
| DefNumberInput (default : scalar) (min max step round : option scalar)
                 (display : string) (optional hidden : bool)
| DefValue (v : PyVal).           (* any other value (not None) *)

(** One entry of [inspect.signature(func).parameters]. *)
Record Param := {
  p_name : string;
  p_annotation : PyType;
  p_default : Default
}.

(** A function object.  Its code is not modelled: [behaviour n args kwargs]
    is what a call does when [n] calls were made before it, namely the text
    it logs or prints and the value it returns or the exception it raises. *)
Record PyFunc := {
  f_module : string;                     (* func.__module__ *)
  f_name : string;                       (* func.__name__ *)
  f_qualname : string;                   (* func.__qualname__ *)
  f_doc : option string;                 (* func.__doc__ *)
  co_filename : string;                  (* func.__code__.co_filename *)
  co_firstlineno : nat;                  (* func.__code__.co_firstlineno *)
  f_parameters : list Param;             (* inspect.signature(func).parameters *)
  f_return_annotation : PyType;          (* inspect.signature(func).return_annotation *)
  f_globals : gmap string nat;           (* func.__globals__: the objects by address *)
  behaviour : nat -> list PyVal -> PyDict PyVal -> string * res PyVal
}.

(** ** Module-level variables *)

Inductive AutoDescriptionMode := NONE | BRIEF | FULL.

(** The signature of [process_exception_logic]: the function, the
    exception, the input description and the text captured in the buffer. *)
Definition Hook := PyFunc -> Exn -> list string -> string -> res unit.

Record Config := {
  reload_modules : bool;
  docstring_mode : AutoDescriptionMode;
  verify_tensors : bool;
  process_exception_logic : option Hook;
  max_tries : Z
}.

(** The values the module assigns when it is imported. *)
Definition default_config : Config := {|
  reload_modules := true;
  docstring_mode := FULL;
  verify_tensors := true;
  process_exception_logic := None;
  max_tries := 1
|}.

Definition default_category : string := "ComfyFunc".

(** ** What the module takes from its environment *)

Class Runtime := {
  (** [torch.cuda.is_available()] *)
  cuda_is_available : bool;
  (** the text of a zero-dimensional tensor in an f-string *)
  repr_scalar : scalar -> string;
  (** the text of [type(v)] in an f-string *)
  repr_type : PyVal -> string;
  (** [_get_fully_qualified_name(type(v))] *)
  type_name_of : PyVal -> string;
  (** the text of [v] in an f-string *)
  str_of : PyVal -> string;
  (** [_image_info(t)]: shape, dtype and statistics of a tensor; the
      statistics raise on a tensor without elements *)
  _image_info : Tensor -> res string;
  (** [cls(arg)], the constructor of an annotation applied to a value *)
  construct : PyType -> PyVal -> res PyVal;
  (** what [_maybe_reload_module(func)] does once reloading is on: it
      imports the module, compares the time stamp of its file with the
      ledger and reloads it or answers from the cache of reloaded functions *)
  reload_from_disk : PyFunc -> res (bool * PyFunc);
  (** [_add_preview(result)]: writes an image file under a random name *)
  _add_preview : PyVal -> res PyVal;
  (** the two lines [_create_comfy_node] appends to the description for a
      colour: floating-point arithmetic on the three channels *)
  color_lines : string -> string
}.

(** ** Tensor verification *)

(** One value of the input schema: the tuple [(type_name, metadata)], or
    the one-element tuple [(choices,)] of a [Choice]. *)
Record InputSpec := {
  spec_head : PyVal;                       (* the tuple's element 0 *)
  spec_meta : option (PyDict PyVal)        (* its element 1, if there is one *)
}.

Record TensorParams := {
  allowed_shapes : option (list nat);
  allowed_dims : option (list nat);
  allowed_channels : option (list nat)
}.

Definition tensor_types : PyDict TensorParams := [
  ("IMAGE", {| allowed_shapes := Some [4]; allowed_dims := None;
               allowed_channels := Some [1; 3; 4] |});
  ("MASK", {| allowed_shapes := Some [3]; allowed_dims := None; allowed_channels := None |});
  ("DEPTH", {| allowed_shapes := Some [4]; allowed_dims := None; allowed_channels := Some [1] |})
].

(** [x in l] for a list of ints. *)
Definition nat_in (x : nat) (l : list nat) : bool := existsb (Nat.eqb x) l.

(** The text of [arg.shape] in an f-string. *)
Definition repr_shape (s : list nat) : string :=
  "torch.Size(" ++ repr_int_list s ++ ")".

(** [arg.shape[i]] and [arg.shape[-1]]. *)
Definition shape_at (s : list nat) (i : nat) : res nat :=
  match s !! i with
  | Some x => Ok x
  | None => Raise (IndexError "tuple index out of range")
  end.

Definition shape_last (s : list nat) : res nat :=
  match last s with
  | Some x => Ok x
  | None => Raise (IndexError "tuple index out of range")
  end.

Section Verification.
Context `{Runtime}.

(** The loop [for i, dim in enumerate(allowed_dims)] of [_verify_tensor],
    from index [i] on. *)
Fixpoint check_dims (tensor_name tensor_type : string) (s : list nat)
    (i : nat) (dims : list nat) : res unit :=
  match dims with
  | [] => Ok tt
  | dim :: rest =>
      x ← shape_at s i;
      _ ← py_assert (Nat.leb x dim)
            (tensor_name ++ ": " ++ tensor_type ++ " tensor dimension " ++ str_nat i
             ++ " must be less than or equal to " ++ str_nat dim ++ ", got " ++ str_nat x);
      check_dims tensor_name tensor_type s (S i) rest
  end.

(** The checks of [_verify_tensor] on a tensor. *)
Definition verify_one_tensor (t : Tensor) (tensor_name tensor_type : string)
    (shapes dims channels : option (list nat)) : res unit :=
  _ ← (if String.eqb tensor_type "MASK" then
         mn ← tensor_min t;
         mx ← tensor_max t;
         py_assert (scalar_leb (Fin 0) mn && scalar_leb mx (Fin 1))
           (tensor_name ++ ": " ++ tensor_type
            ++ " tensor must have values between 0 and 1, got min " ++ repr_scalar mn
            ++ " and max " ++ repr_scalar mx)
       else Ok tt);
  _ ← match shapes with
      | Some l =>
          py_assert (nat_in (length (shape t)) l)
            (tensor_name ++ ": " ++ tensor_type ++ " tensor must have shape in "
             ++ repr_int_list l ++ ", got " ++ repr_shape (shape t))
      | None => Ok tt
      end;
  _ ← match dims with
      | Some l => check_dims tensor_name tensor_type (shape t) 0 l
      | None => Ok tt
      end;
  match channels with
  | Some l =>
      c ← shape_last (shape t);
      py_assert (nat_in c l)
        (tensor_name ++ ": " ++ tensor_type
         ++ " tensor must have the number of channels in " ++ repr_int_list l
         ++ ", got " ++ str_nat c)
  | None => Ok tt
  end.

(** [_verify_tensor].  It returns [True] when verification is switched
    off and [None] otherwise; on a list the [return] inside the loop
    leaves at the first element, and the recursive call does not pass
    [tensor_type], which then has its default, the empty string. *)
Fixpoint _verify_tensor (cfg : Config) (arg : PyVal) (tensor_name tensor_type : string)
    (shapes dims channels : option (list nat)) {struct arg} : res PyVal :=
  if negb (verify_tensors cfg) then Ok (VBool true)
  else
    match arg with
    | VTensor t =>
        _ ← verify_one_tensor t tensor_name tensor_type shapes dims channels;
        Ok VNone
    | VList l =>
        match l with
        | a :: _ => _verify_tensor cfg a tensor_name "" shapes dims channels
        | [] => Ok VNone
        end
    | _ => Ok VNone
    end.

(** [key in inputs and inputs[key][0] == tensor_type]. *)
Definition tagged (inputs : gmap string InputSpec) (key tensor_type : string) : bool :=
  match inputs !! key with
  | Some spec => eq_str (spec_head spec) tensor_type
  | None => false
  end.

(** The loop of [_verify_tensor_type] over the entries of a table. *)
Fixpoint verify_tensor_type_loop (cfg : Config) (table : PyDict TensorParams)
    (key : string) (arg : PyVal) (required_inputs optional_inputs : gmap string InputSpec)
    (tensor_name : string) : res PyVal :=
  match table with
  | [] => Ok (VBool true)
  | (tensor_type, params) :: rest =>
      if tagged required_inputs key tensor_type || tagged optional_inputs key tensor_type
      then _verify_tensor cfg arg tensor_name tensor_type
             (allowed_shapes params) (allowed_dims params) (allowed_channels params)
      else verify_tensor_type_loop cfg rest key arg required_inputs optional_inputs tensor_name
  end.

Definition _verify_tensor_type (cfg : Config) (key : string) (arg : PyVal)
    (required_inputs optional_inputs : gmap string InputSpec) (tensor_name : string)
    : res PyVal :=
  verify_tensor_type_loop cfg tensor_types key arg required_inputs optional_inputs tensor_name.

(** [_verify_return_type].  [return_type in tensor_types] hashes the tag,
    which fails for a tag that cannot be hashed, and looks its text up; the
    tag is then passed on as [tensor_type]. *)
Definition _verify_return_type (cfg : Config) (ret return_type : PyVal)
    (tensor_name : string) : res PyVal :=
  _ ← hashable return_type;
  match str_value return_type with
  | Some tag =>
      match dict_get tensor_types tag with
      | Some params =>
          _verify_tensor cfg ret tensor_name tag
            (allowed_shapes params) (allowed_dims params) (allowed_channels params)
      | None => Ok (VBool true)
      end
  | None => Ok (VBool true)
  end.
End Verification.

(** ** The wildcard type *)

Module AnyType.
(** [def __ne__(self, __value: object) -> bool: return False], on an
    instance whose text is [self]. *)
Definition __ne__ (self : string) (__value : PyVal) : bool := false.
End AnyType.

Definition any_type : PyVal := VAnyType "*".

(** [a != b] on the values host tags are made of.  Python calls
    [type(a).__ne__(a, b)]; the reflected [type(b).__ne__(b, a)] comes first
    when [type(b)] is a proper subclass of [type(a)] that overrides the
    method, and it is the fallback when the first returns [NotImplemented].
    [AnyType] is the only class of the universe that overrides [__ne__] and
    it has no subclass.  [None]: an operand (a tensor, a foreign object)
    whose own comparison is not modelled decides. *)
Definition py_ne (a b : PyVal) : option bool :=
  match a, b with
  | VAnyType s, _ => Some (AnyType.__ne__ s b)
  | (VTensor _ | VObj _), _ => None
  | _, VAnyType s => Some (AnyType.__ne__ s a)
  | VStr s, VStr s' => Some (negb (String.eqb s s'))
  | VStr _, (VTensor _ | VObj _) => None
  | VStr _, _ => Some true
  | _, _ => None
  end.

(** ** The type registry *)

Record TypeRegistry := {
  _ANNOTATION_TO_COMFYUI_TYPE : gmap string PyVal;
  _SHOULD_AUTOCONVERT : gmap string bool;
  _DEFAULT_FORCE_INPUT : gmap string bool
}.

(** The three dictionaries as the module creates them. *)
Definition empty_types : TypeRegistry := {|
  _ANNOTATION_TO_COMFYUI_TYPE := ∅;
  _SHOULD_AUTOCONVERT := {[ "str" := true ]};
  _DEFAULT_FORCE_INPUT := ∅
|}.

(** [register_type].  [is_auto_register] is only read by an assertion that
    is commented out. *)
Definition register_type (cls : PyType) (name : PyVal)
    (should_autoconvert is_auto_register force_input : bool)
    (r : TypeRegistry) : TypeRegistry * res unit :=
  match _get_fully_qualified_name cls with
  | Raise e => (r, Raise e)
  | Ok key =>
      match _ANNOTATION_TO_COMFYUI_TYPE r !! key with
      | Some _ => (r, Ok tt)
      | None =>
          ({| _ANNOTATION_TO_COMFYUI_TYPE := <[key := name]> (_ANNOTATION_TO_COMFYUI_TYPE r);
              _SHOULD_AUTOCONVERT := <[key := should_autoconvert]> (_SHOULD_AUTOCONVERT r);
              _DEFAULT_FORCE_INPUT := <[key := force_input]> (_DEFAULT_FORCE_INPUT r) |},
           Ok tt)
      end
  end.

(** The name under which the module is imported. *)
Definition this_module : string := "comfy_annotations".

Definition builtin (name : string) : PyType :=
  TyClass {| __module__ := "builtins"; __qualname__ := name |}.
Definition torch_Tensor : PyType :=
  TyClass {| __module__ := "torch"; __qualname__ := "Tensor" |}.
Definition ImageTensor : PyType :=
  TyClass {| __module__ := this_module; __qualname__ := "ImageTensor" |}.
Definition MaskTensor : PyType :=
  TyClass {| __module__ := this_module; __qualname__ := "MaskTensor" |}.
Definition AnyType_class : PyType :=
  TyClass {| __module__ := this_module; __qualname__ := "AnyType" |}.

(** The registry after the eight [register_type] calls at import. *)
Definition initial_types : TypeRegistry :=
  fold_left (fun r '(cls, name) => fst (register_type cls name false false false r))
    [ (torch_Tensor, VStr "TENSOR"); (ImageTensor, VStr "IMAGE"); (MaskTensor, VStr "MASK");
      (builtin "int", VStr "INT"); (builtin "float", VStr "FLOAT");
      (builtin "str", VStr "STRING"); (builtin "bool", VStr "BOOLEAN");
      (AnyType_class, any_type) ]
    empty_types.

(** [_get_type_str].  The warning it logs for an unregistered type has no
    effect on the result. *)
Fixpoint _get_type_str (r : TypeRegistry) (the_type : PyType) : res PyVal :=
  match _get_fully_qualified_name the_type with
  | Raise e => Raise e
  | Ok key =>
      let type_str := default any_type (_ANNOTATION_TO_COMFYUI_TYPE r !! key) in
      match the_type with
      | TyAlias _ OriginList args =>
          if bool_decide (_ANNOTATION_TO_COMFYUI_TYPE r !! key = None) then
            match args with
            | a :: _ => _get_type_str r a
            | [] => Raise (IndexError "tuple index out of range")
            end
          else Ok type_str
      | _ => Ok type_str
      end
  end.

(** ** String methods, on ASCII text *)

Definition is_upper (c : ascii) : bool :=
  let n := Ascii.N_of_ascii c in (65 <=? n)%N && (n <=? 90)%N.
Definition is_lower (c : ascii) : bool :=
  let n := Ascii.N_of_ascii c in (97 <=? n)%N && (n <=? 122)%N.
Definition to_upper (c : ascii) : ascii :=
  if is_lower c then Ascii.ascii_of_N (Ascii.N_of_ascii c - 32) else c.
Definition to_lower (c : ascii) : ascii :=
  if is_upper c then Ascii.ascii_of_N (Ascii.N_of_ascii c + 32) else c.
Definition is_space (c : ascii) : bool :=
  let n := Ascii.N_of_ascii c in
  ((9 <=? n)%N && (n <=? 13)%N) || ((28 <=? n)%N && (n <=? 32)%N).

(** [s.title()]: a letter is upper-cased after a character that is not a
    letter and lower-cased after a letter. *)
Fixpoint title_from (previous_is_cased : bool) (s : string) : string :=
  match s with
  | EmptyString => EmptyString
  | String c rest =>
      String (if previous_is_cased then to_lower c else to_upper c)
             (title_from (is_upper c || is_lower c) rest)
  end.
Definition title (s : string) : string := title_from false s.

(** [s.split(sep)] for a separator of one character: the pieces, with the
    empty ones. *)
Fixpoint split (sep : ascii) (s : string) : list string :=
  match s with
  | EmptyString => [EmptyString]
  | String c rest =>
      if Ascii.eqb c sep then EmptyString :: split sep rest
      else match split sep rest with
           | piece :: pieces => String c piece :: pieces
           | [] => [String c EmptyString]
           end
  end.

Fixpoint lstrip (s : string) : string :=
  match s with
  | String c rest => if is_space c then lstrip rest else s
  | EmptyString => EmptyString
  end.

Fixpoint rstrip (s : string) : string :=
  match s with
  | String c rest =>
      match rstrip rest with
      | EmptyString => if is_space c then EmptyString else String c EmptyString
      | rest' => String c rest'
      end
  | EmptyString => EmptyString
  end.

(** [s.strip()]. *)
Definition strip (s : string) : string := rstrip (lstrip s).

(** The characters of a string. *)
Fixpoint chars (s : string) : list ascii :=
  match s with
  | EmptyString => []
  | String c rest => c :: chars rest
  end.

(** ** Signature introspection *)

Definition StringInput_to_dict (value : string) (multiline force_input : bool) : PyDict PyVal :=
  [ ("default", VStr value); ("multiline", VBool multiline);
    ("display", VStr "input"); ("forceInput", VBool force_input) ].

(** [NumberInput.to_dict]: the entries whose value is not [None]. *)
Definition NumberInput_to_dict (default : scalar) (min max step round : option scalar)
    (display : string) : PyDict PyVal :=
  omap (fun '(k, v) => pair k <$> v)
    [ ("default", Some (VFloat default)); ("display", Some (VStr display));
      ("min", VFloat <$> min); ("max", VFloat <$> max);
      ("step", VFloat <$> step); ("round", VFloat <$> round) ].

(** [default != inspect.Parameter.empty]: false for the class itself, and
    for an [AnyType] instance, whose [__ne__] answers. *)
Definition default_ne_empty (d : Default) : bool :=
  match d with
  | DefEmpty => false
  | DefValue (VAnyType s) => AnyType.__ne__ s VNone
  | _ => true
  end.

(** [_annotate_input]: the schema entry, whether the parameter is optional,
    whether it is hidden. *)
Definition _annotate_input (r : TypeRegistry) (annotation : PyType) (default : Default)
    : res (InputSpec * bool * bool) :=
  type_name ← _get_type_str r annotation;
  match default with
  | DefChoice choices =>
      Ok ({| spec_head := VList (map VStr choices); spec_meta := None |}, false, false)
  | DefStringInput value multiline force_input optional hidden =>
      Ok ({| spec_head := type_name;
             spec_meta := Some (StringInput_to_dict value multiline force_input) |},
          optional, hidden)
  | DefNumberInput d mn mx step round display optional hidden =>
      Ok ({| spec_head := type_name;
             spec_meta := Some (NumberInput_to_dict d mn mx step round display) |},
          optional, hidden)
  | _ =>
      let metadata : PyDict PyVal :=
        match default with
        | DefNone => [("optional", VBool true); ("forceInput", VBool true)]
        | DefEmpty => [("forceInput", VBool true)]
        | DefValue v => [("default", v)]
        | _ => []
        end in
      key ← _get_fully_qualified_name annotation;
      let metadata :=
        if from_option id false (_DEFAULT_FORCE_INPUT r !! key)
        then dict_set metadata "forceInput" (VBool true) else metadata in
      Ok ({| spec_head := type_name; spec_meta := Some metadata |},
          default_ne_empty default, false)
  end.

(** A value of [hidden_inputs]: the two reserved names map to a plain
    string, other hidden parameters to their schema entry. *)
Inductive HiddenSpec :=
| HiddenName (s : string)
| HiddenEntry (spec : InputSpec).

Record InputTypes := {
  required_inputs : gmap string InputSpec;
  hidden_inputs : gmap string HiddenSpec;
  optional_inputs : gmap string InputSpec;
  input_is_list_map : gmap string bool;
  input_type_map : gmap string PyType
}.

Definition no_inputs : InputTypes := {|
  required_inputs := ∅; hidden_inputs := ∅; optional_inputs := ∅;
  input_is_list_map := ∅; input_type_map := ∅
|}.

(** One turn of the loop of [_infer_input_types_from_annotations]. *)
Definition infer_param (r : TypeRegistry) (acc : InputTypes) (p : Param) : res InputTypes :=
  let param_name := p_name p in
  let acc := {| required_inputs := required_inputs acc;
                hidden_inputs := hidden_inputs acc;
                optional_inputs := optional_inputs acc;
                input_is_list_map :=
                  <[param_name := origin_is_list (p_annotation p)]> (input_is_list_map acc);
                input_type_map := <[param_name := p_annotation p]> (input_type_map acc) |} in
  x ← _annotate_input r (p_annotation p) (p_default p);
  let '(the_param, is_optional, is_hidden) := (x : InputSpec * bool * bool) in
  let with_hidden (h : HiddenSpec) :=
    {| required_inputs := required_inputs acc;
       hidden_inputs := <[param_name := h]> (hidden_inputs acc);
       optional_inputs := optional_inputs acc;
       input_is_list_map := input_is_list_map acc;
       input_type_map := input_type_map acc |} in
  if String.eqb param_name "unique_id" then Ok (with_hidden (HiddenName "UNIQUE_ID"))
  else if String.eqb param_name "extra_pnginfo" then Ok (with_hidden (HiddenName "EXTRA_PNGINFO"))
  else if negb is_optional then
    Ok {| required_inputs := <[param_name := the_param]> (required_inputs acc);
          hidden_inputs := hidden_inputs acc;
          optional_inputs := optional_inputs acc;
          input_is_list_map := input_is_list_map acc;
          input_type_map := input_type_map acc |}
  else if is_hidden then Ok (with_hidden (HiddenEntry the_param))
  else
    Ok {| required_inputs := required_inputs acc;
          hidden_inputs := hidden_inputs acc;
          optional_inputs := <[param_name := the_param]> (optional_inputs acc);
          input_is_list_map := input_is_list_map acc;
          input_type_map := input_type_map acc |}.

Fixpoint infer_params (r : TypeRegistry) (acc : InputTypes) (params : list Param)
    : res InputTypes :=
  match params with
  | [] => Ok acc
  | p :: rest => acc' ← infer_param r acc p; infer_params r acc' rest
  end.

(** [_infer_input_types_from_annotations].  Of the debugging output only
    [params[0]], printed when the first parameter is skipped, can fail. *)
Definition _infer_input_types_from_annotations (r : TypeRegistry) (func : PyFunc)
    (skip_first debug : bool) : res InputTypes :=
  let params := f_parameters func in
  _ ← (if skip_first && debug then
         match params with
         | [] => Raise (IndexError "list index out of range")
         | _ => Ok tt
         end
       else Ok tt);
  let params := if skip_first then tail params else params in
  infer_params r no_inputs params.

(** The loop over [return_args] when the origin is [tuple]: the tags and
    the list flags, in order. *)
Fixpoint infer_tuple_returns (r : TypeRegistry) (return_args : list PyType)
    : res (list PyVal * list bool) :=
  match return_args with
  | [] => Ok ([], [])
  | arg :: rest =>
      '(tag, is_list) ←
        (if origin_is_list arg then
           match get_args arg with
           | list_arg :: _ => tag ← _get_type_str r list_arg; Ok (tag, true)
           | [] => Raise (IndexError "tuple index out of range")
           end
         else tag ← _get_type_str r arg; Ok (tag, false));
      '(tags, flags) ← infer_tuple_returns r rest;
      Ok (tag :: tags, is_list :: flags)
  end.

(** [_infer_return_types_from_annotations]: [inl] for a list of types given
    to the decorator, [inr] for a function whose annotation is read.  Of
    the debugging output only [_get_type_str(return_annotation)], printed
    for a list annotation, can fail. *)
Definition _infer_return_types_from_annotations (r : TypeRegistry)
    (func_or_types : list PyType + PyFunc) (debug : bool) : res (list PyVal * list bool) :=
  match func_or_types with
  | inl types => infer_tuple_returns r types
  | inr func =>
      let return_annotation := f_return_annotation func in
      let return_args := get_args return_annotation in
      if origin_is_tuple return_annotation then infer_tuple_returns r return_args
      else if origin_is_list return_annotation then
        _ ← (if debug then _ ← _get_type_str r return_annotation; Ok tt else Ok tt);
        match return_args with
        | a :: _ => tag ← _get_type_str r a; Ok ([tag], [true])
        | [] => Raise (IndexError "tuple index out of range")
        end
      else if negb (is_empty return_annotation) then
        tag ← _get_type_str r return_annotation; Ok ([tag], [false])
      else Ok ([], [])
  end.

(** ** State and exceptions together *)

(** A computation over a state [S] that returns or raises; what it did to
    the state before raising stays done. *)
Definition M (S A : Type) : Type := S -> S * res A.

#[global] Instance M_ret {S} : MRet (M S) := fun _ a s => (s, Ok a).
#[global] Instance M_bind {S} : MBind (M S) := fun _ _ k m s =>
  match m s with
  | (s', Ok a) => k a s'
  | (s', Raise e) => (s', Raise e)
  end.

Definition lift {S A} (r : res A) : M S A := fun s => (s, r).
Definition modify {S} (f : S -> S) : M S unit := fun s => (f s, Ok tt).

(** ** Calling the function and verifying the result *)

Definition nl : string := String (Ascii.ascii_of_nat 10) EmptyString.

(** What the outside world sees of an invocation: the calls of the
    underlying function and the calls of the exception hook, in order. *)
Inductive Event :=
| Called (func : PyFunc) (args : list PyVal) (kwargs : PyDict PyVal)
| Hooked (func : PyFunc) (e : Exn) (input_desc : list string) (buffer : string).

Definition is_call (ev : Event) : bool :=
  match ev with Called _ _ _ => true | Hooked _ _ _ _ => false end.
Definition is_hook (ev : Event) : bool :=
  match ev with Hooked _ _ _ _ => true | Called _ _ _ => false end.

Definition calls_made (tr : list Event) : nat := length (List.filter is_call tr).
Definition hook_calls (tr : list Event) : list Event := List.filter is_hook tr.

(** A record of the root logger, in the format of the buffer handler. *)
Definition log_record (level msg : string) : M string unit :=
  modify (fun buffer => buffer ++ level ++ ": " ++ msg ++ nl).

Definition is_none (v : PyVal) : bool :=
  match v with VNone => true | _ => false end.

(** [if return_names]: neither [None] nor empty. *)
Definition truthy_names (return_names : option (list string)) : option (list string) :=
  match return_names with
  | Some (n :: ns) => Some (n :: ns)
  | _ => None
  end.

Section Execution.
Context `{Runtime}.

Definition code_origin_loc_of (func : PyFunc) (line : nat) : string :=
  nl ++ " Source: " ++ f_qualname func ++ " " ++ co_filename func ++ ":" ++ str_nat line.

(** The first loop over the result: a warning for every [None]. *)
Fixpoint warn_none (i : nat) (result : list PyVal) : M string unit :=
  match result with
  | [] => mret tt
  | ret :: rest =>
      _ ← (if is_none ret then log_record "WARNING" ("Result " ++ str_nat i ++ " is None")
           else mret tt);
      warn_none (S i) rest
  end.

(** The second loop over the result, zipped with the return types that
    [adjusted_return_types[i]] finds: the inner [try] turns any failure
    of the verification into a [ValueError]. *)
Fixpoint verify_returns (cfg : Config) (debug : bool) (code_origin_loc : string)
    (return_names : option (list string)) (adjusted_return_types : list PyVal)
    (i : nat) (result : list PyVal) : M string unit :=
  match result with
  | [] => mret tt
  | ret :: rest =>
      _ ← (if debug then log_record "INFO" ("Result " ++ str_nat i ++ " is " ++ repr_type ret)
           else mret tt);
      _ ← lift
            (match
               (name ← match truthy_names return_names with
                       | Some names =>
                           match names !! i with
                           | Some n => Ok ("'" ++ n ++ "'")
                           | None => Raise (IndexError "list index out of range")
                           end
                       | None => Ok ("return_" ++ str_nat i)
                       end;
                return_type ← match adjusted_return_types !! i with
                              | Some ty => Ok ty
                              | None => Raise (IndexError "tuple index out of range")
                              end;
                _verify_return_type cfg ret return_type name)
             with
             | Ok _ => Ok tt
             | Raise e =>
                 Raise (ValueError ("Error verifying OUTPUT tensor " ++ exn_str e
                                    ++ nl ++ code_origin_loc))
             end);
      verify_returns cfg debug code_origin_loc return_names adjusted_return_types (S i) rest
  end.

(** What follows the call inside the [try]: the checks on the value the
    function returned, and the value handed back. *)
Definition check_result (cfg : Config) (func : PyFunc) (debug : bool)
    (adjusted_return_types : list PyVal) (wrapped_name : string)
    (return_names : option (list string)) (result : PyVal) : M string PyVal :=
  let return_line_number := co_firstlineno func in
  let code_origin_loc := code_origin_loc_of func return_line_number in
  let num_expected_returns := length adjusted_return_types in
  if Nat.eqb num_expected_returns 0 then
    _ ← lift (py_assert (is_none result)
                (wrapped_name ++ ": Return value is not None, but no return type specified."
                 ++ nl ++ code_origin_loc));
    mret (VTuple [VNone])
  else
    let result := match result with VTuple l => l | _ => [result] end in
    _ ← lift (py_assert (Nat.eqb (length result) (length adjusted_return_types))
                (wrapped_name ++ ": Number of return values " ++ str_nat (length result)
                 ++ " does not match number of return types "
                 ++ str_nat (length adjusted_return_types) ++ nl ++ code_origin_loc));
    _ ← warn_none 0 result;
    let new_result := map (_all_to Cpu) result in
    _ ← verify_returns cfg debug code_origin_loc return_names adjusted_return_types 0 result;
    mret (VTuple new_result).

(** The body of the [try]: the [n]-th call of the function, whose output
    goes to the buffer, then the checks. *)
Definition attempt (cfg : Config) (func : PyFunc) (n : nat) (args : list PyVal)
    (kwargs : PyDict PyVal) (debug : bool) (adjusted_return_types : list PyVal)
    (wrapped_name : string) (return_names : option (list string)) : M string PyVal :=
  result ← (fun buffer : string =>
              let '(out, r) := behaviour func n args kwargs in (buffer ++ out, r));
  check_result cfg func debug adjusted_return_types wrapped_name return_names result.

(** The [while] loop with [remaining] turns to go, that is with
    [try_count < max_tries] exactly when [remaining] is not zero.  Every
    turn opens a fresh buffer; the [finally] clause only undoes the
    logging set-up. *)
Fixpoint retry (cfg : Config) (remaining : nat) (try_count : Z) (func : PyFunc)
    (args : list PyVal) (kwargs : PyDict PyVal) (debug : bool) (input_desc : list string)
    (adjusted_return_types : list PyVal) (wrapped_name : string)
    (return_names : option (list string)) : M (list Event) PyVal :=
  match remaining with
  | O => lift (Raise (AssertionError "Should never reach this point"))
  | S remaining =>
      let try_count := (try_count + 1)%Z in
      fun tr =>
        let '(buffer, r) :=
          attempt cfg func (calls_made tr) args kwargs debug adjusted_return_types
            wrapped_name return_names "" in
        let tr := (tr ++ [Called func args kwargs])%list in
        match r with
        | Ok v => (tr, Ok v)
        | Raise e =>
            if (try_count =? max_tries cfg)%Z then (tr, Raise e)
            else
              match process_exception_logic cfg with
              | Some hook =>
                  let tr := (tr ++ [Hooked func e input_desc buffer])%list in
                  match hook func e input_desc buffer with
                  | Ok _ =>
                      retry cfg remaining try_count func args kwargs debug input_desc
                        adjusted_return_types wrapped_name return_names tr
                  | Raise e' => (tr, Raise e')
                  end
              | None =>
                  retry cfg remaining try_count func args kwargs debug input_desc
                    adjusted_return_types wrapped_name return_names tr
              end
        end
  end.

Definition _call_function_and_verify_result (cfg : Config) (func : PyFunc)
    (args : list PyVal) (kwargs : PyDict PyVal) (debug : bool) (input_desc : list string)
    (adjusted_return_types : list PyVal) (wrapped_name : string)
    (return_names : option (list string)) : M (list Event) PyVal :=
  retry cfg (Z.to_nat (max_tries cfg)) 0 func args kwargs debug input_desc
    adjusted_return_types wrapped_name return_names.
End Execution.

(** ** Node classes and the global registries *)

(** The arguments of [ComfyFunc]. *)
Record Options := {
  category : string;
  display_name : option string;
  workflow_name : option string;
  description : option string;
  is_output_node : bool;
  return_types : option (list PyType);
  return_names : option (list string);
  validate_inputs : option string;       (* a function of the user, by name *)
  is_changed : option string;
  has_preview : bool;
  debug : bool;
  color : option string;
  automatic_debugging : bool
}.

(** The defaults of [ComfyFunc]. *)
Definition default_options : Options := {|
  category := default_category; display_name := None; workflow_name := None;
  description := None; is_output_node := false; return_types := None;
  return_names := None; validate_inputs := None; is_changed := None;
  has_preview := false; debug := false; color := None; automatic_debugging := true
|}.

(** What the inner [wrapper] closes over. *)
Record Closure := {
  func : PyFunc;
  opts : Options;
  is_cls_mth : bool;
  inputs : InputTypes;
  input_is_list : bool;
  adjusted_return_types : list PyVal;
  wrapped_name : string;
  code_origin_loc : string
}.

Inductive Callable :=
| UserCode (name : string)
| InputTypesLambda (required : gmap string InputSpec) (hidden : gmap string HiddenSpec)
                   (optional : gmap string InputSpec)     (* lambda cls: all_inputs *)
| Wrapper (c : Closure).

(** A value in the [__dict__] of a class. *)
Inductive AttrVal :=
| AStaticMethod (f : Callable)
| AClassMethod (f : Callable)
| AFunction (f : Callable)
| AStr (s : string)
| ABool (b : bool)
| ATags (l : list PyVal)
| ABools (l : list bool)
| ANames (l : list string).

(** A class object: its module, its name and its own attributes (base
    classes are not modelled). *)
Record ClassObj := {
  cls_module : string;
  cls_name : string;
  cls_dict : PyDict AttrVal
}.

(** The text of a class in an f-string. *)
Definition repr_class (c : ClassObj) : string :=
  "<class '" ++ cls_module c ++ "." ++ cls_name c ++ "'>".

(** Class objects live in a heap and are referred to by address, so that
    two registry entries can share one class. *)
Record NodeRegistry := {
  already_initialized : bool;
  NODE_CLASS_MAPPINGS : gmap string nat;
  NODE_DISPLAY_NAME_MAPPINGS : gmap string string;
  heap : gmap nat ClassObj;
  next_address : nat;
  module_globals : gmap string nat       (* globals() of this module *)
}.

Definition set_initialized (b : bool) (n : NodeRegistry) : NodeRegistry :=
  {| already_initialized := b;
     NODE_CLASS_MAPPINGS := NODE_CLASS_MAPPINGS n;
     NODE_DISPLAY_NAME_MAPPINGS := NODE_DISPLAY_NAME_MAPPINGS n;
     heap := heap n; next_address := next_address n;
     module_globals := module_globals n |}.

(** [x in d.values()]. *)
Definition in_values `{EqDecision A} (x : A) (d : gmap string A) : bool :=
  bool_decide (x ∈ (map_to_list d).*2).

(** [for key, value in class_dict.items(): setattr(node_class, key, value)]. *)
Definition setattrs (class_dict : PyDict AttrVal) (c : ClassObj) : ClassObj :=
  {| cls_module := cls_module c; cls_name := cls_name c;
     cls_dict := fold_left (fun d '(k, v) => dict_set d k v) class_dict (cls_dict c) |}.

Definition valid_hex_color (color : string) : res unit :=
  _ ← py_assert (match color with String "#" _ => true | _ => false end)
        "Color must be a hex color code";
  _ ← py_assert (Nat.eqb (String.length color) 7) "Color must be a hex color code";
  py_assert (forallb (fun c => existsb (Ascii.eqb c) (chars "0123456789ABCDEF"))
               (tail (chars color)))
    "Color must be a hex color code".

(** The three assertions of [_create_comfy_node] against duplicates. *)
Definition check_duplicates (n : NodeRegistry) (cname workflow_name display_name : string)
    (node_class : option nat) : res unit :=
  _ ← py_assert (bool_decide (NODE_CLASS_MAPPINGS n !! workflow_name = None))
        ("Node class '" ++ workflow_name ++ " (" ++ cname ++ ")' already exists!");
  _ ← py_assert (negb (in_values display_name (NODE_DISPLAY_NAME_MAPPINGS n)))
        ("Display name '" ++ display_name ++ "' already exists!");
  py_assert (match node_class with
             | Some c => negb (in_values c (NODE_CLASS_MAPPINGS n))
             | None => true
             end)
    ("Only one method from '"
     ++ match node_class with
        | Some c => from_option repr_class "" (heap n !! c)
        | None => "None"
        end
     ++ " can be used as a ComfyUI node.'").

(** The dictionary [class_dict] of [_create_comfy_node], after the entries
    whose value is [None] were dropped. *)
Definition make_class_dict (cname category : string) (process_function : AttrVal)
    (required_inputs : gmap string InputSpec) (hidden_inputs : gmap string HiddenSpec)
    (optional_inputs : gmap string InputSpec) (input_is_list : bool)
    (return_types : list PyVal) (return_names : option (list string))
    (output_is_list : list bool) (description : string) (is_output_node : bool)
    (validate_inputs is_changed : option string) : PyDict AttrVal :=
  let class_dict : PyDict (option AttrVal) :=
    fold_left (fun d '(k, v) => dict_set d k v)
      [ ("INPUT_TYPES",
         Some (AClassMethod (InputTypesLambda required_inputs hidden_inputs optional_inputs)));
        ("CATEGORY", Some (AStr category));
        ("RETURN_TYPES", Some (ATags return_types));
        ("FUNCTION", Some (AStr cname));
        ("INPUT_IS_LIST", Some (ABool input_is_list));
        ("OUTPUT_IS_LIST", Some (ABools output_is_list));
        ("OUTPUT_NODE", Some (ABool is_output_node));
        ("RETURN_NAMES", ANames <$> return_names);
        ("VALIDATE_INPUTS", AFunction ∘ UserCode <$> validate_inputs);
        ("IS_CHANGED", AFunction ∘ UserCode <$> is_changed);
        ("DESCRIPTION", Some (AStr description));
        (cname, Some process_function) ] [] in
  omap (fun '(k, v) => pair k <$> v) class_dict.

(** The last five lines of [_create_comfy_node]: the attributes are set on
    the class of the method, or a class is created, and the two registry
    entries are written. *)
Definition install_node (class_dict : PyDict AttrVal) (node_class : option nat)
    (workflow_name display_name : string) (n : NodeRegistry) : NodeRegistry :=
  let '(node_class, heap', next') :=
    match node_class with
    | Some c => (c, alter (setattrs class_dict) c (heap n), next_address n)
    | None =>
        (next_address n,
         <[next_address n := {| cls_module := this_module; cls_name := workflow_name;
                                cls_dict := class_dict |}]> (heap n),
         S (next_address n))
    end in
  {| already_initialized := already_initialized n;
     NODE_CLASS_MAPPINGS := <[workflow_name := node_class]> (NODE_CLASS_MAPPINGS n);
     NODE_DISPLAY_NAME_MAPPINGS :=
       <[workflow_name := display_name]> (NODE_DISPLAY_NAME_MAPPINGS n);
     heap := heap'; next_address := next';
     module_globals := module_globals n |}.

Section Nodes.
Context `{Runtime}.

Definition _create_comfy_node (cname category : string) (node_class : option nat)
    (process_function : AttrVal) (display_name workflow_name : string)
    (required_inputs : gmap string InputSpec) (hidden_inputs : gmap string HiddenSpec)
    (optional_inputs : gmap string InputSpec) (input_is_list : bool)
    (return_types : list PyVal) (return_names : option (list string))
    (output_is_list : list bool) (description : string) (is_output_node : bool)
    (validate_inputs is_changed : option string) (color : option string)
    (source_location : option string) : M NodeRegistry unit :=
  description ← lift
    (match color with
     | Some color => _ ← valid_hex_color color; Ok (description ++ color_lines color)
     | None => Ok description
     end);
  let description :=
    match source_location with
    | Some loc => description ++ nl ++ nl ++ "NodeSource=" ++ loc
    | None => description
    end in
  let class_dict :=
    make_class_dict cname category process_function required_inputs hidden_inputs
      optional_inputs input_is_list return_types return_names output_is_list description
      is_output_node validate_inputs is_changed in
  (fun n =>
     match
       (if already_initialized n then Ok tt
        else check_duplicates n cname workflow_name display_name node_class)
     with
     | Raise e => (n, Raise e)
     | Ok _ => (install_node class_dict node_class workflow_name display_name n, Ok tt)
     end) : M NodeRegistry unit.
End Nodes.

(** ** The decorator and the wrapper it builds *)

(** Everything the module keeps at top level, and the trace of what an
    invocation did to the outside. *)
Record World := {
  config : Config;
  types : TypeRegistry;
  nodes : NodeRegistry;
  trace : list Event
}.

Definition on_nodes {A} (m : M NodeRegistry A) : M World A := fun w =>
  let '(n, r) := m (nodes w) in
  ({| config := config w; types := types w; nodes := n; trace := trace w |}, r).

Definition on_trace {A} (m : M (list Event) A) : M World A := fun w =>
  let '(tr, r) := m (trace w) in
  ({| config := config w; types := types w; nodes := nodes w; trace := tr |}, r).

(** The name of [type(v)], as an attribute error shows it. *)
Definition short_type_name (v : PyVal) : string :=
  match v with
  | VNone => "NoneType" | VBool _ => "bool" | VInt _ => "int" | VFloat _ => "float"
  | VStr _ => "str" | VAnyType _ => "AnyType" | VTensor _ => "Tensor"
  | VList _ => "list" | VTuple _ => "tuple" | VObj _ => "object"
  end.

(** The receiver of [arg.shape] and [arg.unsqueeze]: a tensor. *)
Definition as_tensor (arg : PyVal) : res Tensor :=
  match arg with
  | VTensor t => Ok t
  | _ => Raise (AttributeError ("'" ++ short_type_name arg ++ "' object has no attribute 'shape'"))
  end.

(** [len(v)]. *)
Definition py_len (v : PyVal) : res nat :=
  match v with
  | VList l | VTuple l => Ok (length l)
  | VStr s | VAnyType s => Ok (String.length s)
  | VTensor t =>
      match shape t with
      | n :: _ => Ok n
      | [] => Raise (TypeError "len() of a 0-d tensor")
      end
  | _ => Raise (TypeError ("object of type '" ++ short_type_name v ++ "' has no len()"))
  end.

(** [v[0]]. *)
Definition py_getitem0 (v : PyVal) : res PyVal :=
  match v with
  | VList (x :: _) | VTuple (x :: _) => Ok x
  | VList [] => Raise (IndexError "list index out of range")
  | VTuple [] => Raise (IndexError "tuple index out of range")
  | VStr (String c _) | VAnyType (String c _) => Ok (VStr (String c EmptyString))
  | VStr EmptyString | VAnyType EmptyString => Raise (IndexError "string index out of range")
  | VTensor t =>
      match shape t with
      | S _ :: rest =>
          Ok (VTensor {| shape := rest; data := take (fold_right Nat.mul 1 rest) (data t);
                         device := device t |})
      | 0 :: _ => Raise (IndexError "index 0 is out of bounds for dimension 0 with size 0")
      | [] => Raise (IndexError "invalid index of a 0-dim tensor")
      end
  | _ => Raise (TypeError ("'" ++ short_type_name v ++ "' object is not subscriptable"))
  end.

Section Wrapper.
Context `{Runtime}.

Definition _get_device : Device := if cuda_is_available then Cuda0 else Cpu.

Definition _maybe_reload_module (cfg : Config) (func : PyFunc) : res (bool * PyFunc) :=
  if String.eqb (f_module func) "" || negb (reload_modules cfg) then Ok (false, func)
  else reload_from_disk func.

(** The two statements at the head of the first loop of [wrapper]: the
    move to the device and the promotion of a two-dimensional mask. *)
Definition promote_mask (c : Closure) (key : string) (arg : PyVal) : res PyVal :=
  let arg := _all_to _get_device arg in
  if tagged (required_inputs (inputs c)) key "MASK" then
    t ← as_tensor arg;
    if Nat.eqb (length (shape t)) 2 then Ok (VTensor (unsqueeze0 t)) else Ok arg
  else Ok arg.

(** [[cls(el) for el in arg]]. *)
Fixpoint construct_each (cls : PyType) (l : list PyVal) : res (list PyVal) :=
  match l with
  | [] => Ok []
  | el :: rest => x ← construct cls el; xs ← construct_each cls rest; Ok (x :: xs)
  end.

Definition autoconvert (r : TypeRegistry) (c : Closure) (key : string) (arg : PyVal)
    : res PyVal :=
  if bool_decide (is_Some (required_inputs (inputs c) !! key))
     || bool_decide (is_Some (optional_inputs (inputs c) !! key))
  then
    match input_type_map (inputs c) !! key with
    | None => Raise (KeyError key)
    | Some cls =>
        name ← _get_fully_qualified_name cls;
        if from_option id false (_SHOULD_AUTOCONVERT r !! name) then
          match arg with
          | VList l => l' ← construct_each cls l; Ok (VList l')
          | _ => construct cls arg
          end
        else Ok arg
    end
  else Ok arg.

(** The entry of [input_desc] for one argument. *)
Definition describe (key : string) (arg : PyVal) : res string :=
  let desc_name := type_name_of arg in
  match arg with
  | VTensor t => info ← _image_info t; Ok (key ++ " (" ++ desc_name ++ "): " ++ info)
  | _ => Ok (key ++ " (" ++ desc_name ++ "): " ++ str_of arg)
  end.

(** One turn of the first loop of [wrapper]: the value that is stored
    back under [key] and the description that is appended. *)
Definition prepare_arg (w : World) (c : Closure) (key : string) (arg : PyVal)
    : res (PyVal * string) :=
  arg ← promote_mask c key arg;
  arg ← autoconvert (types w) c key arg;
  desc ← describe key arg;
  _ ← match _verify_tensor_type (config w) key arg (required_inputs (inputs c))
              (optional_inputs (inputs c)) ("'" ++ key ++ "'") with
      | Ok _ => Ok tt
      | Raise e =>
          Raise (ValueError ("Error verifying INPUT tensor " ++ exn_str e
                             ++ nl ++ code_origin_loc c))
      end;
  Ok (arg, desc).

(** The first loop of [wrapper] over [kwargs.items()]. *)
Fixpoint prepare_kwargs (w : World) (c : Closure) (items : PyDict PyVal)
    : res (PyDict PyVal * list string) :=
  match items with
  | [] => Ok ([], [])
  | (key, arg) :: rest =>
      x ← prepare_arg w c key arg;
      y ← prepare_kwargs w c rest;
      Ok ((key, fst (x : PyVal * string)) :: fst (y : PyDict PyVal * list string),
          snd x :: snd y)
  end.

(** The loop of [wrapper] that undoes the list mode for the parameters
    that are not lists themselves. *)
Fixpoint unwrap_lists (c : Closure) (items : PyDict PyVal) : res (PyDict PyVal) :=
  match items with
  | [] => Ok []
  | (arg_name, v) :: rest =>
      _ ← (if debug (opts c) then _ ← py_len v; Ok tt else Ok tt);
      v' ← match input_is_list_map (inputs c) !! arg_name with
           | None => Raise (KeyError arg_name)
           | Some true => Ok v
           | Some false =>
               n ← py_len v;
               _ ← py_assert (Nat.eqb n 1) "";
               py_getitem0 v
           end;
      rest' ← unwrap_lists c rest;
      Ok ((arg_name, v') :: rest')
  end.

(** The inner function [wrapper] of the decorator. *)
Definition wrapper (c : Closure) (args : list PyVal) (kwargs : PyDict PyVal)
    : M World PyVal :=
  x ← (fun w => (w, prepare_kwargs w c kwargs));
  let '(kwargs, input_desc) := (x : PyDict PyVal * list string) in
  let args := if is_cls_mth c then tail args else args in
  kwargs ← lift (if input_is_list c then unwrap_lists c kwargs else Ok kwargs);
  _ ← on_nodes (modify (set_initialized true));
  y ← (fun w => (w, _maybe_reload_module (config w) (func c)));
  let '(reloaded, latest_func) := (y : bool * PyFunc) in
  result ← (fun w =>
              on_trace (_call_function_and_verify_result (config w) latest_func args kwargs
                          (debug (opts c)) input_desc (adjusted_return_types c)
                          (wrapped_name c) (return_names (opts c))) w);
  if has_preview (opts c) then lift (_add_preview result) else mret result.
End Wrapper.

(** [if s] for an optional string: neither [None] nor empty. *)
Definition truthy_str (s : option string) : option string :=
  match s with
  | Some (String c rest) => Some (String c rest)
  | _ => None
  end.

(** [inspect.getattr_static(cls, attr, None)] on a class of the heap. *)
Definition getattr_static (n : NodeRegistry) (cls : nat) (attr : string) : option AttrVal :=
  obj ← heap n !! cls; dict_get (cls_dict obj) attr.

Definition _is_static_method (n : NodeRegistry) (cls : option nat) (attr : string) : bool :=
  match cls with
  | None => false
  | Some c =>
      match getattr_static n c attr with
      | Some (AStaticMethod _) => true
      | _ => false
      end
  end.

Definition _is_class_method (n : NodeRegistry) (cls : option nat) (attr : string) : bool :=
  match cls with
  | None => false
  | Some c =>
      match getattr_static n c attr with
      | Some (AClassMethod _) => true
      | _ => false
      end
  end.

Definition _get_node_class (n : NodeRegistry) (func : PyFunc) : option nat :=
  let split_name := split "." (f_qualname func) in
  if Nat.ltb 1 (length split_name) then
    match split_name !! (length split_name - 2) with
    | Some class_name =>
        match module_globals n !! class_name with
        | Some node_class => Some node_class
        | None => f_globals func !! class_name
        end
    | None => None
    end
  else None.

Section Decorator.
Context `{Runtime}.

(** [ComfyFunc(...)(func)]: the inner function [decorator], under the
    arguments [o] of [ComfyFunc]. *)
Definition decorator (o : Options) (func : PyFunc) : M World PyFunc := fun w =>
  let wrapped_name := f_qualname func ++ "_comfyfunc_wrapper" in
  let source_location := co_filename func ++ ":" ++ str_nat (co_firstlineno func) in
  let code_origin_loc := nl ++ " Source: " ++ f_qualname func ++ " " ++ source_location in
  let node_class := _get_node_class (nodes w) func in
  let is_static := _is_static_method (nodes w) node_class (f_name func) in
  let is_cls_mth := _is_class_method (nodes w) node_class (f_name func) in
  let is_member :=
    bool_decide (is_Some node_class) && negb is_static && negb is_cls_mth in
  match
    (inputs ← _infer_input_types_from_annotations (types w) func is_member (debug o);
     returns ← match return_types o with
               | Some l => _infer_return_types_from_annotations (types w) (inl l) (debug o)
               | None => _infer_return_types_from_annotations (types w) (inr func) (debug o)
               end;
     _ ← match truthy_names (return_names o) with
         | Some names =>
             if Nat.eqb (length names) (length (fst returns)) then Ok tt
             else
               match return_types o with
               | Some l =>
                   Raise (AssertionError
                            ("Number of output names must match number of return types. Got "
                             ++ str_nat (length names) ++ " names and "
                             ++ str_nat (length l) ++ " return types."))
               | None => Raise (TypeError "object of type 'NoneType' has no len()")
               end
         | None => Ok tt
         end;
     Ok (inputs, returns))
  with
  | Raise e => (w, Raise e)
  | Ok (inputs, (adjusted_return_types, output_is_list)) =>
      let force_output := Nat.eqb (length adjusted_return_types) 0 in
      let name_parts := map title (split "_" (f_name func)) in
      let input_is_list := in_values true (input_is_list_map inputs) in
      let closure := {|
        func := func; opts := o; is_cls_mth := is_cls_mth; inputs := inputs;
        input_is_list := input_is_list; adjusted_return_types := adjusted_return_types;
        wrapped_name := wrapped_name; code_origin_loc := code_origin_loc |} in
      let wrapper := AFunction (Wrapper closure) in
      let wrapper :=
        if negb (bool_decide (is_Some node_class)) || is_static
        then AStaticMethod (Wrapper closure) else wrapper in
      let wrapper := if is_cls_mth then AClassMethod (Wrapper closure) else wrapper in
      let the_description :=
        match description o with
        | Some d => d
        | None =>
            match docstring_mode (config w), truthy_str (f_doc func) with
            | NONE, _ | _, None => ""
            | mode, Some doc =>
                let the_description := strip doc in
                match mode with
                | BRIEF => from_option id "" (head (split (Ascii.ascii_of_nat 10) the_description))
                | _ => the_description
                end
            end
        end in
      let '(w', r) :=
        on_nodes
          (_create_comfy_node wrapped_name (category o) node_class wrapper
             (from_option id (join " " name_parts) (truthy_str (display_name o)))
             (from_option id (join "" name_parts) (truthy_str (workflow_name o)))
             (required_inputs inputs) (hidden_inputs inputs) (optional_inputs inputs)
             input_is_list adjusted_return_types (return_names o) output_is_list
             the_description (is_output_node o || force_output)
             (validate_inputs o) (is_changed o) (color o) (Some source_location)) w in
      match r with
      | Ok _ => (w', Ok func)
      | Raise e => (w', Raise e)
      end
  end.

(** [ComfyFunc(...)], which returns [decorator]. *)
Definition ComfyFunc (o : Options) : PyFunc -> M World PyFunc := decorator o.
End Decorator.

(** The registries before anything is registered: both empty, the window
    of initialisation open, no class on the heap.  Of [globals()] nothing
    is held: this is the state the examples start from, and their
    functions are plain functions, for which [_get_node_class] returns
    before it looks at [globals()] (see [plain_functions_have_no_class]
    and [decorator_of_a_plain_function]).
    The names the module itself binds at import (its classes, its imports)
    are not modelled here; a function whose [__qualname__] names one of
    them before its last dot is outside the examples. *)
Definition initial_nodes : NodeRegistry := {|
  already_initialized := false;
  NODE_CLASS_MAPPINGS := ∅;
  NODE_DISPLAY_NAME_MAPPINGS := ∅;
  heap := ∅; next_address := 0;
  module_globals := ∅
|}.

Definition initial_world : World := {|
  config := default_config; types := initial_types; nodes := initial_nodes; trace := []
|}.

(** ** The preview of a result *)

Module Preview.

(** What [_add_preview] returns: the result as it is, or a dictionary with
    the result under ["result"] and, under ["ui"], a text or the temporary
    file of an image. *)
Inductive Previewed :=
| Unchanged (result : PyVal)
| WithText (preview_item : PyVal) (result : PyVal)
| WithImages (filename : string) (result : PyVal).

(** The value under ["result"], or the value itself. *)
Definition result_of (p : Previewed) : PyVal :=
  match p with
  | Unchanged result | WithText _ result | WithImages _ result => result
  end.

(** The inner function [get_first_result]. *)
Fixpoint get_first_result (results : PyVal) : PyVal :=
  match results with
  | VTuple l | VList l =>
      match l with
      | first :: _ => get_first_result first
      | [] => VNone
      end
  | _ => results
  end.

Section WithHost.
(** Whether [import folder_paths] finds the module of the host. *)
Variable folder_paths_importable : bool.
(** The branch of a tensor, from [preview_item[0]] to [image.save]: it
    writes a file under a random name and gives the name. *)
Variable save_temp_image : Tensor -> res string.

Definition _add_preview (result : PyVal) : res Previewed :=
  _ ← (if folder_paths_importable then Ok tt
       else Raise (UserException "ModuleNotFoundError" "No module named 'folder_paths'"));
  n ← py_len result;
  _ ← py_assert (Nat.leb 1 n) ("Expected at least 1 result, got " ++ str_nat n);
  let preview_item := get_first_result result in
  match preview_item with
  | VStr _ | VAnyType _ => Ok (WithText preview_item result)
  | VTensor t => filename ← save_temp_image t; Ok (WithImages filename result)
  | _ => Ok (Unchanged result)
  end.
End WithHost.

End Preview.

(** ** Reloading the module of a function *)

Module HotReload.

(** The two dictionaries [_maybe_reload_module] keeps at top level. *)
Record Ledger := {
  module_reload_times : gmap string Q;
  func_dict : gmap string PyFunc
}.

(** [module_reload_times.get(module_name, 0)]. *)
Definition time_of (l : Ledger) (module_name : string) : Q :=
  from_option id 0%Q (module_reload_times l !! module_name).

Section WithImporter.
(** The interpreter outside this module: its state, the module objects,
    and what [importlib] and [os.path] do to them.  [file_of] is
    [module.__file__] as [os.path.getmtime] takes it, [module_attr] is
    [getattr(module, name)], with [None] when [hasattr] is false. *)
Variables (S Mod : Type).
Variable import_module : string -> M S Mod.
Variable file_of : Mod -> S -> res string.
Variable getmtime : string -> S -> res Q.
Variable module_attr : Mod -> string -> S -> option PyFunc.
Variable reload : Mod -> M S unit.

(** [_maybe_reload_module], the ledger and the interpreter as state. *)
Definition _maybe_reload_module (cfg : Config) (func : PyFunc)
    : M (S * Ledger) (bool * PyFunc) := fun '(s, l) =>
  let module_name := f_module func in
  if String.eqb module_name "" || negb (reload_modules cfg) then ((s, l), Ok (false, func))
  else
    let '(s, r) := import_module module_name s in
    match r with
    | Raise e => ((s, l), Raise e)
    | Ok module =>
        match (module_file ← file_of module s; getmtime module_file s) with
        | Raise e => ((s, l), Raise e)
        | Ok current_modified_time =>
            if negb (Qle_bool current_modified_time (time_of l module_name))
               && bool_decide (is_Some (module_attr module (f_name func) s))
            then
              let '(s, r) := reload module s in
              match r with
              | Raise e => ((s, l), Raise e)
              | Ok _ =>
                  let l := {| module_reload_times :=
                                <[module_name := current_modified_time]> (module_reload_times l);
                              func_dict := func_dict l |} in
                  match module_attr module (f_name func) s with
                  | None =>
                      ((s, l),
                       Raise (AttributeError ("module '" ++ module_name
                                              ++ "' has no attribute '" ++ f_name func ++ "'")))
                  | Some latest =>
                      ((s, {| module_reload_times := module_reload_times l;
                              func_dict := <[f_name func := latest]> (func_dict l) |}),
                       Ok (true, latest))
                  end
              end
            else
              match func_dict l !! f_name func with
              | Some cached => ((s, l), Ok (false, cached))
              | None => ((s, l), Ok (false, func))
              end
        end
    end.
End WithImporter.

End HotReload.

(** ** Vocabulary of the statements *)



(** [result] as the tuple the wrapper makes of it. *)
Definition as_tuple (result : PyVal) : list PyVal :=
  match result with VTuple l => l | _ => [result] end.

(** The value [_call_function_and_verify_result] hands back for a result
    of the function that passed the checks: [(None,)] when no return type
    is declared, otherwise the tuple of the results, each moved to the CPU. *)
Definition normalized (adjusted_return_types : list PyVal) (result : PyVal) : PyVal :=
  if Nat.eqb (length adjusted_return_types) 0 then VTuple [VNone]
  else VTuple (map (_all_to Cpu) (as_tuple result)).

(** What failed attempts leave in the trace: the call, and the call of the
    hook when one is configured, for each pair of buffer and exception. *)
Definition failure_events (cfg : Config) (func : PyFunc) (args : list PyVal)
    (kwargs : PyDict PyVal) (input_desc : list string) (fails : list (string * Exn))
    : list Event :=
  flat_map (fun '(buffer, e) =>
              Called func args kwargs ::
              match process_exception_logic cfg with
              | Some _ => [Hooked func e input_desc buffer]
              | None => []
              end) fails.

(** The message of the arity error. *)
Definition arity_message (func : PyFunc) (wrapped_name : string)
    (returned expected : nat) : string :=
  wrapped_name ++ ": Number of return values " ++ str_nat returned
  ++ " does not match number of return types " ++ str_nat expected
  ++ nl ++ code_origin_loc_of func (co_firstlineno func).

(** Every tensor the value holds, in lists and in tuples at any depth,
    lives on device [d].  Of what another object holds nothing is known:
    for it the predicate does not hold. *)
Fixpoint on_device (d : Device) (v : PyVal) : Prop :=
  match v with
  | VTensor t => device t = d
  | VList l | VTuple l =>
      (fix all (l : list PyVal) : Prop :=
         match l with
         | [] => True
         | x :: rest => on_device d x /\ all rest
         end) l
  | VObj _ => False
  | _ => True
  end.

(** A value whose tensors, if it holds any, are held in lists only: a
    tensor, a plain value, or a list of such values at any depth; no tuple
    and no other object inside. *)
Fixpoint list_nested (v : PyVal) : bool :=
  match v with
  | VList l => (fix all (l : list PyVal) : bool :=
                  match l with
                  | [] => true
                  | x :: rest => list_nested x && all rest
                  end) l
  | VTuple _ | VObj _ => false
  | _ => true
  end.



(** The keys [_create_comfy_node] writes besides the name of the wrapper. *)
Definition fixed_keys : list string :=
  [ "INPUT_TYPES"; "CATEGORY"; "RETURN_TYPES"; "FUNCTION"; "INPUT_IS_LIST";
    "OUTPUT_IS_LIST"; "OUTPUT_NODE"; "RETURN_NAMES"; "VALIDATE_INPUTS"; "IS_CHANGED";
    "DESCRIPTION" ].

(** The world once line 580 of the wrapper has run. *)
Definition initialized (w : World) : World :=
  {| config := config w; types := types w;
     nodes := set_initialized true (nodes w); trace := trace w |}.

Definition with_trace (tr : list Event) (w : World) : World :=
  {| config := config w; types := types w; nodes := nodes w; trace := tr |}.

(** The workflow identifier the decorator registers a function under. *)
Definition workflow_id (o : Options) (func : PyFunc) : string :=
  from_option id (join "" (map title (split "_" (f_name func)))) (truthy_str (workflow_name o)).

(** The return types the decorator declares for a function, explicit or
    inferred from the annotation, with the list flags. *)
Definition declared_returns (r : TypeRegistry) (o : Options) (func : PyFunc)
    : res (list PyVal * list bool) :=
  match return_types o with
  | Some l => _infer_return_types_from_annotations r (inl l) (debug o)
  | None => _infer_return_types_from_annotations r (inr func) (debug o)
  end.

(** The function the host finds under a workflow identifier: the attribute
    the class names as its [FUNCTION]. *)
Definition node_function (n : NodeRegistry) (workflow : string) : option Closure :=
  cls ← NODE_CLASS_MAPPINGS n !! workflow;
  obj ← heap n !! cls;
  match dict_get (cls_dict obj) "FUNCTION" with
  | Some (AStr name) =>
      match dict_get (cls_dict obj) name with
      | Some (AStaticMethod (Wrapper c)) | Some (AClassMethod (Wrapper c))
      | Some (AFunction (Wrapper c)) => Some c
      | _ => None
      end
  | _ => None
  end.

(** ** Concrete objects for the examples *)

(** A runtime without accelerator, with short texts where the real one
    formats numbers. *)
Definition cpu_runtime : Runtime := {|
  cuda_is_available := false;
  repr_scalar := fun _ => "tensor(...)";
  repr_type := fun v => "<class '" ++ short_type_name v ++ "'>";
  type_name_of := short_type_name;
  str_of := short_type_name;
  _image_info := fun t =>
    match data t with
    | [] => Raise (RuntimeError "min(): the tensor has no elements")
    | _ => Ok ("shape=" ++ repr_shape (shape t))
    end;
  construct := fun _ v => Ok v;
  reload_from_disk := fun f => Ok (false, f);
  _add_preview := fun v => Ok v;
  color_lines := fun color => nl ++ nl ++ "ComfyUINodeColor=" ++ color
|}.

Definition half : scalar := Fin (1 # 2).

(** A mask of two rows and two columns, all values one half. *)
Definition mask_2d : Tensor :=
  {| shape := [2; 2]; data := [half; half; half; half]; device := Cpu |}.

(** The same values as one image of a batch. *)
Definition mask_3d : Tensor :=
  {| shape := [1; 2; 2]; data := [half; half; half; half]; device := Cpu |}.

(** A tensor of the right rank for a mask with a value above one. *)
Definition bright_3d : Tensor :=
  {| shape := [1; 1; 2]; data := [half; Fin 5]; device := Cpu |}.

(** The values of [mask_2d] with two leading axes of length one. *)
Definition mask_4d : Tensor :=
  {| shape := [1; 1; 2; 2]; data := [half; half; half; half]; device := Cpu |}.

(** One pixel with three channels, as a batch of one image. *)
Definition pixel : Tensor :=
  {| shape := [1; 1; 1; 3]; data := [half; half; half]; device := Cpu |}.

(** A schema with one required input, ["mask"], tagged "MASK". *)
Definition mask_required : gmap string InputSpec :=
  {[ "mask" := {| spec_head := VStr "MASK"; spec_meta := Some [("forceInput", VBool true)] |} ]}.

(** A function without parameters, defined at line 10 of [example.py]. *)
Definition function_of (name : string) (b : nat -> string * res PyVal) : PyFunc := {|
  f_module := "example"; f_name := name; f_qualname := name; f_doc := None;
  co_filename := "example.py"; co_firstlineno := 10;
  f_parameters := []; f_return_annotation := TyEmpty; f_globals := ∅;
  behaviour := fun n _ _ => b n
|}.

(** Fails when it is called for the first time, returns 7 afterwards. *)
Definition flaky : PyFunc :=
  function_of "flaky"
    (fun n => match n with
              | 0 => ("connecting", Raise (UserException "ConnectionError" "refused"))
              | _ => ("done", Ok (VInt 7))
              end).

(** Returns a pair, always. *)
Definition pair_function : PyFunc :=
  function_of "pair" (fun _ => ("", Ok (VTuple [VInt 1; VInt 2]))).

(** Fails whenever it is called, with the number of the call. *)
Definition hopeless : PyFunc :=
  function_of "hopeless" (fun n => ("trying", Raise (UserException "OSError" (str_nat n)))).

(** A hook that looks at nothing and returns. *)
Definition quiet_hook : Hook := fun _ _ _ _ => Ok tt.

(** Two tries and the quiet hook. *)
Definition two_tries : Config := {|
  reload_modules := false; docstring_mode := FULL; verify_tensors := true;
  process_exception_logic := Some quiet_hook; max_tries := 2
|}.

(** The module with verification on, one try and no reloading. *)
Definition quiet_world : World := {|
  config := {| reload_modules := false; docstring_mode := FULL; verify_tensors := true;
               process_exception_logic := None; max_tries := 1 |};
  types := initial_types; nodes := initial_nodes; trace := []
|}.

(** [def save_image(image: ImageTensor)], without a return annotation. *)
Definition save_image : PyFunc := {|
  f_module := "example"; f_name := "save_image"; f_qualname := "save_image";
  f_doc := Some "Writes the image to disk.";
  co_filename := "example.py"; co_firstlineno := 20;
  f_parameters := [ {| p_name := "image"; p_annotation := ImageTensor; p_default := DefEmpty |} ];
  f_return_annotation := TyEmpty; f_globals := ∅;
  behaviour := fun _ _ _ => ("saved", Ok VNone)
|}.

(** [def save__image(image: ImageTensor)]: another function, whose name
    gives the same workflow identifier. *)
Definition save__image : PyFunc := {|
  f_module := "example"; f_name := "save__image"; f_qualname := "save__image";
  f_doc := None; co_filename := "example.py"; co_firstlineno := 60;
  f_parameters := [ {| p_name := "image"; p_annotation := ImageTensor; p_default := DefEmpty |} ];
  f_return_annotation := TyEmpty; f_globals := ∅;
  behaviour := fun _ _ _ => ("saved again", Ok VNone)
|}.

(** [def invert(mask: MaskTensor = None) -> MaskTensor]. *)
Definition invert : PyFunc := {|
  f_module := "example"; f_name := "invert"; f_qualname := "invert"; f_doc := None;
  co_filename := "example.py"; co_firstlineno := 30;
  f_parameters := [ {| p_name := "mask"; p_annotation := MaskTensor; p_default := DefNone |} ];
  f_return_annotation := MaskTensor; f_globals := ∅;
  behaviour := fun _ _ kwargs => ("", Ok (from_option id VNone (dict_get kwargs "mask")))
|}.

(** [def threshold(mask: MaskTensor) -> MaskTensor]: the mask is required. *)
Definition threshold : PyFunc := {|
  f_module := "example"; f_name := "threshold"; f_qualname := "threshold"; f_doc := None;
  co_filename := "example.py"; co_firstlineno := 50;
  f_parameters := [ {| p_name := "mask"; p_annotation := MaskTensor; p_default := DefEmpty |} ];
  f_return_annotation := MaskTensor; f_globals := ∅;
  behaviour := fun _ _ kwargs => ("", Ok (from_option id VNone (dict_get kwargs "mask")))
|}.

(** [def blend(images: list[ImageTensor], strength: int) -> ImageTensor]. *)
Definition blend : PyFunc := {|
  f_module := "example"; f_name := "blend"; f_qualname := "blend"; f_doc := None;
  co_filename := "example.py"; co_firstlineno := 40;
  f_parameters :=
    [ {| p_name := "images";
         p_annotation := TyAlias (Some {| __module__ := "builtins"; __qualname__ := "list" |})
                           OriginList [ImageTensor];
         p_default := DefEmpty |};
      {| p_name := "strength"; p_annotation := builtin "int"; p_default := DefEmpty |} ];
  f_return_annotation := ImageTensor; f_globals := ∅;
  behaviour := fun _ _ kwargs =>
    ("", Ok match dict_get kwargs "images" with
            | Some (VList (x :: _)) => x
            | _ => VNone
            end)
|}.

(** The closure the decorator builds for a function that is no method,
    under the default options and the types registered at import. *)
Definition closure_of (func : PyFunc) (returns : list PyVal) : Closure :=
  let inputs :=
    match _infer_input_types_from_annotations initial_types func false false with
    | Ok inputs => inputs
    | Raise _ => no_inputs
    end in
  {| func := func; opts := default_options; is_cls_mth := false; inputs := inputs;
     input_is_list := in_values true (input_is_list_map inputs);
     adjusted_return_types := returns;
     wrapped_name := f_qualname func ++ "_comfyfunc_wrapper";
     code_origin_loc := nl ++ " Source: " ++ f_qualname func ++ " " ++ co_filename func
                        ++ ":" ++ str_nat (co_firstlineno func) |}.

Definition blend_closure : Closure := closure_of blend [VStr "IMAGE"].
Definition invert_closure : Closure := closure_of invert [VStr "MASK"].

Definition threshold_closure : Closure := closure_of threshold [VStr "MASK"].


(** ** Vocabulary of the further properties *)

(** A host tag the registry can give out: the tag of a registered type,
    or the wildcard. *)
Definition known_tag (r : TypeRegistry) (v : PyVal) : Prop :=
  v = any_type \/ exists key, _ANNOTATION_TO_COMFYUI_TYPE r !! key = Some v.

(** No type is marked for conversion, apart from the entry "str" the
    module starts with. *)
Definition converts_nothing (r : TypeRegistry) : Prop :=
  forall key, _SHOULD_AUTOCONVERT r !! key = Some true -> key = "str".




(** No try at all, and the quiet hook. *)
Definition no_tries : Config := {|
  reload_modules := false; docstring_mode := FULL; verify_tensors := true;
  process_exception_logic := Some quiet_hook; max_tries := 0
|}.

(** A hook that fails itself. *)
Definition broken_hook : Hook := fun _ _ _ _ => Raise (UserException "HookError" "no disk space").

(** Three tries and the broken hook. *)
Definition three_tries_broken_hook : Config := {|
  reload_modules := false; docstring_mode := FULL; verify_tensors := true;
  process_exception_logic := Some broken_hook; max_tries := 3
|}.


(** One try, no hook, and no verification of tensors. *)
Definition unverified : Config := {|
  reload_modules := false; docstring_mode := FULL; verify_tensors := false;
  process_exception_logic := None; max_tries := 1
|}.


(** A colour the node accepts: [#] and six digits of upper-case
    hexadecimal. *)
Definition hex_color_code (color : string) : Prop :=
  exists digits,
    color = String "#" digits /\
    String.length digits = 6 /\
    Forall (fun c => c ∈ chars "0123456789ABCDEF") (chars digits).

(** No two keys of a map share a value. *)
Definition distinct_values {A} (m : gmap string A) : Prop :=
  forall k1 k2 v, m !! k1 = Some v -> m !! k2 = Some v -> k1 = k2.

(** The registries as the window of initialisation keeps them: the same
    identifiers in both, no display name and no class used twice, every
    registered class on the heap and the heap below the next address. *)
Record registry_consistent (n : NodeRegistry) : Prop := {
  same_identifiers :
    forall k, is_Some (NODE_CLASS_MAPPINGS n !! k) <-> is_Some (NODE_DISPLAY_NAME_MAPPINGS n !! k);
  distinct_display_names : distinct_values (NODE_DISPLAY_NAME_MAPPINGS n);
  distinct_classes : distinct_values (NODE_CLASS_MAPPINGS n);
  classes_on_heap :
    forall k c, NODE_CLASS_MAPPINGS n !! k = Some c -> is_Some (heap n !! c);
  heap_below_next : forall a, is_Some (heap n !! a) -> a < next_address n
}.


(** Whether the decorator takes a function for a method with [self]: its
    class is found and the attribute is neither static nor a class method. *)
Definition is_member (n : NodeRegistry) (func : PyFunc) : bool :=
  let node_class := _get_node_class n func in
  bool_decide (is_Some node_class)
  && negb (_is_static_method n node_class (f_name func))
  && negb (_is_class_method n node_class (f_name func)).

(** The display name the decorator registers a function under. *)
Definition shown_name (o : Options) (func : PyFunc) : string :=
  from_option id (join " " (map title (split "_" (f_name func)))) (truthy_str (display_name o)).


(** A class [Filters] that is there before its method is decorated, as
    when the module is reloaded: it has the static method [sharpen] and,
    from the decoration before, output names. *)
Definition filters_class : ClassObj := {|
  cls_module := "example"; cls_name := "Filters";
  cls_dict := [ ("sharpen", AStaticMethod (UserCode "sharpen"));
                ("RETURN_NAMES", ANames ["sharpened"]) ]
|}.

(** [Filters.sharpen(image: ImageTensor) -> ImageTensor], a static method. *)
Definition sharpen : PyFunc := {|
  f_module := "example"; f_name := "sharpen"; f_qualname := "Filters.sharpen"; f_doc := None;
  co_filename := "example.py"; co_firstlineno := 70;
  f_parameters := [ {| p_name := "image"; p_annotation := ImageTensor; p_default := DefEmpty |} ];
  f_return_annotation := ImageTensor; f_globals := {[ "Filters" := 0 ]};
  behaviour := fun _ _ kwargs => ("", Ok (from_option id VNone (dict_get kwargs "image")))
|}.

(** The module of [Filters] when it is loaded again: the class is on the
    heap and the wrapper has run. *)
Definition reloaded_world : World := {|
  config := default_config; types := initial_types;
  nodes := {| already_initialized := true;
              NODE_CLASS_MAPPINGS := {[ "Sharpen" := 0 ]};
              NODE_DISPLAY_NAME_MAPPINGS := {[ "Sharpen" := "Sharpen" ]};
              heap := {[ 0 := filters_class ]}; next_address := 1;
              module_globals := ∅ |};
  trace := []
|}.

(** The defaults, but for two output names. *)
Definition two_names : Options := {|
  category := default_category; display_name := None; workflow_name := None;
  description := None; is_output_node := false; return_types := None;
  return_names := Some ["mask"; "inverse"]; validate_inputs := None; is_changed := None;
  has_preview := false; debug := false; color := None; automatic_debugging := true
|}.


(** In how many of the required, the hidden and the optional inputs a name
    is a key. *)
Definition placed (i : InputTypes) (k : string) : nat :=
  match required_inputs i !! k with Some _ => 1 | None => 0 end
  + match hidden_inputs i !! k with Some _ => 1 | None => 0 end
  + match optional_inputs i !! k with Some _ => 1 | None => 0 end.

(** What the five maps of the introspection hold for a name. *)
Definition entry (i : InputTypes) (k : string)
    : option InputSpec * option HiddenSpec * option InputSpec * option bool * option PyType :=
  (required_inputs i !! k, hidden_inputs i !! k, optional_inputs i !! k,
   input_is_list_map i !! k, input_type_map i !! k).

(** The parameters the introspection goes through. *)
Definition inspected (func : PyFunc) (skip_first : bool) : list Param :=
  if skip_first then tail (f_parameters func) else f_parameters func.


(** [def stamp(image: ImageTensor, unique_id: int)]: the second parameter
    has a reserved name. *)
Definition stamp : PyFunc := {|
  f_module := "example"; f_name := "stamp"; f_qualname := "stamp"; f_doc := None;
  co_filename := "example.py"; co_firstlineno := 80;
  f_parameters :=
    [ {| p_name := "image"; p_annotation := ImageTensor; p_default := DefEmpty |};
      {| p_name := "unique_id"; p_annotation := builtin "int"; p_default := DefEmpty |} ];
  f_return_annotation := ImageTensor; f_globals := ∅;
  behaviour := fun _ _ kwargs => ("", Ok (from_option id VNone (dict_get kwargs "image")))
|}.


(** A value that is neither a tensor nor a list. *)
Definition plain_value (v : PyVal) : bool :=
  match v with
  | VTensor _ | VList _ => false
  | _ => true
  end.


(** An interpreter that counts the reloads: a module is known by its
    name, its file is the name with [.py], every module has the function
    [flaky], and only [example.py] was ever written to. *)
Definition import_by_name : string -> M nat string := fun name s => (s, Ok name).
Definition file_by_name : string -> nat -> res string := fun module _ => Ok (module ++ ".py").
Definition mtime_of_example : string -> nat -> res Q := fun file _ =>
  if String.eqb file "example.py" then Ok 5%Q else Ok 0%Q.
Definition flaky_everywhere : string -> string -> nat -> option PyFunc := fun _ name _ =>
  if String.eqb name "flaky" then Some flaky else None.
Definition count_reload : string -> M nat unit := fun _ s => (S s, Ok tt).

(** Nothing reloaded yet. *)
Definition empty_ledger : HotReload.Ledger :=
  {| HotReload.module_reload_times := ∅; HotReload.func_dict := ∅ |}.

(** A function of the module [other] that is also called [flaky]. *)
Definition other_flaky : PyFunc := {|
  f_module := "other"; f_name := "flaky"; f_qualname := "flaky"; f_doc := None;
  co_filename := "other.py"; co_firstlineno := 1;
  f_parameters := []; f_return_annotation := TyEmpty; f_globals := ∅;
  behaviour := fun _ _ _ => ("", Ok (VInt 0))
|}.

(** A host without previews of images. *)
Definition no_image_preview : Tensor -> res string :=
  fun _ => Raise (UserException "OSError" "read-only file system").


(** The keyword arguments as the host delivers them to a node in list
    mode: every one belongs to a parameter and is a list, of one element
    when the parameter is not declared as a list. *)
Definition delivered_in_lists (c : Closure) (kwargs : PyDict PyVal) : Prop :=
  Forall (fun '(key, v) =>
            match input_is_list_map (inputs c) !! key with
            | Some true => exists l, v = VList l
            | Some false => exists x, v = VList [x]
            | None => False
            end) kwargs.

(** Returns a pair when it is called for the first time, 7 afterwards. *)
Definition pair_then_seven : PyFunc :=
  function_of "pair_then_seven"
    (fun n => match n with
              | 0 => ("", Ok (VTuple [VInt 1; VInt 2]))
              | _ => ("", Ok (VInt 7))
              end).

(** One pixel on the first CUDA device. *)
Definition cuda_pixel : Tensor :=
  {| shape := [1; 1; 1; 3]; data := [half; half; half]; device := Cuda0 |}.

(** Returns a tuple whose only element is a tuple that holds [cuda_pixel]. *)
Definition nested_result : PyFunc :=
  function_of "nested_result" (fun _ => ("", Ok (VTuple [VTuple [VTensor cuda_pixel]]))).

(** [def mix(images: list[ImageTensor], mask: MaskTensor) -> ImageTensor]:
    in list mode because of [images], with a required mask that is not a
    list. *)
Definition mix : PyFunc := {|
  f_module := "example"; f_name := "mix"; f_qualname := "mix"; f_doc := None;
  co_filename := "example.py"; co_firstlineno := 90;
  f_parameters :=
    [ {| p_name := "images";
         p_annotation := TyAlias (Some {| __module__ := "builtins"; __qualname__ := "list" |})
                           OriginList [ImageTensor];
         p_default := DefEmpty |};
      {| p_name := "mask"; p_annotation := MaskTensor; p_default := DefEmpty |} ];
  f_return_annotation := ImageTensor; f_globals := ∅;
  behaviour := fun _ _ kwargs =>
    ("", Ok match dict_get kwargs "images" with
            | Some (VList (x :: _)) => x
            | _ => VNone
            end)
|}.

Definition mix_closure : Closure := closure_of mix [VStr "IMAGE"].


(** The same registries and the same world with other globals of the
    module. *)
Definition set_globals (g : gmap string nat) (n : NodeRegistry) : NodeRegistry :=
  {| already_initialized := already_initialized n;
     NODE_CLASS_MAPPINGS := NODE_CLASS_MAPPINGS n;
     NODE_DISPLAY_NAME_MAPPINGS := NODE_DISPLAY_NAME_MAPPINGS n;
     heap := heap n; next_address := next_address n;
     module_globals := g |}.

Definition with_globals (g : gmap string nat) (w : World) : World :=
  {| config := config w; types := types w; nodes := set_globals g (nodes w);
     trace := trace w |}.


(** * Properties *)

(** ** The wildcard type *)

(** C9.  For the wildcard, [any_type != x] evaluates to [False] whatever
    the object [x] is: the method [AnyType.__ne__] returns [False] for every
    receiver and argument, and the operator [!=] with an [AnyType] instance
    on its left is answered by that method. *)
Theorem any_type_never_differs :
  forall x : PyVal,
    py_ne any_type x = Some false /\
    forall s : string, AnyType.__ne__ s x = false /\ py_ne (VAnyType s) x = Some false.
Proof.
  intros x. split; [reflexivity|]. intros s. split; reflexivity.
Qed.

(** ** The type registry *)

Lemma register_type_known cls key name should_autoconvert is_auto_register force_input r :
  _get_fully_qualified_name cls = Ok key ->
  is_Some (_ANNOTATION_TO_COMFYUI_TYPE r !! key) ->
  register_type cls name should_autoconvert is_auto_register force_input r = (r, Ok tt).
Proof.
  intros Hkey [old Hold]. unfold register_type. rewrite Hkey, Hold. reflexivity.
Qed.

(** C3.  [register_type] is first-write-wins: when the fully-qualified name
    of the type is already a key of [_ANNOTATION_TO_COMFYUI_TYPE], a call
    with any name and any flags returns without raising and leaves the
    three dictionaries as they were. *)
Theorem register_type_first_write_wins :
  forall (cls : PyType) (key : string) (name : PyVal)
         (should_autoconvert is_auto_register force_input : bool) (r : TypeRegistry),
    _get_fully_qualified_name cls = Ok key ->
    key ∈ dom (_ANNOTATION_TO_COMFYUI_TYPE r) ->
    let r' := fst (register_type cls name should_autoconvert is_auto_register force_input r) in
    snd (register_type cls name should_autoconvert is_auto_register force_input r) = Ok tt /\
    _ANNOTATION_TO_COMFYUI_TYPE r' = _ANNOTATION_TO_COMFYUI_TYPE r /\
    _SHOULD_AUTOCONVERT r' = _SHOULD_AUTOCONVERT r /\
    _DEFAULT_FORCE_INPUT r' = _DEFAULT_FORCE_INPUT r /\
    r' = r.
Proof.
  intros cls key name sa iar fi r Hkey Hdom. apply elem_of_dom in Hdom.
  rewrite (register_type_known cls key name sa iar fi r Hkey Hdom). simpl. auto.
Qed.

(** The tag of [int] survives an attempt to register it again as a
    wildcard that is converted and forced. *)
Lemma register_type_first_write_wins_witness :
  fst (register_type (builtin "int") any_type true false true initial_types) = initial_types.
Proof.
  apply (register_type_first_write_wins (builtin "int") "builtins.int" any_type
           true false true initial_types).
  - reflexivity.
  - apply elem_of_dom. vm_compute. eauto.
Defined.

(** Registering a type twice is registering it once. *)
Lemma register_type_twice cls name name' sa sa' iar iar' fi fi' r :
  fst (register_type cls name' sa' iar' fi' (fst (register_type cls name sa iar fi r)))
  = fst (register_type cls name sa iar fi r).
Proof.
  unfold register_type. destruct (_get_fully_qualified_name cls) as [key|e]; [|reflexivity].
  destruct (_ANNOTATION_TO_COMFYUI_TYPE r !! key) eqn:Hold; simpl.
  - rewrite Hold. reflexivity.
  - rewrite lookup_insert_eq. reflexivity.
Qed.

(** ** Tensor verification *)

Lemma scalar_leb_trans a b c :
  scalar_leb a b = true -> scalar_leb b c = true -> scalar_leb a c = true.
Proof.
  destruct a, b, c; simpl; try congruence.
  rewrite !Qle_bool_iff. apply Qle_trans.
Qed.








Section VerificationFacts.
Context `{Runtime}.







End VerificationFacts.





(** C10.  On a list, [_verify_tensor] verifies the first element only, and
    without the tensor type: the result for [a :: rest] is the result for
    [a] with [tensor_type] empty, so it depends neither on [rest] nor on
    the tensor type that was passed; an empty list passes; and a tensor at
    the head of a list is verified without a look at its elements, so the
    range check of a mask is never applied to it. *)
Theorem verify_tensor_on_a_list :
  forall (H : Runtime) (cfg : Config) (name tensor_type : string)
         (shapes dims channels : option (list nat)),
    (forall (a : PyVal) (rest : list PyVal),
       _verify_tensor cfg (VList (a :: rest)) name tensor_type shapes dims channels
       = _verify_tensor cfg a name "" shapes dims channels) /\
    _verify_tensor cfg (VList []) name tensor_type shapes dims channels
    = Ok (if verify_tensors cfg then VNone else VBool true) /\
    (forall (sh : list nat) (d1 d2 : list scalar) (dev1 dev2 : Device) (rest1 rest2 : list PyVal),
       _verify_tensor cfg
         (VList (VTensor {| shape := sh; data := d1; device := dev1 |} :: rest1))
         name tensor_type shapes dims channels
       = _verify_tensor cfg
           (VList (VTensor {| shape := sh; data := d2; device := dev2 |} :: rest2))
           name tensor_type shapes dims channels).
Proof.
  intros H cfg name tensor_type shapes dims channels.
  destruct (verify_tensors cfg) eqn:Hon.
  - split; [|split].
    + intros a rest. cbn [_verify_tensor]. rewrite Hon. reflexivity.
    + cbn [_verify_tensor]. rewrite Hon. reflexivity.
    + intros. cbn [_verify_tensor]. rewrite Hon. reflexivity.
  - split; [|split].
    + intros a rest. cbn [_verify_tensor]. rewrite Hon.
      destruct a; cbn [_verify_tensor]; rewrite Hon; reflexivity.
    + cbn [_verify_tensor]. rewrite Hon. reflexivity.
    + intros. cbn [_verify_tensor]. rewrite Hon. reflexivity.
Qed.

(** The mask with a value of 5 is rejected as an output, and accepted when
    it comes in a list, alone or before a tensor of the wrong rank. *)
Example bright_mask_in_a_list :
  is_ok (@_verify_return_type cpu_runtime default_config (VTensor bright_3d)
           (VStr "MASK") "return_0") = false /\
  @_verify_return_type cpu_runtime default_config (VList [VTensor bright_3d])
    (VStr "MASK") "return_0" = Ok VNone /\
  @_verify_return_type cpu_runtime default_config
    (VList [VTensor bright_3d; VTensor mask_4d]) (VStr "MASK") "return_0" = Ok VNone.
Proof. split; [|split]; vm_compute; reflexivity. Qed.

(** ** The retry loop *)

Lemma M_bind_eq {S A B} (m : M S A) (k : A -> M S B) (s : S) :
  (m ≫= k) s = match m s with
               | (s', Ok a) => k a s'
               | (s', Raise e) => (s', Raise e)
               end.
Proof. reflexivity. Qed.

Lemma calls_made_app tr tr' : calls_made (tr ++ tr')%list = calls_made tr + calls_made tr'.
Proof. unfold calls_made. rewrite List.filter_app, length_app. reflexivity. Qed.

Lemma hook_calls_app tr tr' : hook_calls (tr ++ tr')%list = (hook_calls tr ++ hook_calls tr')%list.
Proof. unfold hook_calls. apply List.filter_app. Qed.

Lemma calls_made_failures cfg func args kwargs input_desc fails :
  calls_made (failure_events cfg func args kwargs input_desc fails) = length fails.
Proof.
  induction fails as [|[b e] fails IH]; [reflexivity|].
  change (failure_events cfg func args kwargs input_desc ((b, e) :: fails))
    with ((Called func args kwargs ::
             match process_exception_logic cfg with
             | Some _ => [Hooked func e input_desc b]
             | None => []
             end) ++ failure_events cfg func args kwargs input_desc fails)%list.
  rewrite calls_made_app, IH. destruct (process_exception_logic cfg); reflexivity.
Qed.

Lemma hook_calls_failures cfg func args kwargs input_desc fails hook :
  process_exception_logic cfg = Some hook ->
  hook_calls (failure_events cfg func args kwargs input_desc fails)
  = map (fun '(b, e) => Hooked func e input_desc b) fails.
Proof.
  intros Hhook. induction fails as [|[b e] fails IH]; [reflexivity|].
  change (failure_events cfg func args kwargs input_desc ((b, e) :: fails))
    with ((Called func args kwargs ::
             match process_exception_logic cfg with
             | Some _ => [Hooked func e input_desc b]
             | None => []
             end) ++ failure_events cfg func args kwargs input_desc fails)%list.
  rewrite hook_calls_app, IH, Hhook. reflexivity.
Qed.

Section ExecutionFacts.
Context `{Runtime}.
Variables (cfg : Config) (func : PyFunc) (args : list PyVal) (kwargs : PyDict PyVal)
          (debug : bool) (input_desc : list string) (adjusted_return_types : list PyVal)
          (wrapped_name : string) (return_names : option (list string)).

Abbreviation attempt_at n :=
  (attempt cfg func n args kwargs debug adjusted_return_types wrapped_name return_names "").
Abbreviation retry_from remaining try_count :=
  (retry cfg remaining try_count func args kwargs debug input_desc adjusted_return_types
     wrapped_name return_names).

(** An exception of the function is the exception of the attempt, and
    the buffer holds what the function wrote. *)
Lemma attempt_when_function_raises n out e :
  behaviour func n args kwargs = (out, Raise e) -> attempt_at n = (out, Raise e).
Proof. unfold attempt. rewrite M_bind_eq. intros ->. reflexivity. Qed.

(** A value of the function goes through the checks. *)
Lemma attempt_when_function_returns n out v :
  behaviour func n args kwargs = (out, Ok v) ->
  attempt_at n
  = check_result cfg func debug adjusted_return_types wrapped_name return_names v out.
Proof. unfold attempt. rewrite M_bind_eq. intros ->. reflexivity. Qed.

(** One turn of the loop. *)
Lemma retry_step remaining try_count tr :
  retry_from (S remaining) try_count tr
  = let '(buffer, r) := attempt_at (calls_made tr) in
    let tr := (tr ++ [Called func args kwargs])%list in
    match r with
    | Ok v => (tr, Ok v)
    | Raise e =>
        if (try_count + 1 =? max_tries cfg)%Z then (tr, Raise e)
        else
          match process_exception_logic cfg with
          | Some hook =>
              let tr := (tr ++ [Hooked func e input_desc buffer])%list in
              match hook func e input_desc buffer with
              | Ok _ => retry_from remaining (try_count + 1)%Z tr
              | Raise e' => (tr, Raise e')
              end
          | None => retry_from remaining (try_count + 1)%Z tr
          end
    end.
Proof. reflexivity. Qed.

(** Failed attempts that are not the last one allowed are skipped over:
    each leaves its events in the trace and the loop goes on. *)
Lemma retry_failures fails :
  forall remaining try_count tr,
    max_tries cfg = (try_count + Z.of_nat remaining)%Z ->
    length fails < remaining ->
    (forall i b e, fails !! i = Some (b, e) -> attempt_at (calls_made tr + i) = (b, Raise e)) ->
    (forall hook b e, process_exception_logic cfg = Some hook ->
                      (b, e) ∈ fails -> hook func e input_desc b = Ok tt) ->
    retry_from remaining try_count tr
    = retry_from (remaining - length fails) (try_count + Z.of_nat (length fails))%Z
        (tr ++ failure_events cfg func args kwargs input_desc fails)%list.
Proof.
  induction fails as [|[b e] fails IH]; intros remaining try_count tr Hmax Hlen Hfail Hhook.
  - cbn [length failure_events flat_map]. rewrite Nat.sub_0_r, Z.add_0_r, app_nil_r.
    reflexivity.
  - cbn [length] in Hlen. destruct remaining as [|remaining]; [lia|].
    rewrite retry_step.
    pose proof (Hfail 0 b e eq_refl) as H0. rewrite Nat.add_0_r in H0. rewrite H0.
    cbv zeta.
    destruct (Z.eqb_spec (try_count + 1) (max_tries cfg)) as [Heq|Hne]; [lia|].
    assert (Hrest : forall tr', calls_made tr' = S (calls_made tr) ->
              retry_from remaining (try_count + 1)%Z tr'
              = retry_from (remaining - length fails)
                  (try_count + 1 + Z.of_nat (length fails))%Z
                  (tr' ++ failure_events cfg func args kwargs input_desc fails)%list).
    { intros tr' Hcalls. apply IH.
      - lia.
      - lia.
      - intros i b' e' Hi. rewrite Hcalls.
        replace (S (calls_made tr) + i) with (calls_made tr + S i) by lia.
        apply Hfail. exact Hi.
      - intros hook b' e' Hcfg Hin. apply (Hhook hook); [exact Hcfg|].
        apply elem_of_cons. right. exact Hin. }
    replace (try_count + Z.of_nat (length ((b, e) :: fails)))%Z
      with (try_count + 1 + Z.of_nat (length fails))%Z by (cbn [length]; lia).
    replace (S remaining - length ((b, e) :: fails)) with (remaining - length fails)
      by (cbn [length]; lia).
    cbn [failure_events flat_map].
    fold (failure_events cfg func args kwargs input_desc fails).
    destruct (process_exception_logic cfg) as [hook|] eqn:Hcfg.
    + rewrite (Hhook hook b e eq_refl) by (apply elem_of_cons; left; reflexivity).
      rewrite Hrest.
      * f_equal. rewrite <- !app_assoc. reflexivity.
      * rewrite !calls_made_app. cbn. lia.
    + rewrite Hrest.
      * f_equal. rewrite <- !app_assoc. reflexivity.
      * rewrite !calls_made_app. cbn. lia.
Qed.

(** The turn that ends the loop: an attempt that succeeds, or the last
    attempt allowed. *)
Lemma retry_last remaining try_count tr buffer r :
  attempt_at (calls_made tr) = (buffer, r) ->
  is_ok r = true \/ (try_count + 1)%Z = max_tries cfg ->
  retry_from (S remaining) try_count tr = ((tr ++ [Called func args kwargs])%list, r).
Proof.
  intros Hat Hend. rewrite retry_step, Hat. cbv zeta.
  destruct r as [v|e]; [reflexivity|].
  destruct Hend as [Hok|Heq]; [discriminate|].
  apply Z.eqb_eq in Heq. rewrite Heq. reflexivity.
Qed.

(** The whole loop: [fails] lists the buffers and exceptions of the
    failed attempts before the one that ends the loop with [r]. *)
Lemma call_and_verify_run fails tr buffer r :
  (Z.of_nat (length fails) < max_tries cfg)%Z ->
  (forall i b e, fails !! i = Some (b, e) -> attempt_at (calls_made tr + i) = (b, Raise e)) ->
  (forall hook b e, process_exception_logic cfg = Some hook ->
                    (b, e) ∈ fails -> hook func e input_desc b = Ok tt) ->
  attempt_at (calls_made tr + length fails) = (buffer, r) ->
  is_ok r = true \/ Z.of_nat (S (length fails)) = max_tries cfg ->
  _call_function_and_verify_result cfg func args kwargs debug input_desc
    adjusted_return_types wrapped_name return_names tr
  = ((tr ++ failure_events cfg func args kwargs input_desc fails
         ++ [Called func args kwargs])%list, r).
Proof.
  intros Hmax Hfail Hhook Hlast Hend. unfold _call_function_and_verify_result.
  rewrite (retry_failures fails (Z.to_nat (max_tries cfg)) 0 tr); try assumption; try lia.
  destruct (Z.to_nat (max_tries cfg) - length fails) as [|remaining] eqn:Hrem; [lia|].
  rewrite (retry_last remaining _ _ buffer r).
  - rewrite <- app_assoc. reflexivity.
  - rewrite calls_made_app, calls_made_failures. exact Hlast.
  - destruct Hend as [Hok|Heq]; [left; exact Hok | right; lia].
Qed.
End ExecutionFacts.

(** ** The checks on the result *)

Lemma all_to_on_device d : forall v, list_nested v = true -> on_device d (_all_to d v).
Proof.
  fix IH 1. intros [ | | | | | |t|l|l|]; cbn [_all_to on_device list_nested];
    try discriminate; try (intros _; exact I).
  - intros _. reflexivity.
  - induction l as [|x rest IHrest]; cbn [map]; [intros _; exact I|].
    intros Hnested. apply andb_true_iff in Hnested as [Hx Hrest].
    split; [apply IH; exact Hx | apply IHrest; exact Hrest].
Qed.

Lemma all_to_list_nested d : forall v, list_nested (_all_to d v) = list_nested v.
Proof.
  fix IH 1. intros [ | | | | | |t|l|l|]; cbn [_all_to list_nested]; try reflexivity.
  induction l as [|x rest IHrest]; cbn [map]; [reflexivity|].
  rewrite IH, IHrest. reflexivity.
Qed.

Section CheckFacts.
Context `{Runtime}.
Variables (cfg : Config) (func : PyFunc) (debug : bool)
          (adjusted_return_types : list PyVal) (wrapped_name : string)
          (return_names : option (list string)).

Lemma warn_none_returns result : forall i buffer,
  exists buffer', warn_none i result buffer = (buffer', Ok tt).
Proof.
  induction result as [|ret rest IH]; intros i buffer; cbn [warn_none].
  - eexists. reflexivity.
  - rewrite M_bind_eq. destruct (is_none ret).
    + unfold log_record, modify. apply IH.
    + cbn. apply IH.
Qed.

Lemma verify_returns_cases code_origin_loc result : forall i buffer,
  exists buffer',
    verify_returns cfg debug code_origin_loc return_names adjusted_return_types i result buffer
    = (buffer', Ok tt) \/
    exists msg,
      verify_returns cfg debug code_origin_loc return_names adjusted_return_types i result
        buffer
      = (buffer', Raise (ValueError msg)).
Proof.
  induction result as [|ret rest IH]; intros i buffer; cbn [verify_returns].
  - eexists. left. reflexivity.
  - rewrite M_bind_eq.
    set (buffer1 := fst ((if debug
                          then log_record "INFO" ("Result " ++ str_nat i ++ " is " ++ repr_type ret)
                          else mret tt) buffer)).
    assert (Hlog : (if debug
                    then log_record "INFO" ("Result " ++ str_nat i ++ " is " ++ repr_type ret)
                    else mret tt) buffer = (buffer1, Ok tt)).
    { subst buffer1. destruct debug; reflexivity. }
    rewrite Hlog. rewrite M_bind_eq. unfold lift at 1.
    match goal with
    | |- context [match ?r with Ok _ => Ok tt | Raise e => Raise (ValueError (@?m e)) end] =>
        destruct r as [ok|e]
    end.
    + apply IH.
    + eexists. right. eexists. reflexivity.
Qed.

(** A result of the wrong length fails the assertion on the arity, with
    the two counts and the source location in the message. *)
Lemma check_result_arity_mismatch result buffer :
  length adjusted_return_types <> 0 ->
  length (as_tuple result) <> length adjusted_return_types ->
  check_result cfg func debug adjusted_return_types wrapped_name return_names result buffer
  = (buffer,
     Raise (AssertionError
              (arity_message func wrapped_name (length (as_tuple result))
                 (length adjusted_return_types)))).
Proof.
  intros HN Hlen. unfold check_result.
  destruct (Nat.eqb_spec (length adjusted_return_types) 0) as [|_]; [contradiction|].
  rewrite M_bind_eq. unfold lift. fold (as_tuple result).
  destruct (Nat.eqb_spec (length (as_tuple result)) (length adjusted_return_types))
    as [|_]; [contradiction|].
  reflexivity.
Qed.

(** A result of the right length passes that assertion; what can still
    fail is the verification of an output, with a [ValueError]. *)
Lemma check_result_arity_match result buffer :
  length adjusted_return_types <> 0 ->
  length (as_tuple result) = length adjusted_return_types ->
  exists buffer',
    check_result cfg func debug adjusted_return_types wrapped_name return_names result buffer
    = (buffer', Ok (VTuple (map (_all_to Cpu) (as_tuple result)))) \/
    exists msg,
      check_result cfg func debug adjusted_return_types wrapped_name return_names result
        buffer
      = (buffer', Raise (ValueError msg)).
Proof.
  intros HN Hlen. unfold check_result.
  destruct (Nat.eqb_spec (length adjusted_return_types) 0) as [|_]; [contradiction|].
  rewrite M_bind_eq. unfold lift. fold (as_tuple result).
  rewrite Hlen, Nat.eqb_refl. cbn [py_assert].
  rewrite M_bind_eq.
  destruct (warn_none_returns (as_tuple result) 0 buffer) as [buffer1 Hwarn].
  rewrite Hwarn. rewrite M_bind_eq.
  destruct (verify_returns_cases
              (code_origin_loc_of func (co_firstlineno func)) (as_tuple result) 0 buffer1)
    as [buffer2 [Hver|[msg Hver]]]; rewrite Hver; exists buffer2.
  - left. reflexivity.
  - right. exists msg. reflexivity.
Qed.

(** Whatever passes the checks is handed back normalized. *)
Lemma check_result_value result buffer buffer' r :
  check_result cfg func debug adjusted_return_types wrapped_name return_names result buffer
  = (buffer', Ok r) ->
  r = normalized adjusted_return_types result.
Proof.
  unfold normalized. destruct (Nat.eqb_spec (length adjusted_return_types) 0) as [H0|HN].
  - unfold check_result. rewrite H0. cbn [Nat.eqb]. rewrite M_bind_eq. unfold lift.
    destruct (is_none result); cbn [py_assert]; intros Heq; inversion Heq. reflexivity.
  - destruct (Nat.eq_dec (length (as_tuple result)) (length adjusted_return_types))
      as [Hlen|Hlen].
    + destruct (check_result_arity_match result buffer HN Hlen)
        as [buffer2 [Hok|[msg Hbad]]].
      * rewrite Hok. intros Heq. inversion Heq. reflexivity.
      * rewrite Hbad. discriminate.
    + rewrite (check_result_arity_mismatch result buffer HN Hlen). discriminate.
Qed.
End CheckFacts.

(** A function that succeeds at its first call, with a hook configured and
    two tries allowed: its pair does not fit the one declared return type,
    so the attempt counts as failed, the hook is called, and the second
    attempt, the last one, raises.  The wrapper neither returns the result
    of the call that succeeded nor leaves the hook alone. *)
Lemma hook_called_after_a_call_that_succeeded :
  (forall n, exists out v, behaviour pair_function n [] [] = (out, Ok v)) /\
  (0 < max_tries two_tries)%Z /\
  is_Some (process_exception_logic two_tries) /\
  exists evs e,
    @_call_function_and_verify_result cpu_runtime two_tries pair_function [] [] false []
      [VStr "INT"] "pair_comfyfunc_wrapper" None [] = (evs, Raise e) /\
    length (hook_calls evs) = 1.
Proof.
  split; [intros n; eexists; eexists; reflexivity|].
  split; [reflexivity|]. split; [eexists; reflexivity|].
  eexists. eexists. split; vm_compute; reflexivity.
Qed.

(** C1, amended.  [fails] lists, for the first K attempts of an invocation,
    the captured buffer and the exception with which each failed: the
    implementation raised, or its result was rejected by the checks of the
    wrapper.  If [max_tries] is greater than K, a failure hook is
    configured and returns normally, and attempt K+1 either succeeds (the
    implementation returns a result that passes the checks) or is the last
    one [max_tries] allows, then the wrapper ends with the outcome of that
    attempt: the normalized result of the implementation, or the last
    exception, unchanged.  The hook was invoked exactly K times, once per
    earlier failed attempt and in order, with the function, the exception,
    the input description and the buffer of that attempt; the function was
    called K+1 times. *)
Theorem retry_with_failure_hook :
  forall (H : Runtime) (cfg : Config) (func : PyFunc) (args : list PyVal)
         (kwargs : PyDict PyVal) (debug : bool) (input_desc : list string)
         (adjusted_return_types : list PyVal) (wrapped_name : string)
         (return_names : option (list string)) (hook : Hook) (tr : list Event)
         (fails : list (string * Exn)) (buffer : string) (r : res PyVal),
    (Z.of_nat (length fails) < max_tries cfg)%Z ->
    process_exception_logic cfg = Some hook ->
    (forall i b e, fails !! i = Some (b, e) ->
       attempt cfg func (calls_made tr + i) args kwargs debug adjusted_return_types
         wrapped_name return_names "" = (b, Raise e)) ->
    (forall b e, (b, e) ∈ fails -> hook func e input_desc b = Ok tt) ->
    attempt cfg func (calls_made tr + length fails) args kwargs debug adjusted_return_types
      wrapped_name return_names "" = (buffer, r) ->
    is_ok r = true \/ Z.of_nat (S (length fails)) = max_tries cfg ->
    exists evs,
      _call_function_and_verify_result cfg func args kwargs debug input_desc
        adjusted_return_types wrapped_name return_names tr = ((tr ++ evs)%list, r) /\
      hook_calls evs = map (fun '(b, e) => Hooked func e input_desc b) fails /\
      length (hook_calls evs) = length fails /\
      calls_made evs = S (length fails) /\
      forall v, r = Ok v ->
        exists out result,
          behaviour func (calls_made tr + length fails) args kwargs = (out, Ok result) /\
          v = normalized adjusted_return_types result.
Proof.
  intros H cfg func args kwargs debug input_desc art wname rnames hook tr fails buffer r
         Hmax Hcfg Hfail Hhook Hlast Hend.
  exists (failure_events cfg func args kwargs input_desc fails ++ [Called func args kwargs])%list.
  split; [|split; [|split; [|split]]].
  - apply (call_and_verify_run cfg func args kwargs debug input_desc art wname rnames
             fails tr buffer r); try assumption.
    intros hook' b e Hcfg' Hin. rewrite Hcfg in Hcfg'. inversion Hcfg'; subst hook'.
    apply Hhook. exact Hin.
  - rewrite hook_calls_app, (hook_calls_failures _ _ _ _ _ _ hook Hcfg). cbn.
    apply app_nil_r.
  - rewrite hook_calls_app, (hook_calls_failures _ _ _ _ _ _ hook Hcfg). cbn.
    rewrite app_nil_r, length_map. reflexivity.
  - rewrite calls_made_app, calls_made_failures. cbn. lia.
  - intros v ->. unfold attempt in Hlast. rewrite M_bind_eq in Hlast.
    destruct (behaviour func (calls_made tr + length fails) args kwargs) as [out [result|e]]
      eqn:Hcall; [|discriminate].
    exists out, result. split; [reflexivity|].
    eapply check_result_value. exact Hlast.
Qed.

(** [flaky] under two tries: one failure, one call of the hook with the
    exception and the text the function had written, then the result. *)
Lemma retry_with_failure_hook_witness :
  exists evs,
    @_call_function_and_verify_result cpu_runtime two_tries flaky [] [] false ["no inputs"]
      [VStr "INT"] "flaky_comfyfunc_wrapper" None [] = (evs, Ok (VTuple [VInt 7])) /\
    hook_calls evs
    = [Hooked flaky (UserException "ConnectionError" "refused") ["no inputs"] "connecting"].
Proof.
  destruct (retry_with_failure_hook cpu_runtime two_tries flaky [] [] false ["no inputs"]
              [VStr "INT"] "flaky_comfyfunc_wrapper" None quiet_hook []
              [("connecting", UserException "ConnectionError" "refused")]
              "done" (Ok (VTuple [VInt 7])))
    as [evs (Hrun & Hhooks & _)].
  - reflexivity.
  - reflexivity.
  - intros [|i] b e Hi; [|discriminate]. inversion Hi. reflexivity.
  - intros b e _. reflexivity.
  - reflexivity.
  - left. reflexivity.
  - exists evs. split; [exact Hrun | exact Hhooks].
Defined.

(** [hopeless] under two tries: the exception of the second call comes
    out as it was raised. *)
Example last_exception_reraised :
  exists evs,
    @_call_function_and_verify_result cpu_runtime two_tries hopeless [] [] false []
      [VStr "INT"] "hopeless_comfyfunc_wrapper" None []
    = (evs, Raise (UserException "OSError" "1")) /\
    length (hook_calls evs) = 1.
Proof. eexists. split; vm_compute; reflexivity. Qed.

(** C2, amended.  For a function with N >= 1 declared return types and a
    value [result] of the implementation, taken as a tuple (a value that is
    not a tuple counts as a tuple of one): if its length is not N, the
    attempt fails with the arity error, whose message holds the two counts
    and the source location of the function; if its length is N, no arity
    error is raised, the only failure left is the [ValueError] of the
    output verification, and what is returned is the tuple of the results
    with [_all_to("cpu", ...)] applied to each, which puts on the CPU every
    tensor of an element that holds its tensors in lists only.  The arity
    error is the exception of [_call_function_and_verify_result] when the
    attempt is the last one [max_tries] allows, the attempts before it
    having failed and the hook, if there is one, having returned. *)
Theorem arity_of_the_result :
  forall (H : Runtime) (cfg : Config) (func : PyFunc) (debug : bool)
         (adjusted_return_types : list PyVal) (wrapped_name : string)
         (return_names : option (list string)) (result : PyVal) (buffer : string),
    length adjusted_return_types <> 0 ->
    (length (as_tuple result) <> length adjusted_return_types ->
     check_result cfg func debug adjusted_return_types wrapped_name return_names result buffer
     = (buffer,
        Raise (AssertionError
                 (wrapped_name ++ ": Number of return values "
                  ++ str_nat (length (as_tuple result))
                  ++ " does not match number of return types "
                  ++ str_nat (length adjusted_return_types) ++ nl
                  ++ nl ++ " Source: " ++ f_qualname func ++ " " ++ co_filename func
                  ++ ":" ++ str_nat (co_firstlineno func))))) /\
    (length (as_tuple result) = length adjusted_return_types ->
     (forall x, x ∈ as_tuple result -> list_nested x = true ->
        on_device Cpu (_all_to Cpu x)) /\
     exists buffer',
       check_result cfg func debug adjusted_return_types wrapped_name return_names result
         buffer
       = (buffer', Ok (VTuple (map (_all_to Cpu) (as_tuple result)))) \/
       exists msg,
         check_result cfg func debug adjusted_return_types wrapped_name return_names result
           buffer
         = (buffer', Raise (ValueError msg))) /\
    (forall (args : list PyVal) (kwargs : PyDict PyVal) (input_desc : list string)
            (tr : list Event) (fails : list (string * Exn)) (out : string),
       length (as_tuple result) <> length adjusted_return_types ->
       Z.of_nat (S (length fails)) = max_tries cfg ->
       (forall i b e, fails !! i = Some (b, e) ->
          attempt cfg func (calls_made tr + i) args kwargs debug adjusted_return_types
            wrapped_name return_names "" = (b, Raise e)) ->
       (forall hook b e, process_exception_logic cfg = Some hook ->
                         (b, e) ∈ fails -> hook func e input_desc b = Ok tt) ->
       behaviour func (calls_made tr + length fails) args kwargs = (out, Ok result) ->
       _call_function_and_verify_result cfg func args kwargs debug input_desc
         adjusted_return_types wrapped_name return_names tr
       = ((tr ++ failure_events cfg func args kwargs input_desc fails
              ++ [Called func args kwargs])%list,
          Raise (AssertionError
                   (arity_message func wrapped_name (length (as_tuple result))
                      (length adjusted_return_types))))).
Proof.
  intros H cfg func debug art wname rnames result buffer HN.
  split; [|split].
  - intros Hlen.
    apply (check_result_arity_mismatch cfg func debug art wname rnames result buffer HN Hlen).
  - intros Hlen. split.
    + intros x _ Hnested. apply all_to_on_device. exact Hnested.
    + apply (check_result_arity_match cfg func debug art wname rnames result buffer HN Hlen).
  - intros args kwargs input_desc tr fails out Hlen Hmax Hfail Hhook Hcall.
    apply (call_and_verify_run cfg func args kwargs debug input_desc art wname rnames
             fails tr out).
    + lia.
    + exact Hfail.
    + exact Hhook.
    + rewrite (attempt_when_function_returns cfg func args kwargs debug art wname rnames
                 _ out result Hcall).
      replace out with ("" ++ out) at 2 by reflexivity.
      apply (check_result_arity_mismatch cfg func debug art wname rnames result _ HN Hlen).
    + right. exact Hmax.
Qed.

(** A pair for one declared return type: the arity error names 2 and 1 and
    line 10 of the file of the function. *)
Lemma arity_of_the_result_witness :
  @check_result cpu_runtime default_config pair_function false [VStr "INT"]
    "pair_comfyfunc_wrapper" None (VTuple [VInt 1; VInt 2]) ""
  = ("", Raise (AssertionError
                  ("pair_comfyfunc_wrapper: Number of return values 2"
                   ++ " does not match number of return types 1" ++ nl
                   ++ nl ++ " Source: pair example.py:10"))).
Proof.
  apply (arity_of_the_result cpu_runtime default_config pair_function false [VStr "INT"]
           "pair_comfyfunc_wrapper" None (VTuple [VInt 1; VInt 2]) "").
  - discriminate.
  - discriminate.
Defined.

(** The claim as it was stated fails twice.  A pair for one declared
    return type is no arity error of the invocation when a further try is
    allowed: the attempt is retried, and the 7 of the second call is
    returned.  And a tensor inside a nested tuple is returned where it
    was, on the CUDA device: [_all_to] does not look into tuples. *)
Lemma wrong_arity_is_retried_and_nested_tuples_stay :
  (behaviour pair_then_seven 0 [] [] = ("", Ok (VTuple [VInt 1; VInt 2])) /\
   snd (@_call_function_and_verify_result cpu_runtime two_tries pair_then_seven [] [] false
          [] [VStr "INT"] "pair_then_seven_comfyfunc_wrapper" None [])
   = Ok (VTuple [VInt 7])) /\
  (@_call_function_and_verify_result cpu_runtime default_config nested_result [] [] false
     [] [VStr "IMAGE"] "nested_result_comfyfunc_wrapper" None []
   = ([Called nested_result [] []], Ok (VTuple [VTuple [VTensor cuda_pixel]])) /\
   ~ on_device Cpu (VTuple [VTensor cuda_pixel])).
Proof.
  split; [split; [reflexivity | vm_compute; reflexivity]|].
  split; [vm_compute; reflexivity|]. intros [Hdevice _]. discriminate Hdevice.
Qed.

(** ** The wrapper, step by step *)

Section WrapperFacts.
Context `{Runtime}.

(** The wrapper as one case analysis: the first loop, the loop that
    unwraps, the flag, the reload, the call, the preview. *)
Lemma wrapper_eq c args kwargs w :
  wrapper c args kwargs w
  = match prepare_kwargs w c kwargs with
    | Raise e => (w, Raise e)
    | Ok (kwargs1, input_desc) =>
        match (if input_is_list c then unwrap_lists c kwargs1 else Ok kwargs1) with
        | Raise e => (w, Raise e)
        | Ok kwargs2 =>
            match _maybe_reload_module (config w) (func c) with
            | Raise e => (initialized w, Raise e)
            | Ok (_, latest_func) =>
                let '(tr, r) :=
                  _call_function_and_verify_result (config w) latest_func
                    (if is_cls_mth c then tail args else args) kwargs2 (debug (opts c))
                    input_desc (adjusted_return_types c) (wrapped_name c)
                    (return_names (opts c)) (trace w) in
                match r with
                | Raise e => (with_trace tr (initialized w), Raise e)
                | Ok result =>
                    (with_trace tr (initialized w),
                     if has_preview (opts c) then _add_preview result else Ok result)
                end
            end
        end
    end.
Proof.
  unfold wrapper. rewrite M_bind_eq.
  destruct (prepare_kwargs w c kwargs) as [[kwargs1 input_desc]|e]; [|reflexivity].
  rewrite M_bind_eq. unfold lift at 1.
  destruct (if input_is_list c then unwrap_lists c kwargs1 else Ok kwargs1)
    as [kwargs2|e]; [|reflexivity].
  rewrite M_bind_eq. unfold on_nodes at 1, modify. cbn [nodes config types trace].
  rewrite M_bind_eq. fold (initialized w). cbn [initialized config].
  destruct (_maybe_reload_module (config w) (func c)) as [[reloaded latest_func]|e];
    [|reflexivity].
  rewrite M_bind_eq. unfold on_trace. cbn [initialized config trace].
  destruct (_call_function_and_verify_result (config w) latest_func
              (if is_cls_mth c then tail args else args) kwargs2 (debug (opts c))
              input_desc (adjusted_return_types c) (wrapped_name c)
              (return_names (opts c)) (trace w)) as [tr [result|e]]; [|reflexivity].
  unfold with_trace, initialized. cbn [config types nodes trace].
  destruct (has_preview (opts c)); reflexivity.
Qed.
End WrapperFacts.

(** ** Registration of nodes *)


Section NodeFacts.
Context `{Runtime}.


End NodeFacts.

(** ** Dictionaries *)

Lemma dict_get_set {A} (d : PyDict A) k v k' :
  dict_get (dict_set d k v) k' = if String.eqb k k' then Some v else dict_get d k'.
Proof.
  induction d as [|[k0 v0] d IH]; cbn [dict_set dict_get]; [reflexivity|].
  destruct (String.eqb_spec k0 k) as [->|Hne]; cbn [dict_get].
  - destruct (String.eqb k k'); reflexivity.
  - rewrite IH. destruct (String.eqb_spec k0 k') as [->|Hne'].
    + destruct (String.eqb_spec k k') as [->|]; [congruence|reflexivity].
    + reflexivity.
Qed.

Lemma dict_get_None {A} (d : PyDict A) k : k ∉ dict_keys d -> dict_get d k = None.
Proof.
  induction d as [|[k0 v0] d IH]; cbn [dict_get dict_keys map fst]; [reflexivity|].
  intros Hnot. apply not_elem_of_cons in Hnot as [Hne Hnot].
  destruct (String.eqb_spec k0 k) as [->|_]; [congruence|]. apply IH. exact Hnot.
Qed.

(** Assigning the items of a dictionary one after the other: an item of
    the dictionary wins over what was there. *)
Lemma dict_get_update {A} (items : PyDict A) : forall (d : PyDict A) k,
  NoDup (dict_keys items) ->
  dict_get (fold_left (fun d '(k, v) => dict_set d k v) items d) k
  = match dict_get items k with
    | Some v => Some v
    | None => dict_get d k
    end.
Proof.
  induction items as [|[k0 v0] items IH]; intros d k Hnodup; [reflexivity|].
  cbn [dict_keys map fst] in Hnodup. apply NoDup_cons in Hnodup as [Hfresh Hnodup].
  cbn [fold_left dict_get]. rewrite IH by exact Hnodup. rewrite dict_get_set.
  destruct (String.eqb_spec k0 k) as [->|Hne]; [|reflexivity].
  rewrite (dict_get_None items k Hfresh). reflexivity.
Qed.

Lemma dict_keys_omap {A} (d : PyDict (option A)) k :
  k ∈ dict_keys (omap (fun '(k, v) => pair k <$> v) d) -> k ∈ dict_keys d.
Proof.
  induction d as [|[k0 [v0|]] d IH]; cbn; intros Hin.
  - exact Hin.
  - apply elem_of_cons in Hin as [->|Hin]; apply elem_of_cons; [left|right]; auto.
  - apply elem_of_cons. right. auto.
Qed.

Lemma dict_keys_omap_NoDup {A} (d : PyDict (option A)) :
  NoDup (dict_keys d) -> NoDup (dict_keys (omap (fun '(k, v) => pair k <$> v) d)).
Proof.
  induction d as [|[k0 [v0|]] d IH]; cbn; intros Hnodup.
  - constructor.
  - apply NoDup_cons in Hnodup as [Hfresh Hnodup]. apply NoDup_cons. split; [|auto].
    intros Hin. apply Hfresh. apply dict_keys_omap. exact Hin.
  - apply NoDup_cons in Hnodup as [_ Hnodup]. auto.
Qed.

(** Dropping the entries whose value is [None]. *)
Lemma dict_get_omap {A} (d : PyDict (option A)) k :
  NoDup (dict_keys d) ->
  dict_get (omap (fun '(k, v) => pair k <$> v) d) k = mjoin (dict_get d k).
Proof.
  induction d as [|[k0 [v0|]] d IH]; cbn; intros Hnodup; [reflexivity| |].
  - apply NoDup_cons in Hnodup as [_ Hnodup].
    destruct (String.eqb k0 k); [reflexivity|auto].
  - apply NoDup_cons in Hnodup as [Hfresh Hnodup].
    destruct (String.eqb_spec k0 k) as [->|_]; [|auto].
    rewrite IH by exact Hnodup. rewrite (dict_get_None d k Hfresh). reflexivity.
Qed.

Lemma dict_set_keys {A} (d : PyDict A) k v k' :
  k' ∈ dict_keys (dict_set d k v) -> k' = k \/ k' ∈ dict_keys d.
Proof.
  induction d as [|[k0 v0] d IH]; cbn [dict_set dict_keys map fst].
  - intros Hin. apply list_elem_of_singleton in Hin. left. exact Hin.
  - destruct (String.eqb_spec k0 k) as [->|Hne]; cbn [map fst]; intros Hin.
    + apply elem_of_cons in Hin as [->|Hin]; [left; reflexivity|].
      right. apply elem_of_cons. right. exact Hin.
    + apply elem_of_cons in Hin as [->|Hin].
      * right. apply elem_of_cons. left. reflexivity.
      * destruct (IH Hin) as [->|Hin']; [left; reflexivity|].
        right. apply elem_of_cons. right. exact Hin'.
Qed.

Lemma dict_set_NoDup {A} (d : PyDict A) k v :
  NoDup (dict_keys d) -> NoDup (dict_keys (dict_set d k v)).
Proof.
  induction d as [|[k0 v0] d IH]; cbn [dict_set dict_keys map fst]; intros Hnodup.
  - apply NoDup_singleton.
  - apply NoDup_cons in Hnodup as [Hfresh Hnodup].
    destruct (String.eqb_spec k0 k) as [->|Hne]; cbn [map fst].
    + apply NoDup_cons. split; assumption.
    + apply NoDup_cons. split; [|apply IH; exact Hnodup].
      intros Hin. destruct (dict_set_keys d k v k0 Hin) as [->|Hin']; [congruence|].
      apply Hfresh. exact Hin'.
Qed.

Lemma fold_dict_set_NoDup {A} (items : PyDict A) : forall d : PyDict A,
  NoDup (dict_keys d) ->
  NoDup (dict_keys (fold_left (fun d '(k, v) => dict_set d k v) items d)).
Proof.
  induction items as [|[k0 v0] items IH]; intros d Hnodup; [exact Hnodup|].
  cbn [fold_left]. apply IH. apply dict_set_NoDup. exact Hnodup.
Qed.

Lemma string_length_app (a b : string) :
  String.length (a ++ b) = String.length a + String.length b.
Proof. induction a as [|c a IH]; simpl; [reflexivity|]. f_equal. exact IH. Qed.

(** The name of the wrapper is none of the fixed keys: it is longer. *)
Lemma wrapped_name_fresh qualname :
  qualname ++ "_comfyfunc_wrapper" ∉ fixed_keys.
Proof.
  intros Hin.
  assert (Hlen : String.length (qualname ++ "_comfyfunc_wrapper") <= 15).
  { unfold fixed_keys in Hin.
    repeat (apply elem_of_cons in Hin as [->|Hin]; [cbn; lia|]).
    apply elem_of_nil in Hin. contradiction. }
  rewrite string_length_app in Hlen. cbn in Hlen. lia.
Qed.

(** ** The class dictionary of a node *)

Lemma fixed_keys_NoDup : NoDup fixed_keys.
Proof. apply (bool_decide_unpack _). vm_compute. exact I. Qed.

Section ClassDictFacts.
Variables (cname category : string) (process_function : AttrVal)
          (required : gmap string InputSpec) (hidden : gmap string HiddenSpec)
          (optional : gmap string InputSpec) (in_list : bool)
          (tags : list PyVal) (names : option (list string))
          (out_list : list bool) (text : string) (is_output : bool)
          (validate changed : option string).
Hypothesis cname_fresh : cname ∉ fixed_keys.

Abbreviation the_class_dict :=
  (make_class_dict cname category process_function required hidden optional in_list tags
     names out_list text is_output validate changed).

Lemma make_class_dict_NoDup : NoDup (dict_keys the_class_dict).
Proof.
  unfold make_class_dict. apply dict_keys_omap_NoDup. apply fold_dict_set_NoDup. constructor.
Qed.

Lemma make_class_dict_get k :
  dict_get the_class_dict k
  = mjoin (dict_get
             [ ("INPUT_TYPES", Some (AClassMethod (InputTypesLambda required hidden optional)));
               ("CATEGORY", Some (AStr category));
               ("RETURN_TYPES", Some (ATags tags));
               ("FUNCTION", Some (AStr cname));
               ("INPUT_IS_LIST", Some (ABool in_list));
               ("OUTPUT_IS_LIST", Some (ABools out_list));
               ("OUTPUT_NODE", Some (ABool is_output));
               ("RETURN_NAMES", ANames <$> names);
               ("VALIDATE_INPUTS", AFunction ∘ UserCode <$> validate);
               ("IS_CHANGED", AFunction ∘ UserCode <$> changed);
               ("DESCRIPTION", Some (AStr text));
               (cname, Some process_function) ] k).
Proof.
  unfold make_class_dict.
  rewrite dict_get_omap by (apply fold_dict_set_NoDup; constructor).
  rewrite dict_get_update.
  { match goal with |- mjoin (match ?x with _ => _ end) = _ => destruct x end; reflexivity. }
  change (NoDup (fixed_keys ++ [cname])%list). apply NoDup_app.
  split; [exact fixed_keys_NoDup|]. split; [|apply NoDup_singleton].
  intros x Hx Hin. apply list_elem_of_singleton in Hin. subst x. contradiction.
Qed.

Lemma class_dict_output_node : dict_get the_class_dict "OUTPUT_NODE" = Some (ABool is_output).
Proof. rewrite make_class_dict_get. reflexivity. Qed.

Lemma class_dict_return_types : dict_get the_class_dict "RETURN_TYPES" = Some (ATags tags).
Proof. rewrite make_class_dict_get. reflexivity. Qed.

(** The two attributes on the class of the node once it is installed,
    whether the class was created or was the class of the method. *)
Lemma install_node_attributes node_class workflow display n :
  (forall c, node_class = Some c -> is_Some (heap n !! c)) ->
  exists cls obj,
    NODE_CLASS_MAPPINGS (install_node the_class_dict node_class workflow display n) !! workflow
    = Some cls /\
    heap (install_node the_class_dict node_class workflow display n) !! cls = Some obj /\
    dict_get (cls_dict obj) "RETURN_TYPES" = Some (ATags tags) /\
    dict_get (cls_dict obj) "OUTPUT_NODE" = Some (ABool is_output).
Proof.
  intros Hclosed. unfold install_node. destruct node_class as [c|].
  - destruct (Hclosed c eq_refl) as [obj Hobj]. exists c, (setattrs the_class_dict obj).
    cbn [NODE_CLASS_MAPPINGS heap]. rewrite lookup_insert_eq, lookup_alter_eq, Hobj.
    split; [reflexivity|]. split; [reflexivity|]. unfold setattrs. cbn [cls_dict].
    rewrite !dict_get_update by exact make_class_dict_NoDup.
    rewrite class_dict_return_types, class_dict_output_node. split; reflexivity.
  - exists (next_address n).
    exists {| cls_module := this_module; cls_name := workflow; cls_dict := the_class_dict |}.
    cbn [NODE_CLASS_MAPPINGS heap cls_dict]. rewrite !lookup_insert_eq.
    split; [reflexivity|]. split; [reflexivity|].
    split; [exact class_dict_return_types | exact class_dict_output_node].
Qed.
End ClassDictFacts.

(** ** The decorator *)

Section DecoratorFacts.
Context `{Runtime}.

Lemma create_comfy_node_ok cname cat node_class process_function shown workflow
    required hidden optional in_list tags names out_list text is_output validate changed
    color source_location n n' :
  _create_comfy_node cname cat node_class process_function shown workflow required hidden
    optional in_list tags names out_list text is_output validate changed color
    source_location n = (n', Ok tt) ->
  exists text',
    n' = install_node
           (make_class_dict cname cat process_function required hidden optional in_list
              tags names out_list text' is_output validate changed)
           node_class workflow shown n.
Proof.
  unfold _create_comfy_node. rewrite M_bind_eq. unfold lift.
  destruct (match color with
            | Some color => _ ← valid_hex_color color; Ok (text ++ color_lines color)
            | None => Ok text
            end) as [d|e]; [|discriminate].
  destruct (if already_initialized n then Ok tt
            else check_duplicates n cname workflow shown node_class) as [[]|e];
    [|discriminate].
  intros Heq. inversion Heq. eexists. reflexivity.
Qed.

(** C8.  When the decorator has registered a function, the class under
    its workflow identifier carries the declared return types, explicit
    or inferred from the annotation, as [RETURN_TYPES], and its
    [OUTPUT_NODE] is true when that list is empty, whatever
    [is_output_node] was, and is [is_output_node] when the list is not
    empty.  (A class that [_get_node_class] finds is a class of the heap.) *)
Theorem output_flag_of_a_node :
  forall (o : Options) (func : PyFunc) (w w' : World) (f : PyFunc),
    decorator o func w = (w', Ok f) ->
    (forall c, _get_node_class (nodes w) func = Some c -> is_Some (heap (nodes w) !! c)) ->
    exists (returns : list PyVal * list bool) (cls : nat) (obj : ClassObj),
      declared_returns (types w) o func = Ok returns /\
      NODE_CLASS_MAPPINGS (nodes w') !! workflow_id o func = Some cls /\
      heap (nodes w') !! cls = Some obj /\
      dict_get (cls_dict obj) "RETURN_TYPES" = Some (ATags (fst returns)) /\
      dict_get (cls_dict obj) "OUTPUT_NODE"
      = Some (ABool (if Nat.eqb (length (fst returns)) 0 then true else is_output_node o)).
Proof.
  intros o func w w' f Hdec Hclosed. unfold decorator in Hdec.
  destruct (_infer_input_types_from_annotations (types w) func _ _) as [inputs|e];
    cbn [mbind res_bind] in Hdec; [|discriminate].
  fold (declared_returns (types w) o func) in Hdec.
  destruct (declared_returns (types w) o func) as [[tags out_list]|e];
    cbn [mbind res_bind fst] in Hdec; [|discriminate].
  destruct (match truthy_names (return_names o) with
            | Some names => _
            | None => Ok tt
            end) as [[]|e]; cbn [mbind res_bind] in Hdec; [|discriminate].
  unfold on_nodes in Hdec.
  match type of Hdec with
  | context [_create_comfy_node ?a1 ?a2 ?a3 ?a4 ?a5 ?a6 ?a7 ?a8 ?a9 ?a10 ?a11 ?a12 ?a13
               ?a14 ?a15 ?a16 ?a17 ?a18 ?a19 (nodes w)] =>
      destruct (_create_comfy_node a1 a2 a3 a4 a5 a6 a7 a8 a9 a10 a11 a12 a13 a14 a15 a16
                  a17 a18 a19 (nodes w)) as [n' [[]|e]] eqn:Hcreate
  end; [|discriminate].
  inversion Hdec; subst w' f. clear Hdec. cbn [nodes].
  apply create_comfy_node_ok in Hcreate as [text' ->].
  edestruct (install_node_attributes (f_qualname func ++ "_comfyfunc_wrapper"))
    as [cls [obj (Hcls & Hobj & Htags & Hflag)]];
    [apply wrapped_name_fresh | exact Hclosed |].
  exists (tags, out_list), cls, obj. split; [reflexivity|].
  split; [exact Hcls|]. split; [exact Hobj|]. split; [exact Htags|].
  rewrite Hflag. cbn [fst].
  destruct (Nat.eqb (length tags) 0), (is_output_node o); reflexivity.
Qed.
End DecoratorFacts.

(** [save_image] has no return annotation: decorated with the defaults,
    [is_output_node] false among them, it is an output node. *)
Lemma output_flag_of_a_node_witness :
  exists cls obj,
    NODE_CLASS_MAPPINGS (nodes (fst (@decorator cpu_runtime default_options save_image
                                       initial_world))) !! "SaveImage" = Some cls /\
    heap (nodes (fst (@decorator cpu_runtime default_options save_image initial_world)))
      !! cls = Some obj /\
    dict_get (cls_dict obj) "RETURN_TYPES" = Some (ATags []) /\
    dict_get (cls_dict obj) "OUTPUT_NODE" = Some (ABool true).
Proof.
  destruct (@output_flag_of_a_node cpu_runtime default_options save_image initial_world
              (fst (@decorator cpu_runtime default_options save_image initial_world))
              save_image)
    as [returns [cls [obj (Hret & Hcls & Hobj & Htags & Hflag)]]].
  - rewrite (surjective_pairing (@decorator cpu_runtime default_options save_image
                                   initial_world)) at 1.
    f_equal.
  - intros c Hc. discriminate Hc.
  - assert (returns = ([], [])) as -> by (vm_compute in Hret; congruence).
    exists cls, obj. repeat split; assumption.
Defined.

(** ** What the function is called with *)

Section TraceFacts.
Context `{Runtime}.
Variables (cfg : Config) (func : PyFunc) (args : list PyVal) (kwargs : PyDict PyVal)
          (debug : bool) (input_desc : list string) (adjusted_return_types : list PyVal)
          (wrapped_name : string) (return_names : option (list string)).

(** The loop only adds to the trace, and every call it adds is a call of
    [func] with [args] and [kwargs]. *)
Lemma retry_trace remaining : forall try_count tr,
  exists evs,
    fst (retry cfg remaining try_count func args kwargs debug input_desc
           adjusted_return_types wrapped_name return_names tr) = (tr ++ evs)%list /\
    forall f a kw, Called f a kw ∈ evs -> f = func /\ a = args /\ kw = kwargs.
Proof.
  induction remaining as [|remaining IH]; intros try_count tr.
  - exists []. split; [cbn; rewrite app_nil_r; reflexivity|].
    intros f a kw Hin. apply elem_of_nil in Hin. contradiction.
  - rewrite retry_step.
    destruct (attempt cfg func (calls_made tr) args kwargs debug adjusted_return_types
                wrapped_name return_names "") as [buffer r].
    cbv zeta.
    assert (Hone : forall f a kw,
              Called f a kw ∈ [Called func args kwargs] -> f = func /\ a = args /\ kw = kwargs).
    { intros f a kw Hin. apply list_elem_of_singleton in Hin. inversion Hin. auto. }
    assert (Hend : forall r' : res PyVal,
              exists evs,
                fst ((tr ++ [Called func args kwargs])%list, r') = (tr ++ evs)%list /\
                forall f a kw, Called f a kw ∈ evs -> f = func /\ a = args /\ kw = kwargs).
    { intros r'. exists [Called func args kwargs]. split; [reflexivity|exact Hone]. }
    destruct r as [v|e]; [apply Hend|].
    destruct (try_count + 1 =? max_tries cfg)%Z; [apply Hend|].
    destruct (process_exception_logic cfg) as [hook|].
    + destruct (hook func e input_desc buffer) as [[]|e'].
      * destruct (IH (try_count + 1)%Z
                    ((tr ++ [Called func args kwargs]) ++ [Hooked func e input_desc buffer])%list)
          as [evs [Hevs Hcalls]].
        exists ([Called func args kwargs] ++ [Hooked func e input_desc buffer] ++ evs)%list.
        split; [rewrite Hevs, <- !app_assoc; reflexivity|].
        intros f a kw Hin. apply elem_of_app in Hin as [Hin|Hin]; [exact (Hone f a kw Hin)|].
        apply elem_of_app in Hin as [Hin|Hin]; [|exact (Hcalls f a kw Hin)].
        apply list_elem_of_singleton in Hin. discriminate.
      * exists ([Called func args kwargs] ++ [Hooked func e input_desc buffer])%list.
        split; [cbn [fst]; rewrite <- app_assoc; reflexivity|].
        intros f a kw Hin. apply elem_of_app in Hin as [Hin|Hin]; [exact (Hone f a kw Hin)|].
        apply list_elem_of_singleton in Hin. discriminate.
    + destruct (IH (try_count + 1)%Z (tr ++ [Called func args kwargs])%list)
        as [evs [Hevs Hcalls]].
      exists ([Called func args kwargs] ++ evs)%list.
      split; [rewrite Hevs, <- app_assoc; reflexivity|].
      intros f a kw Hin. apply elem_of_app in Hin as [Hin|Hin]; [exact (Hone f a kw Hin)|].
      exact (Hcalls f a kw Hin).
Qed.
End TraceFacts.

Section ListModeFacts.
Context `{Runtime}.

(** The calls a wrapper invocation makes receive the keyword arguments as
    the two loops have left them. *)
Lemma wrapper_calls c args kwargs w :
  exists evs,
    trace (fst (wrapper c args kwargs w)) = (trace w ++ evs)%list /\
    forall f a kw, Called f a kw ∈ evs ->
      exists kwargs1 input_desc,
        prepare_kwargs w c kwargs = Ok (kwargs1, input_desc) /\
        (if input_is_list c then unwrap_lists c kwargs1 else Ok kwargs1) = Ok kw.
Proof.
  rewrite wrapper_eq.
  assert (Hnone : forall w' : World, trace w' = trace w ->
            exists evs,
              trace w' = (trace w ++ evs)%list /\
              forall f a kw, Called f a kw ∈ evs ->
                exists kwargs1 input_desc,
                  prepare_kwargs w c kwargs = Ok (kwargs1, input_desc) /\
                  (if input_is_list c then unwrap_lists c kwargs1 else Ok kwargs1) = Ok kw).
  { intros w' Hw'. exists []. split; [rewrite app_nil_r; exact Hw'|].
    intros f a kw Hin. apply elem_of_nil in Hin. contradiction. }
  destruct (prepare_kwargs w c kwargs) as [[kwargs1 input_desc]|e];
    [|apply Hnone; reflexivity].
  destruct (if input_is_list c then unwrap_lists c kwargs1 else Ok kwargs1)
    as [kwargs2|e] eqn:Hunwrap; [|apply Hnone; reflexivity].
  destruct (_maybe_reload_module (config w) (func c)) as [[reloaded latest_func]|e];
    [|apply Hnone; reflexivity].
  unfold _call_function_and_verify_result.
  destruct (retry_trace (config w) latest_func (if is_cls_mth c then tail args else args)
              kwargs2 (debug (opts c)) input_desc (adjusted_return_types c) (wrapped_name c)
              (return_names (opts c)) (Z.to_nat (max_tries (config w))) 0 (trace w))
    as [evs [Hevs Hcalls]].
  destruct (retry (config w) (Z.to_nat (max_tries (config w))) 0 latest_func
              (if is_cls_mth c then tail args else args) kwargs2 (debug (opts c)) input_desc
              (adjusted_return_types c) (wrapped_name c) (return_names (opts c)) (trace w))
    as [tr r].
  cbn [fst] in Hevs. subst tr. exists evs. split.
  - destruct r; reflexivity.
  - intros f a kw Hin. destruct (Hcalls f a kw Hin) as (_ & _ & ->).
    exists kwargs1, input_desc. split; [reflexivity|exact Hunwrap].
Qed.

(** What the loop that unwraps does to a parameter that is not a list: its
    value has length one and is replaced by its only element. *)
Lemma unwrap_lists_scalar c items : forall items' k v,
  unwrap_lists c items = Ok items' ->
  dict_get items k = Some v ->
  input_is_list_map (inputs c) !! k = Some false ->
  py_len v = Ok 1 /\ exists x, py_getitem0 v = Ok x /\ dict_get items' k = Some x.
Proof.
  induction items as [|[k0 v0] items IH]; intros items' k v Hrun Hget Hscalar;
    [discriminate|].
  cbn [unwrap_lists] in Hrun.
  destruct (if debug (opts c) then _ else Ok tt) as [[]|e];
    cbn [mbind res_bind] in Hrun; [|discriminate].
  destruct (match input_is_list_map (inputs c) !! k0 with
            | Some true => Ok v0
            | Some false => _
            | None => Raise (KeyError k0)
            end) as [v'|e] eqn:Hv'; cbn [mbind res_bind] in Hrun; [|discriminate].
  destruct (unwrap_lists c items) as [rest'|e] eqn:Hrest;
    cbn [mbind res_bind] in Hrun; [|discriminate].
  inversion Hrun; subst items'. clear Hrun. cbn [dict_get] in Hget |- *.
  destruct (String.eqb_spec k0 k) as [->|Hne].
  - inversion Hget; subst v0. rewrite Hscalar in Hv'.
    destruct (py_len v) as [n|e]; cbn [mbind res_bind] in Hv'; [|discriminate].
    destruct (Nat.eqb n 1) eqn:Hn; cbn [py_assert mbind res_bind] in Hv'; [|discriminate].
    apply Nat.eqb_eq in Hn. subst n. split; [reflexivity|].
    exists v'. split; [exact Hv'|reflexivity].
  - apply (IH rest' k v eq_refl Hget Hscalar).
Qed.

(** A list of another length under such a parameter stops the loop. *)
Lemma unwrap_lists_rejects c items : forall k l,
  dict_get items k = Some (VList l) ->
  input_is_list_map (inputs c) !! k = Some false ->
  length l <> 1 ->
  exists e, unwrap_lists c items = Raise e.
Proof.
  intros k l Hget Hscalar Hlen.
  destruct (unwrap_lists c items) as [items'|e] eqn:Hrun; [|eauto].
  destruct (unwrap_lists_scalar c items items' k (VList l) Hrun Hget Hscalar) as [Hone _].
  cbn in Hone. inversion Hone. contradiction.
Qed.
End ListModeFacts.

(** ** List mode *)

Section ListModeTheorem.
Context `{Runtime}.

Lemma construct_each_length cls l : forall l',
  construct_each cls l = Ok l' -> length l' = length l.
Proof.
  induction l as [|x l IH]; intros l' Hrun; cbn [construct_each] in Hrun.
  - inversion Hrun. reflexivity.
  - destruct (construct cls x) as [y|e]; cbn [mbind res_bind] in Hrun; [|discriminate].
    destruct (construct_each cls l) as [ys|e]; cbn [mbind res_bind] in Hrun; [|discriminate].
    inversion Hrun. cbn [length]. rewrite (IH ys eq_refl). reflexivity.
Qed.

(** The first loop leaves a list a list of the same length. *)
Lemma prepare_arg_list w c key l v desc :
  prepare_arg w c key (VList l) = Ok (v, desc) ->
  exists l', v = VList l' /\ length l' = length l.
Proof.
  unfold prepare_arg, promote_mask. cbn [_all_to].
  destruct (tagged (required_inputs (inputs c)) key "MASK");
    cbn [as_tensor mbind res_bind]; [discriminate|].
  set (l1 := map (_all_to _get_device) l).
  assert (Hl1 : length l1 = length l) by (subst l1; apply length_map).
  intros Hrun.
  assert (Hconv : forall v1, autoconvert (types w) c key (VList l1) = Ok v1 ->
            exists l', v1 = VList l' /\ length l' = length l).
  { unfold autoconvert. intros v1.
    destruct (bool_decide _ || bool_decide _); [|intros Heq; inversion Heq; eauto].
    destruct (input_type_map (inputs c) !! key) as [cls|]; [|discriminate].
    destruct (_get_fully_qualified_name cls) as [name|e]; cbn [mbind res_bind];
      [|discriminate].
    destruct (from_option id false (_SHOULD_AUTOCONVERT (types w) !! name));
      [|intros Heq; inversion Heq; eauto].
    destruct (construct_each cls l1) as [l2|e] eqn:Hl2; cbn [mbind res_bind]; [|discriminate].
    intros Heq. inversion Heq. exists l2. split; [reflexivity|].
    rewrite (construct_each_length cls l1 l2 Hl2). exact Hl1. }
  destruct (autoconvert (types w) c key (VList l1)) as [v1|e];
    cbn [mbind res_bind] in Hrun; [|discriminate].
  destruct (Hconv v1 eq_refl) as [l' [-> Hl']].
  destruct (describe key (VList l')) as [d|e]; cbn [mbind res_bind] in Hrun; [|discriminate].
  destruct (_verify_tensor_type _ _ _ _ _ _) as [ok|e]; cbn [mbind res_bind] in Hrun;
    [|discriminate].
  inversion Hrun. eauto.
Qed.

Lemma prepare_kwargs_list w c items : forall items' descs k l,
  prepare_kwargs w c items = Ok (items', descs) ->
  dict_get items k = Some (VList l) ->
  exists l', dict_get items' k = Some (VList l') /\ length l' = length l.
Proof.
  induction items as [|[k0 v0] items IH]; intros items' descs k l Hrun Hget; [discriminate|].
  cbn [prepare_kwargs] in Hrun.
  destruct (prepare_arg w c k0 v0) as [[v1 d1]|e] eqn:Harg; cbn [mbind res_bind] in Hrun;
    [|discriminate].
  destruct (prepare_kwargs w c items) as [[rest ds]|e]; cbn [mbind res_bind] in Hrun;
    [|discriminate].
  inversion Hrun; subst items' descs. clear Hrun. cbn [dict_get fst] in Hget |- *.
  destruct (String.eqb k0 k).
  - inversion Hget; subst v0. destruct (prepare_arg_list w c k0 l v1 d1 Harg) as [l' [-> Hl']].
    eauto.
  - apply (IH rest ds k l eq_refl Hget).
Qed.

(** The first loop keeps the arguments as the host delivered them: the
    same keys, lists of the same lengths. *)
Lemma prepare_kwargs_delivered w c items : forall items' descs,
  prepare_kwargs w c items = Ok (items', descs) ->
  delivered_in_lists c items -> delivered_in_lists c items'.
Proof.
  induction items as [|[k0 v0] items IH]; intros items' descs Hrun Hdel.
  - inversion Hrun. constructor.
  - cbn [prepare_kwargs] in Hrun.
    destruct (prepare_arg w c k0 v0) as [[v1 d1]|e] eqn:Harg; cbn [mbind res_bind] in Hrun;
      [|discriminate].
    destruct (prepare_kwargs w c items) as [[rest ds]|e] eqn:Hrest;
      cbn [mbind res_bind] in Hrun; [|discriminate].
    inversion Hrun; subst items' descs. clear Hrun. cbn [fst].
    apply Forall_cons in Hdel as [Hhead Htail].
    constructor; [|exact (IH rest ds eq_refl Htail)].
    destruct (input_is_list_map (inputs c) !! k0) as [[]|]; [| |contradiction].
    + destruct Hhead as [l ->].
      destruct (prepare_arg_list w c k0 l v1 d1 Harg) as [l' [-> _]]. eauto.
    + destruct Hhead as [x ->].
      destruct (prepare_arg_list w c k0 [x] v1 d1 Harg) as [l' [-> Hlen]].
      destruct l' as [|x' [|y l']]; try discriminate Hlen. eauto.
Qed.

(** On arguments delivered in lists the loop that unwraps goes through. *)
Lemma unwrap_lists_delivered c items :
  delivered_in_lists c items -> exists items', unwrap_lists c items = Ok items'.
Proof.
  induction items as [|[k0 v0] items IH]; intros Hdel; [eexists; reflexivity|].
  apply Forall_cons in Hdel as [Hhead Htail]. destruct (IH Htail) as [rest Hrest].
  cbn [unwrap_lists]. rewrite Hrest.
  destruct (input_is_list_map (inputs c) !! k0) as [[]|]; [| |contradiction].
  - destruct Hhead as [l ->]. destruct (debug (opts c)); eexists; reflexivity.
  - destruct Hhead as [x ->]. destruct (debug (opts c)); eexists; reflexivity.
Qed.

(** An exception of the first loop at one of the arguments is an
    exception of the loop. *)
Lemma prepare_kwargs_raises w c items : forall k v e,
  dict_get items k = Some v ->
  prepare_arg w c k v = Raise e ->
  exists e', prepare_kwargs w c items = Raise e'.
Proof.
  induction items as [|[k0 v0] items IH]; intros k v e Hget Harg; [discriminate|].
  cbn [prepare_kwargs]. cbn [dict_get] in Hget.
  destruct (String.eqb_spec k0 k) as [->|Hne].
  - inversion Hget; subst v0. rewrite Harg. eauto.
  - destruct (prepare_arg w c k0 v0) as [[v1 d1]|e0]; cbn [mbind res_bind]; [|eauto].
    destruct (IH k v e Hget Harg) as [e' ->]. eauto.
Qed.

(** With a try allowed the loop calls the function, and whatever it calls
    afterwards is the same call. *)
Lemma retry_calls_once cfg func args kwargs debug input_desc adjusted_return_types
    wrapped_name return_names remaining try_count tr :
  exists evs,
    fst (retry cfg (S remaining) try_count func args kwargs debug input_desc
           adjusted_return_types wrapped_name return_names tr)
    = (tr ++ Called func args kwargs :: evs)%list /\
    forall f a kw, Called f a kw ∈ evs -> f = func /\ a = args /\ kw = kwargs.
Proof.
  rewrite retry_step.
  destruct (attempt cfg func (calls_made tr) args kwargs debug adjusted_return_types
              wrapped_name return_names "") as [buffer r].
  cbv zeta.
  assert (Hend : forall r' : res PyVal,
            exists evs,
              fst ((tr ++ [Called func args kwargs])%list, r')
              = (tr ++ Called func args kwargs :: evs)%list /\
              forall f a kw, Called f a kw ∈ evs -> f = func /\ a = args /\ kw = kwargs).
  { intros r'. exists []. split; [reflexivity|].
    intros f a kw Hin. apply elem_of_nil in Hin. contradiction. }
  destruct r as [v|e]; [apply Hend|].
  destruct (try_count + 1 =? max_tries cfg)%Z; [apply Hend|].
  destruct (process_exception_logic cfg) as [hook|].
  - destruct (hook func e input_desc buffer) as [[]|e'].
    + destruct (retry_trace cfg func args kwargs debug input_desc adjusted_return_types
                  wrapped_name return_names remaining (try_count + 1)%Z
                  ((tr ++ [Called func args kwargs]) ++ [Hooked func e input_desc buffer])%list)
        as [evs [Hevs Hcalls]].
      exists (Hooked func e input_desc buffer :: evs).
      split; [rewrite Hevs, <- !app_assoc; reflexivity|].
      intros f a kw Hin. apply elem_of_cons in Hin as [Hin|Hin]; [discriminate|].
      exact (Hcalls f a kw Hin).
    + exists [Hooked func e input_desc buffer].
      split; [cbn [fst]; rewrite <- app_assoc; reflexivity|].
      intros f a kw Hin. apply list_elem_of_singleton in Hin. discriminate.
  - destruct (retry_trace cfg func args kwargs debug input_desc adjusted_return_types
                wrapped_name return_names remaining (try_count + 1)%Z
                (tr ++ [Called func args kwargs])%list) as [evs [Hevs Hcalls]].
    exists evs. split; [rewrite Hevs, <- app_assoc; reflexivity|exact Hcalls].
Qed.

(** C6.  In a wrapper whose schema is in list mode, take a parameter [k]
    that is not declared as a list.  If its keyword argument is a list of a
    length other than one, the wrapper raises, before it has called the
    function or changed anything.  If it is a list of one element, the
    arguments are delivered in lists, the first loop accepts them, a try
    is allowed and reloading does not fail, then the wrapper does call the
    function, and every call it makes receives under [k] the only element
    of the list the first loop made of the argument, and no longer a
    list.  But if [k] is a required input tagged "MASK", the first loop
    never accepts a list under [k]: the promotion of masks reads [.shape]
    of the list, the wrapper raises without calling the function, and
    nothing is unwrapped. *)
Theorem list_mode_unwraps_scalars :
  forall (c : Closure) (args : list PyVal) (kwargs : PyDict PyVal) (w : World) (k : string),
    input_is_list c = true ->
    input_is_list_map (inputs c) !! k = Some false ->
    (forall l, dict_get kwargs k = Some (VList l) -> length l <> 1 ->
       fst (wrapper c args kwargs w) = w /\
       exists e, snd (wrapper c args kwargs w) = Raise e) /\
    (forall x0 kwargs1 input_desc,
       dict_get kwargs k = Some (VList [x0]) ->
       delivered_in_lists c kwargs ->
       prepare_kwargs w c kwargs = Ok (kwargs1, input_desc) ->
       (1 <= max_tries (config w))%Z ->
       is_ok (_maybe_reload_module (config w) (func c)) = true ->
       exists x kwargs2 f evs,
         dict_get kwargs1 k = Some (VList [x]) /\
         unwrap_lists c kwargs1 = Ok kwargs2 /\
         dict_get kwargs2 k = Some x /\
         trace (fst (wrapper c args kwargs w))
         = (trace w ++ Called f (if is_cls_mth c then tail args else args) kwargs2 :: evs)%list /\
         forall f' a kw, Called f' a kw ∈ evs -> kw = kwargs2) /\
    (tagged (required_inputs (inputs c)) k "MASK" = true ->
     forall l, dict_get kwargs k = Some (VList l) ->
       prepare_arg w c k (VList l)
       = Raise (AttributeError "'list' object has no attribute 'shape'") /\
       fst (wrapper c args kwargs w) = w /\
       exists e, snd (wrapper c args kwargs w) = Raise e).
Proof.
  intros c args kwargs w k Hmode Hscalar. split; [|split].
  - intros l Hget Hlen. rewrite wrapper_eq.
    destruct (prepare_kwargs w c kwargs) as [[kwargs1 input_desc]|e] eqn:Hprep;
      [|split; [reflexivity|eauto]].
    destruct (prepare_kwargs_list w c kwargs kwargs1 input_desc k l Hprep Hget)
      as [l' [Hget' Hl']].
    rewrite Hmode.
    destruct (unwrap_lists_rejects c kwargs1 k l' Hget' Hscalar) as [e He]; [lia|].
    rewrite He. split; [reflexivity|eauto].
  - intros x0 kwargs1 input_desc Hget Hdel Hprep Hmax Hload.
    destruct (prepare_kwargs_list w c kwargs kwargs1 input_desc k [x0] Hprep Hget)
      as [l' [Hget' Hl']].
    destruct l' as [|x [|y l']]; try discriminate Hl'.
    destruct (unwrap_lists_delivered c kwargs1
                (prepare_kwargs_delivered w c kwargs kwargs1 input_desc Hprep Hdel))
      as [kwargs2 Hunwrap].
    destruct (unwrap_lists_scalar c kwargs1 kwargs2 k (VList [x]) Hunwrap Hget' Hscalar)
      as [_ [x' [Hx' Hkw]]].
    cbn in Hx'. inversion Hx'; subst x'.
    rewrite wrapper_eq, Hprep, Hmode, Hunwrap.
    destruct (_maybe_reload_module (config w) (func c)) as [[reloaded latest_func]|e];
      [|discriminate].
    unfold _call_function_and_verify_result.
    destruct (Z.to_nat (max_tries (config w))) as [|remaining] eqn:Hrem; [lia|].
    destruct (retry_calls_once (config w) latest_func
                (if is_cls_mth c then tail args else args) kwargs2 (debug (opts c))
                input_desc (adjusted_return_types c) (wrapped_name c)
                (return_names (opts c)) remaining 0 (trace w)) as [evs [Hevs Hcalls]].
    destruct (retry (config w) (S remaining) 0 latest_func
                (if is_cls_mth c then tail args else args) kwargs2 (debug (opts c))
                input_desc (adjusted_return_types c) (wrapped_name c)
                (return_names (opts c)) (trace w)) as [tr r].
    cbn [fst] in Hevs. subst tr.
    exists x, kwargs2, latest_func, evs.
    split; [exact Hget'|]. split; [reflexivity|]. split; [exact Hkw|]. split.
    + destruct r; reflexivity.
    + intros f' a kw Hin. destruct (Hcalls f' a kw Hin) as (_ & _ & ->). reflexivity.
  - intros Hmask l Hget.
    assert (Harg : prepare_arg w c k (VList l)
                   = Raise (AttributeError "'list' object has no attribute 'shape'")).
    { unfold prepare_arg, promote_mask. cbn [_all_to]. rewrite Hmask. reflexivity. }
    split; [exact Harg|].
    destruct (prepare_kwargs_raises w c kwargs k (VList l) _ Hget Harg) as [e He].
    rewrite wrapper_eq, He. split; [reflexivity|eauto].
Qed.
End ListModeTheorem.

(** The closures of the examples are the ones the decorator registers. *)
Example closures_registered :
  node_function (nodes (fst (@decorator cpu_runtime default_options blend initial_world)))
    "Blend" = Some blend_closure /\
  node_function (nodes (fst (@decorator cpu_runtime default_options invert initial_world)))
    "Invert" = Some invert_closure /\
  node_function (nodes (fst (@decorator cpu_runtime default_options threshold initial_world)))
    "Threshold" = Some threshold_closure.
Proof. split; [|split]; vm_compute; reflexivity. Qed.

(** [blend] is in list mode because of [images]; [strength] is not a
    list: two strengths are refused, one strength reaches the function as
    a plain number, in the one call that is made.  [mix] has a required
    mask besides its images: a mask in a list of one is not unwrapped, the
    wrapper raises and [mix] is not called. *)
Lemma list_mode_unwraps_scalars_witness :
  (exists e,
     snd (@wrapper cpu_runtime blend_closure []
            [("images", VList [VTensor pixel]); ("strength", VList [VInt 3; VInt 4])]
            quiet_world) = Raise e) /\
  (exists f evs kwargs2,
     trace (fst (@wrapper cpu_runtime blend_closure []
                   [("images", VList [VTensor pixel]); ("strength", VList [VInt 3])]
                   quiet_world)) = Called f [] kwargs2 :: evs /\
     dict_get kwargs2 "strength" = Some (VInt 3)) /\
  @wrapper cpu_runtime mix_closure []
    [("images", VList [VTensor pixel]); ("mask", VList [VTensor mask_3d])] quiet_world
  = (quiet_world, Raise (AttributeError "'list' object has no attribute 'shape'")).
Proof.
  split; [|split].
  - destruct (proj1 (@list_mode_unwraps_scalars cpu_runtime blend_closure []
                       [("images", VList [VTensor pixel]); ("strength", VList [VInt 3; VInt 4])]
                       quiet_world "strength" eq_refl eq_refl) [VInt 3; VInt 4] eq_refl)
      as [_ He]; [discriminate | exact He].
  - destruct (proj1 (proj2 (@list_mode_unwraps_scalars cpu_runtime blend_closure []
                       [("images", VList [VTensor pixel]); ("strength", VList [VInt 3])]
                       quiet_world "strength" eq_refl eq_refl))
                (VInt 3) [("images", VList [VTensor pixel]); ("strength", VList [VInt 3])]
                ["images (list): list"; "strength (list): list"] eq_refl)
      as (x & kwargs2 & f & evs & Hget & _ & Hkw & Htrace & _).
    + apply Forall_cons. split; [vm_compute; exists [VTensor pixel]; reflexivity|].
      apply Forall_cons. split; [vm_compute; exists (VInt 3); reflexivity|].
      apply Forall_nil. exact I.
    + vm_compute. reflexivity.
    + discriminate.
    + reflexivity.
    + exists f, evs, kwargs2. split; [exact Htrace|].
      vm_compute in Hget. inversion Hget; subst x. exact Hkw.
  - destruct (proj2 (proj2 (@list_mode_unwraps_scalars cpu_runtime mix_closure []
                       [("images", VList [VTensor pixel]); ("mask", VList [VTensor mask_3d])]
                       quiet_world "mask" eq_refl eq_refl))
                eq_refl [VTensor mask_3d] eq_refl) as (_ & _ & _).
    vm_compute. reflexivity.
Defined.

(** The same invocation, run: one call, with the image list as it came and
    the strength unwrapped. *)
Example blend_called_with_a_scalar :
  map (fun ev => match ev with Called _ _ kw => kw | Hooked _ _ _ _ => [] end)
    (trace (fst (@wrapper cpu_runtime blend_closure []
                   [("images", VList [VTensor pixel]); ("strength", VList [VInt 3])]
                   quiet_world)))
  = [[("images", VList [VTensor pixel]); ("strength", VInt 3)]].
Proof. vm_compute. reflexivity. Qed.

(** ** Promotion of masks *)

(** What the head of the first loop does to a tensor: it is moved to the
    device, and given a leading axis when the key is a required input
    tagged "MASK" and the tensor has two dimensions. *)
Lemma promote_mask_tensor `{Runtime} c key t :
  promote_mask c key (VTensor t)
  = Ok (VTensor (if tagged (required_inputs (inputs c)) key "MASK"
                    && Nat.eqb (length (shape t)) 2
                 then unsqueeze0 (tensor_to _get_device t)
                 else tensor_to _get_device t)).
Proof.
  unfold promote_mask. cbn [_all_to].
  destruct (tagged (required_inputs (inputs c)) key "MASK"); [|reflexivity].
  cbn [as_tensor mbind res_bind tensor_to shape andb].
  destruct (Nat.eqb (length (shape t)) 2); reflexivity.
Qed.

(** C7.  A keyword argument whose schema entry carries the tag "MASK" and
    whose tensor has two dimensions is to be promoted to three dimensions
    before validation and before the call.  The wrapper does so for the
    required mask of [threshold]: the tensor reaches the function with a
    leading axis of length one.  It does not for the optional mask of
    [invert], declared as [mask: MaskTensor = None]: the test before
    [unsqueeze] only looks at the required inputs, the tensor keeps its two
    dimensions, the verification, which looks at required and optional
    inputs alike, rejects them, and the wrapper raises without calling the
    function. *)
Theorem optional_mask_is_not_promoted :
  tagged (optional_inputs (inputs invert_closure)) "mask" "MASK" = true /\
  length (shape mask_2d) = 2 /\
  @promote_mask cpu_runtime invert_closure "mask" (VTensor mask_2d) = Ok (VTensor mask_2d) /\
  (exists msg,
     @wrapper cpu_runtime invert_closure [] [("mask", VTensor mask_2d)] quiet_world
     = (quiet_world, Raise (ValueError msg))) /\
  @promote_mask cpu_runtime threshold_closure "mask" (VTensor mask_2d) = Ok (VTensor mask_3d) /\
  trace (fst (@wrapper cpu_runtime threshold_closure [] [("mask", VTensor mask_2d)]
                quiet_world))
  = [Called threshold [] [("mask", VTensor mask_3d)]].
Proof.
  split; [vm_compute; reflexivity|]. split; [reflexivity|].
  split; [vm_compute; reflexivity|]. split; [eexists; vm_compute; reflexivity|].
  split; vm_compute; reflexivity.
Qed.

(** ** The window of initialisation, on an example *)


(** Two functions whose names give the workflow identifier ["SaveImage"]:
    decorating the second right after the first raises; once the wrapper
    of the first has run, decorating the second replaces the entry by a
    new class. *)
Example colliding_identifiers :
  workflow_id default_options save_image = workflow_id default_options save__image /\
  (let w1 := fst (@decorator cpu_runtime default_options save_image initial_world) in
   snd (@decorator cpu_runtime default_options save__image w1)
   = Raise (AssertionError
              "Node class 'SaveImage (save__image_comfyfunc_wrapper)' already exists!") /\
   NODE_CLASS_MAPPINGS (nodes w1) !! "SaveImage" = Some 0 /\
   match node_function (nodes w1) "SaveImage" with
   | Some c =>
       let w2 := fst (@wrapper cpu_runtime c [] [("image", VTensor pixel)] w1) in
       let w3 := fst (@decorator cpu_runtime default_options save__image w2) in
       already_initialized (nodes w2) = true /\
       is_ok (snd (@decorator cpu_runtime default_options save__image w2)) = true /\
       NODE_CLASS_MAPPINGS (nodes w3) !! "SaveImage" = Some 1 /\
       NODE_DISPLAY_NAME_MAPPINGS (nodes w3) !! "SaveImage" = Some "Save  Image"
   | None => False
   end).
Proof.
  split; [reflexivity|]. split; [vm_compute; reflexivity|].
  split; [vm_compute; reflexivity|].
  vm_compute. repeat split; reflexivity.
Qed.

(** ** The partition of the inputs *)

(** One turn of the loop of the introspection enters the parameter into at
    most one of the required and the optional inputs, and touches no
    other name. *)
Lemma infer_param_partition r acc p acc' :
  infer_param r acc p = Ok acc' ->
  required_inputs acc ##ₘ optional_inputs acc ->
  required_inputs acc !! p_name p = None ->
  optional_inputs acc !! p_name p = None ->
  required_inputs acc' ##ₘ optional_inputs acc' /\
  forall k, k <> p_name p ->
    required_inputs acc' !! k = required_inputs acc !! k /\
    optional_inputs acc' !! k = optional_inputs acc !! k.
Proof.
  intros Hrun Hdisj Hreq Hopt. unfold infer_param in Hrun.
  destruct (_annotate_input r (p_annotation p) (p_default p)) as [[[spec is_opt] is_hid]|e];
    cbn [mbind res_bind] in Hrun; [|discriminate].
  cbn [required_inputs hidden_inputs optional_inputs input_is_list_map input_type_map]
    in Hrun.
  destruct (String.eqb (p_name p) "unique_id");
    [inversion Hrun; subst acc'; cbn; auto|].
  destruct (String.eqb (p_name p) "extra_pnginfo");
    [inversion Hrun; subst acc'; cbn; auto|].
  destruct is_opt; cbn [negb] in Hrun.
  - destruct is_hid; inversion Hrun; subst acc'; cbn; [auto|]. split.
    + apply map_disjoint_insert_r. split; assumption.
    + intros k Hk. rewrite lookup_insert_ne by congruence. auto.
  - inversion Hrun; subst acc'; cbn. split.
    + apply map_disjoint_insert_l. split; assumption.
    + intros k Hk. rewrite lookup_insert_ne by congruence. auto.
Qed.

Lemma infer_params_partition r params : forall acc acc',
  NoDup (map p_name params) ->
  infer_params r acc params = Ok acc' ->
  required_inputs acc ##ₘ optional_inputs acc ->
  (forall p, p ∈ params ->
     required_inputs acc !! p_name p = None /\ optional_inputs acc !! p_name p = None) ->
  required_inputs acc' ##ₘ optional_inputs acc'.
Proof.
  induction params as [|p params IH]; intros acc acc' Hnodup Hrun Hdisj Hfresh.
  - inversion Hrun; subst acc'. exact Hdisj.
  - cbn [infer_params] in Hrun. cbn [map] in Hnodup.
    apply NoDup_cons in Hnodup as [Hp Hnodup].
    destruct (infer_param r acc p) as [acc1|e] eqn:Hstep; cbn [mbind res_bind] in Hrun;
      [|discriminate].
    destruct (Hfresh p) as [Hreq Hopt]; [apply elem_of_cons; left; reflexivity|].
    destruct (infer_param_partition r acc p acc1 Hstep Hdisj Hreq Hopt) as [Hdisj1 Hsame].
    apply (IH acc1 acc' Hnodup Hrun Hdisj1).
    intros q Hq.
    assert (Hne : p_name q <> p_name p).
    { intros Heq. apply Hp. rewrite <- Heq. apply list_elem_of_fmap. eauto. }
    destruct (Hsame (p_name q) Hne) as [-> ->]. apply Hfresh. apply elem_of_cons. right.
    exact Hq.
Qed.

(** The required and the optional inputs the introspection derives from a
    signature share no name. *)
Lemma inferred_inputs_disjoint r func skip_first debug inputs :
  NoDup (map p_name (f_parameters func)) ->
  _infer_input_types_from_annotations r func skip_first debug = Ok inputs ->
  required_inputs inputs ##ₘ optional_inputs inputs.
Proof.
  intros Hnodup Hrun. unfold _infer_input_types_from_annotations in Hrun.
  destruct (if skip_first && debug then _ else Ok tt) as [[]|e];
    cbn [mbind res_bind] in Hrun; [|discriminate].
  eapply infer_params_partition; [|exact Hrun| |].
  - destruct skip_first; [|exact Hnodup].
    destruct (f_parameters func) as [|p params]; [constructor|].
    cbn [map tail] in *. apply NoDup_cons in Hnodup as [_ Hnodup]. exact Hnodup.
  - apply map_disjoint_empty_l.
  - intros p _. split; apply lookup_empty.
Qed.

(** * Further properties *)

(** ** The type registry, continued *)

(** X1.  [register_type] only ever adds: whatever type is registered, with
    whatever name and flags, every tag that was in
    [_ANNOTATION_TO_COMFYUI_TYPE] before is there afterwards, unchanged. *)
Theorem register_type_keeps_tags :
  forall (cls : PyType) (name : PyVal) (should_autoconvert is_auto_register force_input : bool)
         (r : TypeRegistry) (key : string) (tag : PyVal),
    _ANNOTATION_TO_COMFYUI_TYPE r !! key = Some tag ->
    _ANNOTATION_TO_COMFYUI_TYPE
      (fst (register_type cls name should_autoconvert is_auto_register force_input r)) !! key
    = Some tag.
Proof.
  intros cls name sa iar fi r key tag Hkey. unfold register_type.
  destruct (_get_fully_qualified_name cls) as [key'|e]; [|exact Hkey].
  destruct (_ANNOTATION_TO_COMFYUI_TYPE r !! key') as [old|] eqn:Hold; [exact Hkey|].
  cbn [fst _ANNOTATION_TO_COMFYUI_TYPE]. rewrite lookup_insert_ne; [exact Hkey|].
  intros ->. congruence.
Qed.

(** Registering a user class leaves the tag of [int] alone. *)
Lemma register_type_keeps_tags_witness :
  _ANNOTATION_TO_COMFYUI_TYPE
    (fst (register_type (TyClass {| __module__ := "example"; __qualname__ := "Curve" |})
            (VStr "CURVE") false false true initial_types)) !! "builtins.int"
  = Some (VStr "INT").
Proof.
  apply (register_type_keeps_tags
           (TyClass {| __module__ := "example"; __qualname__ := "Curve" |})
           (VStr "CURVE") false false true initial_types "builtins.int" (VStr "INT")).
  reflexivity.
Defined.

(** X2.  Register, then resolve: after [register_type(cls, name)] the type
    resolves, through [_get_type_str], to [name] if it was not registered
    before and to the tag of its first registration if it was; this holds
    for a list alias too, which then no longer resolves to its element. *)
Theorem register_then_resolve :
  forall (cls : PyType) (key : string) (name : PyVal)
         (should_autoconvert is_auto_register force_input : bool) (r : TypeRegistry),
    _get_fully_qualified_name cls = Ok key ->
    _get_type_str (fst (register_type cls name should_autoconvert is_auto_register
                          force_input r)) cls
    = Ok (from_option id name (_ANNOTATION_TO_COMFYUI_TYPE r !! key)).
Proof.
  intros cls key name sa iar fi r Hkey.
  assert (Hres : forall r' tag,
            _ANNOTATION_TO_COMFYUI_TYPE r' !! key = Some tag ->
            _get_type_str r' cls = Ok tag).
  { intros r' tag Htag. destruct cls as [|c|c o args|]; cbn [_get_type_str];
      rewrite Hkey, Htag; try reflexivity.
    destruct o; reflexivity. }
  unfold register_type. rewrite Hkey.
  destruct (_ANNOTATION_TO_COMFYUI_TYPE r !! key) as [old|] eqn:Hold; cbn [fst from_option id].
  - apply Hres. exact Hold.
  - apply Hres. cbn [_ANNOTATION_TO_COMFYUI_TYPE]. apply lookup_insert_eq.
Qed.

(** A user class resolves to the tag it was just registered with. *)
Lemma register_then_resolve_witness :
  _get_type_str
    (fst (register_type (TyClass {| __module__ := "example"; __qualname__ := "Curve" |})
            (VStr "CURVE") false false true initial_types))
    (TyClass {| __module__ := "example"; __qualname__ := "Curve" |})
  = Ok (VStr "CURVE").
Proof.
  apply (register_then_resolve
           (TyClass {| __module__ := "example"; __qualname__ := "Curve" |})
           "example.Curve" (VStr "CURVE") false false true initial_types).
  reflexivity.
Defined.

Lemma get_type_str_known (r : TypeRegistry) :
  forall (the_type : PyType) (tag : PyVal),
    _get_type_str r the_type = Ok tag -> known_tag r tag.
Proof.
  fix IH 1. intros the_type tag.
  assert (Hlookup : forall key,
            Ok (default any_type (_ANNOTATION_TO_COMFYUI_TYPE r !! key)) = Ok tag ->
            known_tag r tag).
  { intros key Heq. inversion Heq.
    destruct (_ANNOTATION_TO_COMFYUI_TYPE r !! key) as [v|] eqn:Hv; cbn [default].
    - right. exists key. exact Hv.
    - left. reflexivity. }
  destruct the_type as [|c|c o args|]; cbn [_get_type_str].
  - apply Hlookup.
  - apply Hlookup.
  - destruct (_get_fully_qualified_name (TyAlias c o args)) as [key|e]; [|discriminate].
    destruct o; try apply Hlookup.
    destruct (bool_decide (_ANNOTATION_TO_COMFYUI_TYPE r !! key = None)); [|apply Hlookup].
    destruct args as [|a rest]; [discriminate|]. apply IH.
  - discriminate.
Qed.

(** X3.  A host tag never comes from anywhere but the registry: whatever
    [_get_type_str] returns, for whatever annotation, is the tag of a
    registered type or the wildcard. *)
Theorem resolved_tags_are_known :
  forall (r : TypeRegistry) (the_type : PyType) (tag : PyVal),
    _get_type_str r the_type = Ok tag -> known_tag r tag.
Proof. exact get_type_str_known. Qed.

(** The element type of [list[ImageTensor]] gives its tag. *)
Lemma resolved_tags_are_known_witness :
  known_tag initial_types (VStr "IMAGE").
Proof.
  apply (resolved_tags_are_known initial_types
           (TyAlias (Some {| __module__ := "builtins"; __qualname__ := "list" |})
              OriginList [ImageTensor])
           (VStr "IMAGE")).
  reflexivity.
Defined.

(** A fully-qualified name has a dot in it: it is never "str". *)
Lemma qualified_name_is_not_str cls : _get_fully_qualified_name cls <> Ok "str".
Proof.
  assert (Hdot : forall m q : string, m ++ "." ++ q <> "str").
  { intros m q Heq.
    destruct m as [|c1 [|c2 [|c3 [|c4 m]]]]; cbn in Heq; inversion Heq. }
  destruct cls as [|c|[c|] o args|]; cbn [_get_fully_qualified_name];
    try discriminate; intros Heq; inversion Heq as [Hname]; exact (Hdot _ _ Hname).
Qed.

(** The registry of the module converts nothing, and stays so when types
    are registered without [should_autoconvert]. *)
Lemma initial_types_convert_nothing : converts_nothing initial_types.
Proof.
  intros key Hkey.
  assert (Hin : (key, true) ∈ map_to_list (_SHOULD_AUTOCONVERT initial_types))
    by (apply elem_of_map_to_list; exact Hkey).
  vm_compute in Hin.
  repeat (apply elem_of_cons in Hin as [Heq|Hin];
          [inversion Heq; try reflexivity|]).
  apply elem_of_nil in Hin. contradiction.
Qed.

Lemma register_type_converts_nothing cls name is_auto_register force_input r :
  converts_nothing r ->
  converts_nothing (fst (register_type cls name false is_auto_register force_input r)).
Proof.
  intros Hr key. unfold register_type.
  destruct (_get_fully_qualified_name cls) as [key'|e]; [|apply Hr].
  destruct (_ANNOTATION_TO_COMFYUI_TYPE r !! key'); [apply Hr|].
  cbn [fst _SHOULD_AUTOCONVERT]. intros Hkey.
  destruct (decide (key' = key)) as [->|Hne].
  - rewrite lookup_insert_eq in Hkey. discriminate.
  - rewrite lookup_insert_ne in Hkey by exact Hne. apply Hr. exact Hkey.
Qed.

(** X4.  The entry ["str": True] that [_SHOULD_AUTOCONVERT] starts with is
    never hit, because no type has the fully-qualified name "str": as long
    as no type is registered with [should_autoconvert], the wrapper hands
    every argument on as it is, strings and lists included, and calls no
    constructor. *)
Theorem autoconvert_needs_a_registration :
  forall (H : Runtime) (r : TypeRegistry) (c : Closure) (key : string) (arg v : PyVal),
    converts_nothing r ->
    autoconvert r c key arg = Ok v ->
    v = arg.
Proof.
  intros H r c key arg v Hr. unfold autoconvert.
  destruct (bool_decide _ || bool_decide _); [|intros Heq; inversion Heq; reflexivity].
  destruct (input_type_map (inputs c) !! key) as [cls|]; [|discriminate].
  destruct (_get_fully_qualified_name cls) as [name|e] eqn:Hname; cbn [mbind res_bind];
    [|discriminate].
  destruct (_SHOULD_AUTOCONVERT r !! name) as [[|]|] eqn:Hflag; cbn [from_option id];
    try (intros Heq; inversion Heq; reflexivity).
  exfalso. apply (qualified_name_is_not_str cls). rewrite Hname.
  f_equal. apply Hr. exact Hflag.
Qed.

(** The strength of [blend], an [int], under the registry of the module. *)
Lemma autoconvert_needs_a_registration_witness :
  @autoconvert cpu_runtime initial_types blend_closure "strength" (VInt 3) = Ok (VInt 3).
Proof.
  destruct (@autoconvert cpu_runtime initial_types blend_closure "strength" (VInt 3))
    as [v|e] eqn:Hrun.
  - f_equal.
    apply (autoconvert_needs_a_registration cpu_runtime initial_types blend_closure
             "strength" (VInt 3) v initial_types_convert_nothing Hrun).
  - vm_compute in Hrun. discriminate Hrun.
Defined.

(** ** Tensors, continued *)

(** X5.  Moving twice is moving to the last device: [_all_to] after
    [_all_to] is the outer [_all_to], at every depth of nested lists; in
    particular moving to the same device twice changes nothing more. *)
Theorem all_to_last_wins :
  forall (d1 d2 : Device) (v : PyVal), _all_to d2 (_all_to d1 v) = _all_to d2 v.
Proof.
  intros d1 d2. fix IH 1. intros [ | | | | | |t|l|l|]; cbn [_all_to]; try reflexivity.
  f_equal. induction l as [|x rest IHrest]; cbn [map]; [reflexivity|].
  rewrite IH, IHrest. reflexivity.
Qed.

Section MoreVerificationFacts.
Context `{Runtime}.

Lemma verify_tensor_off cfg arg name tensor_type shapes dims channels :
  verify_tensors cfg = false ->
  _verify_tensor cfg arg name tensor_type shapes dims channels = Ok (VBool true).
Proof. intros Hoff. destruct arg; cbn [_verify_tensor]; rewrite Hoff; reflexivity. Qed.

Lemma verify_tensor_type_loop_off cfg table : forall key arg required optional name,
  verify_tensors cfg = false ->
  verify_tensor_type_loop cfg table key arg required optional name = Ok (VBool true).
Proof.
  induction table as [|[tensor_type params] table IH]; intros key arg required optional name
    Hoff; cbn [verify_tensor_type_loop]; [reflexivity|].
  destruct (tagged required key tensor_type || tagged optional key tensor_type).
  - apply verify_tensor_off. exact Hoff.
  - apply IH. exact Hoff.
Qed.

(** X6.  With [verify_tensors] switched off nothing is verified:
    [_verify_tensor] and [_verify_tensor_type] return [True] for every
    argument, schema and tag, and so does [_verify_return_type] for every
    tag that can be hashed.  A tag that cannot, a list say, makes its test
    [return_type in tensor_types] raise the [TypeError] of the hash, which
    comes before [verify_tensors] is looked at. *)
Theorem verification_switched_off :
  forall (cfg : Config) (arg : PyVal) (name tensor_type key : string) (return_type : PyVal)
         (shapes dims channels : option (list nat))
         (required optional : gmap string InputSpec),
    verify_tensors cfg = false ->
    _verify_tensor cfg arg name tensor_type shapes dims channels = Ok (VBool true) /\
    _verify_tensor_type cfg key arg required optional name = Ok (VBool true) /\
    _verify_return_type cfg arg return_type name
    = match hashable return_type with
      | Ok _ => Ok (VBool true)
      | Raise e => Raise e
      end.
Proof.
  intros cfg arg name tensor_type key return_type shapes dims channels required optional Hoff.
  split; [apply verify_tensor_off; exact Hoff|]. split.
  - apply verify_tensor_type_loop_off. exact Hoff.
  - unfold _verify_return_type.
    destruct (hashable return_type) as [[]|e]; cbn [mbind res_bind]; [|reflexivity].
    destruct (str_value return_type) as [tag|]; [|reflexivity].
    destruct (dict_get tensor_types tag); [|reflexivity]. apply verify_tensor_off. exact Hoff.
Qed.




(** X8.  An input is verified only if the schema tags its key IMAGE, MASK
    or DEPTH: for a key with another tag, or with no entry at all,
    [_verify_tensor_type] returns [True] whatever the argument is. *)
Theorem untagged_inputs_are_not_verified :
  forall (cfg : Config) (key : string) (arg : PyVal)
         (required optional : gmap string InputSpec) (name : string),
    (forall tensor_type, tensor_type ∈ dict_keys tensor_types ->
       tagged required key tensor_type = false /\ tagged optional key tensor_type = false) ->
    _verify_tensor_type cfg key arg required optional name = Ok (VBool true).
Proof.
  intros cfg key arg required optional name Hnone.
  unfold _verify_tensor_type, tensor_types. cbn [verify_tensor_type_loop].
  assert (Hkeys : forall tensor_type, tensor_type ∈ ["IMAGE"; "MASK"; "DEPTH"] ->
            tagged required key tensor_type || tagged optional key tensor_type = false).
  { intros tensor_type Hin. destruct (Hnone tensor_type Hin) as [Hr Ho].
    rewrite Hr, Ho. reflexivity. }
  rewrite (Hkeys "IMAGE"), (Hkeys "MASK"), (Hkeys "DEPTH")
    by (repeat first [apply list_elem_of_here | apply list_elem_of_further]).
  reflexivity.
Qed.
End MoreVerificationFacts.


(** The strength of [blend] is tagged "INT": a tensor passed for it is not
    looked at. *)
Lemma untagged_inputs_are_not_verified_witness :
  @_verify_tensor_type cpu_runtime default_config "strength" (VTensor mask_2d)
    (required_inputs (inputs blend_closure)) (optional_inputs (inputs blend_closure))
    "'strength'" = Ok (VBool true).
Proof.
  apply (@untagged_inputs_are_not_verified cpu_runtime).
  intros tensor_type Hin. unfold dict_keys in Hin. cbn in Hin.
  repeat (apply elem_of_cons in Hin as [->|Hin]; [split; vm_compute; reflexivity|]).
  apply elem_of_nil in Hin. contradiction.
Defined.

(** The bright mask of the examples passes every check once verification
    is off. *)
Lemma verification_switched_off_witness :
  verify_tensors unverified = false /\
  @_verify_tensor cpu_runtime unverified (VTensor bright_3d) "'mask'" "MASK" (Some [3]) None None
  = Ok (VBool true) /\
  @_verify_tensor_type cpu_runtime unverified "mask" (VTensor bright_3d) mask_required ∅ "'mask'"
  = Ok (VBool true) /\
  @_verify_return_type cpu_runtime unverified (VTensor bright_3d) (VStr "MASK") "return_0"
  = Ok (VBool true).
Proof.
  split; [reflexivity|].
  apply (@verification_switched_off cpu_runtime unverified (VTensor bright_3d) "'mask'" "MASK"
           "mask" (VStr "MASK") (Some [3]) None None mask_required ∅).
  reflexivity.
Defined.

(** A tag that is a list cannot be looked up, verification on or off. *)
Example list_tag_cannot_be_hashed :
  @_verify_return_type cpu_runtime unverified (VInt 1) (VList [VStr "a"; VStr "b"]) "return_0"
  = Raise (TypeError "unhashable type: 'list'") /\
  @_verify_return_type cpu_runtime default_config (VInt 1) (VList [VStr "a"; VStr "b"])
    "return_0"
  = Raise (TypeError "unhashable type: 'list'").
Proof. split; reflexivity. Qed.

(** ** The retry loop, continued *)

Section MoreExecutionFacts.
Context `{Runtime}.
Variables (cfg : Config) (func : PyFunc) (args : list PyVal) (kwargs : PyDict PyVal)
          (debug : bool) (input_desc : list string) (adjusted_return_types : list PyVal)
          (wrapped_name : string) (return_names : option (list string)).

Abbreviation run_from tr :=
  (_call_function_and_verify_result cfg func args kwargs debug input_desc
     adjusted_return_types wrapped_name return_names tr).

(** X9.  With [max_tries] zero or negative the function is never called:
    the loop is not entered, the trace stays as it is, and what comes out
    is the assertion error that follows the loop. *)
Theorem no_tries_no_call :
  forall tr : list Event,
    (max_tries cfg <= 0)%Z ->
    run_from tr = (tr, Raise (AssertionError "Should never reach this point")).
Proof.
  intros tr Hmax. unfold _call_function_and_verify_result.
  replace (Z.to_nat (max_tries cfg)) with 0 by lia. reflexivity.
Qed.

Lemma retry_bounds remaining : forall try_count tr,
  max_tries cfg = (try_count + Z.of_nat remaining)%Z ->
  exists evs,
    fst (retry cfg remaining try_count func args kwargs debug input_desc
           adjusted_return_types wrapped_name return_names tr) = (tr ++ evs)%list /\
    calls_made evs <= remaining /\
    length (hook_calls evs) <= remaining - 1 /\
    (process_exception_logic cfg = None -> hook_calls evs = []).
Proof.
  induction remaining as [|remaining IH]; intros try_count tr Hmax.
  - exists []. cbn. rewrite app_nil_r. repeat split; auto.
  - rewrite retry_step.
    destruct (attempt cfg func (calls_made tr) args kwargs debug adjusted_return_types
                wrapped_name return_names "") as [buffer r].
    cbv zeta.
    assert (Hend : forall r' : res PyVal,
              exists evs,
                fst ((tr ++ [Called func args kwargs])%list, r') = (tr ++ evs)%list /\
                calls_made evs <= S remaining /\
                length (hook_calls evs) <= S remaining - 1 /\
                (process_exception_logic cfg = None -> hook_calls evs = [])).
    { intros r'. exists [Called func args kwargs]. cbn. repeat split; auto; lia. }
    destruct r as [v|e]; [apply Hend|].
    destruct (Z.eqb_spec (try_count + 1) (max_tries cfg)) as [Heq|Hne]; [apply Hend|].
    assert (Hpos : 1 <= remaining) by lia.
    destruct (process_exception_logic cfg) as [hook|] eqn:Hcfg.
    + destruct (hook func e input_desc buffer) as [[]|e'].
      * destruct (IH (try_count + 1)%Z
                    ((tr ++ [Called func args kwargs]) ++ [Hooked func e input_desc buffer])%list)
          as [evs (Hevs & Hcalls & Hhooks & _)]; [lia|].
        exists ([Called func args kwargs] ++ [Hooked func e input_desc buffer] ++ evs)%list.
        split; [rewrite Hevs, <- !app_assoc; reflexivity|].
        rewrite !calls_made_app, !hook_calls_app, !length_app. cbn.
        repeat split; try lia. discriminate.
      * exists ([Called func args kwargs] ++ [Hooked func e input_desc buffer])%list.
        split; [cbn [fst]; rewrite <- app_assoc; reflexivity|].
        cbn. repeat split; try lia. discriminate.
    + destruct (IH (try_count + 1)%Z (tr ++ [Called func args kwargs])%list)
        as [evs (Hevs & Hcalls & Hhooks & Hnone)]; [lia|].
      exists ([Called func args kwargs] ++ evs)%list.
      split; [rewrite Hevs, <- app_assoc; reflexivity|].
      rewrite calls_made_app, hook_calls_app, length_app. cbn.
      repeat split; try lia. intros _. apply Hnone. reflexivity.
Qed.

(** X10.  An invocation only adds to the trace, and what it adds is
    bounded by [max_tries]: the function is called at most [max_tries]
    times and the hook at most [max_tries - 1] times; without a hook
    configured, no hook is called. *)
Theorem tries_are_bounded :
  forall tr : list Event,
  exists evs,
    fst (run_from tr) = (tr ++ evs)%list /\
    calls_made evs <= Z.to_nat (max_tries cfg) /\
    length (hook_calls evs) <= Z.to_nat (max_tries cfg) - 1 /\
    (process_exception_logic cfg = None -> hook_calls evs = []).
Proof.
  intros tr. unfold _call_function_and_verify_result.
  destruct (Z.le_gt_cases (max_tries cfg) 0) as [Hle|Hgt].
  - replace (Z.to_nat (max_tries cfg)) with 0 by lia.
    exists []. cbn. rewrite app_nil_r. repeat split; auto.
  - apply retry_bounds. lia.
Qed.

(** X11.  A hook that raises ends the invocation: when the first attempt
    fails, more tries are allowed and the hook raises itself, the
    exception of the hook comes out in place of the one of the function,
    and the function is not called again. *)
Theorem raising_hook_stops_the_retries :
  forall (tr : list Event) (hook : Hook) (buffer : string) (e e' : Exn),
    (1 < max_tries cfg)%Z ->
    process_exception_logic cfg = Some hook ->
    attempt cfg func (calls_made tr) args kwargs debug adjusted_return_types wrapped_name
      return_names "" = (buffer, Raise e) ->
    hook func e input_desc buffer = Raise e' ->
    run_from tr
    = ((tr ++ [Called func args kwargs; Hooked func e input_desc buffer])%list, Raise e').
Proof.
  intros tr hook buffer e e' Hmax Hcfg Hat Hhook. unfold _call_function_and_verify_result.
  destruct (Z.to_nat (max_tries cfg)) as [|remaining] eqn:Hrem; [lia|].
  rewrite retry_step, Hat. cbv zeta.
  destruct (Z.eqb_spec (0 + 1) (max_tries cfg)) as [Heq|_]; [lia|].
  rewrite Hcfg, Hhook, <- app_assoc. reflexivity.
Qed.

Lemma retry_returns remaining : forall try_count tr tr' v,
  retry cfg remaining try_count func args kwargs debug input_desc adjusted_return_types
    wrapped_name return_names tr = (tr', Ok v) ->
  exists n out result,
    behaviour func n args kwargs = (out, Ok result) /\
    v = normalized adjusted_return_types result /\
    (length adjusted_return_types <> 0 ->
     length (as_tuple result) = length adjusted_return_types).
Proof.
  induction remaining as [|remaining IH]; intros try_count tr tr' v Hrun; [discriminate|].
  rewrite retry_step in Hrun.
  destruct (attempt cfg func (calls_made tr) args kwargs debug adjusted_return_types
              wrapped_name return_names "") as [buffer r] eqn:Hat.
  cbv zeta in Hrun. destruct r as [v0|e].
  - inversion Hrun; subst v0. clear Hrun.
    unfold attempt in Hat. rewrite M_bind_eq in Hat.
    destruct (behaviour func (calls_made tr) args kwargs) as [out [result|e]] eqn:Hcall;
      [|discriminate].
    exists (calls_made tr), out, result. split; [exact Hcall|].
    split; [eapply check_result_value; exact Hat|].
    intros HN.
    destruct (Nat.eq_dec (length (as_tuple result)) (length adjusted_return_types))
      as [Hlen|Hlen]; [exact Hlen|].
    rewrite (check_result_arity_mismatch cfg func debug adjusted_return_types wrapped_name
               return_names result _ HN Hlen) in Hat.
    discriminate.
  - destruct (try_count + 1 =? max_tries cfg)%Z; [discriminate|].
    destruct (process_exception_logic cfg) as [hook|].
    + destruct (hook func e input_desc buffer) as [[]|e']; [|discriminate].
      eapply IH. exact Hrun.
    + eapply IH. exact Hrun.
Qed.

(** X12.  Whenever [_call_function_and_verify_result] returns, what it
    returns is a tuple with one element per declared return type, and the
    tuple [(None,)] when none is declared.  Every element of it that holds
    its tensors in lists only (a tensor, or lists of tensors at any depth)
    has all of them on the CPU; tensors inside a nested tuple or another
    object are not promised to be. *)
Theorem returned_tuple_has_the_declared_arity :
  forall (tr tr' : list Event) (v : PyVal),
    run_from tr = (tr', Ok v) ->
    exists l,
      v = VTuple l /\
      length l = Nat.max 1 (length adjusted_return_types) /\
      (length adjusted_return_types = 0 -> l = [VNone]) /\
      (forall x, x ∈ l -> list_nested x = true -> on_device Cpu x).
Proof.
  intros tr tr' v Hrun. unfold _call_function_and_verify_result in Hrun.
  destruct (retry_returns _ _ _ _ _ Hrun) as [n [out [result (_ & -> & Hlen)]]].
  unfold normalized.
  destruct (Nat.eqb_spec (length adjusted_return_types) 0) as [H0|HN].
  - exists [VNone]. rewrite H0. split; [reflexivity|]. split; [reflexivity|].
    split; [reflexivity|]. intros x Hx _. apply list_elem_of_singleton in Hx. subst x.
    exact I.
  - exists (map (_all_to Cpu) (as_tuple result)). split; [reflexivity|].
    split; [rewrite length_map, (Hlen HN); lia|]. split; [intros H0; contradiction|].
    intros x Hx Hnested. apply list_elem_of_fmap in Hx as [y [-> _]].
    apply all_to_on_device. rewrite all_to_list_nested in Hnested. exact Hnested.
Qed.
End MoreExecutionFacts.

(** [flaky] is not called when no try is allowed. *)
Lemma no_tries_no_call_witness :
  @_call_function_and_verify_result cpu_runtime no_tries flaky [] [] false [] [VStr "INT"]
    "flaky_comfyfunc_wrapper" None []
  = ([], Raise (AssertionError "Should never reach this point")).
Proof.
  apply (@no_tries_no_call cpu_runtime no_tries flaky [] [] false [] [VStr "INT"]
           "flaky_comfyfunc_wrapper" None []).
  discriminate.
Defined.

(** [flaky] would succeed at its second call; the broken hook prevents it. *)
Lemma raising_hook_stops_the_retries_witness :
  @_call_function_and_verify_result cpu_runtime three_tries_broken_hook flaky [] [] false []
    [VStr "INT"] "flaky_comfyfunc_wrapper" None []
  = ([Called flaky [] [];
      Hooked flaky (UserException "ConnectionError" "refused") [] "connecting"],
     Raise (UserException "HookError" "no disk space")).
Proof.
  apply (@raising_hook_stops_the_retries cpu_runtime three_tries_broken_hook flaky [] [] false
           [] [VStr "INT"] "flaky_comfyfunc_wrapper" None [] broken_hook "connecting"
           (UserException "ConnectionError" "refused")
           (UserException "HookError" "no disk space")).
  - reflexivity.
  - reflexivity.
  - reflexivity.
  - reflexivity.
Defined.

(** [flaky] under two tries returns a tuple of one element. *)
Lemma returned_tuple_has_the_declared_arity_witness :
  exists l,
    snd (@_call_function_and_verify_result cpu_runtime two_tries flaky [] [] false []
           [VStr "INT"] "flaky_comfyfunc_wrapper" None []) = Ok (VTuple l) /\
    length l = 1.
Proof.
  destruct (@returned_tuple_has_the_declared_arity cpu_runtime two_tries flaky [] [] false []
              [VStr "INT"] "flaky_comfyfunc_wrapper" None []
              [Called flaky [] [];
               Hooked flaky (UserException "ConnectionError" "refused") [] "connecting";
               Called flaky [] []]
              (VTuple [VInt 7]) eq_refl) as [l (Hv & Hlen & _)].
  exists l. split; [rewrite <- Hv; reflexivity | exact Hlen].
Defined.

(** ** The wrapper, continued *)

Section MoreWrapperFacts.
Context `{Runtime}.

(** X13.  With reloading off (a reload runs the decorators of the module
    again), an invocation of the wrapper changes nothing of the module but
    the flag [already_initialized] and the trace: the configuration, the
    registered types, both registries and the classes stay as they are,
    the trace is only extended, and a flag that was set stays set. *)
Theorem wrapper_changes_flag_and_trace_only :
  forall (c : Closure) (args : list PyVal) (kwargs : PyDict PyVal) (w : World),
    reload_modules (config w) = false ->
    let w' := fst (wrapper c args kwargs w) in
    config w' = config w /\
    types w' = types w /\
    set_initialized (already_initialized (nodes w)) (nodes w') = nodes w /\
    (exists evs, trace w' = (trace w ++ evs)%list) /\
    (already_initialized (nodes w) = true -> already_initialized (nodes w') = true).
Proof.
  intros c args kwargs w _ w'.
  destruct (wrapper_calls c args kwargs w) as [evs [Hevs _]].
  assert (Hrest : config w' = config w /\ types w' = types w /\
                  set_initialized (already_initialized (nodes w)) (nodes w') = nodes w /\
                  (already_initialized (nodes w) = true ->
                   already_initialized (nodes w') = true)).
  { subst w'. clear Hevs. rewrite wrapper_eq.
    assert (Heta : forall n, set_initialized (already_initialized n) n = n)
      by (intros []; reflexivity).
    assert (Heta' : forall n,
              set_initialized (already_initialized n) (set_initialized true n) = n)
      by (intros []; reflexivity).
    destruct (prepare_kwargs w c kwargs) as [[kwargs1 input_desc]|e];
      [|cbn; rewrite Heta; auto].
    destruct (if input_is_list c then unwrap_lists c kwargs1 else Ok kwargs1)
      as [kwargs2|e]; [|cbn; rewrite Heta; auto].
    destruct (_maybe_reload_module (config w) (func c)) as [[reloaded latest_func]|e];
      [|cbn; rewrite Heta'; auto].
    destruct (_call_function_and_verify_result (config w) latest_func
                (if is_cls_mth c then tail args else args) kwargs2 (debug (opts c))
                input_desc (adjusted_return_types c) (wrapped_name c)
                (return_names (opts c)) (trace w)) as [tr [result|e]];
      cbn; rewrite Heta'; auto. }
  destruct Hrest as (Hconfig & Htypes & Hnodes & Hflag).
  split; [exact Hconfig|]. split; [exact Htypes|]. split; [exact Hnodes|].
  split; [exists evs; exact Hevs | exact Hflag].
Qed.
End MoreWrapperFacts.

(** [threshold] invoked in the quiet module: the registries are as before,
    the flag apart. *)
Lemma wrapper_changes_flag_and_trace_only_witness :
  set_initialized false
    (nodes (fst (@wrapper cpu_runtime threshold_closure [] [("mask", VTensor mask_3d)]
                   quiet_world)))
  = nodes quiet_world.
Proof.
  pose proof (@wrapper_changes_flag_and_trace_only cpu_runtime threshold_closure []
                [("mask", VTensor mask_3d)] quiet_world eq_refl) as Hframe.
  cbv zeta in Hframe. exact (proj1 (proj2 (proj2 Hframe))).
Defined.

Section KeywordFacts.
Context `{Runtime}.

Lemma prepare_kwargs_keys w c items : forall items' descs,
  prepare_kwargs w c items = Ok (items', descs) ->
  dict_keys items' = dict_keys items /\ length descs = length items.
Proof.
  induction items as [|[key arg] items IH]; intros items' descs Hrun.
  - inversion Hrun. split; reflexivity.
  - cbn [prepare_kwargs] in Hrun.
    destruct (prepare_arg w c key arg) as [[arg' desc]|e]; cbn [mbind res_bind] in Hrun;
      [|discriminate].
    destruct (prepare_kwargs w c items) as [[rest descs']|e]; cbn [mbind res_bind] in Hrun;
      [|discriminate].
    inversion Hrun; subst items' descs. destruct (IH rest descs' eq_refl) as [Hkeys Hlen].
    unfold dict_keys in *. cbn [map fst length]. rewrite Hkeys, Hlen. split; reflexivity.
Qed.

Lemma unwrap_lists_keys c items : forall items',
  unwrap_lists c items = Ok items' -> dict_keys items' = dict_keys items.
Proof.
  induction items as [|[arg_name v] items IH]; intros items' Hrun.
  - inversion Hrun. reflexivity.
  - cbn [unwrap_lists] in Hrun.
    destruct (if debug (opts c) then _ ← py_len v; Ok tt else Ok tt) as [[]|e];
      cbn [mbind res_bind] in Hrun; [|discriminate].
    destruct (match input_is_list_map (inputs c) !! arg_name with
              | None => Raise (KeyError arg_name)
              | Some true => Ok v
              | Some false => n ← py_len v; _ ← py_assert (Nat.eqb n 1) ""; py_getitem0 v
              end) as [v'|e]; cbn [mbind res_bind] in Hrun; [|discriminate].
    destruct (unwrap_lists c items) as [rest|e]; cbn [mbind res_bind] in Hrun; [|discriminate].
    inversion Hrun; subst items'. unfold dict_keys. cbn [map fst]. f_equal.
    exact (IH rest eq_refl).
Qed.

(** X14.  Every call the wrapper makes of the function passes exactly the
    keyword arguments the host gave, under the same names and in the same
    order (their values converted), and the positional arguments as given,
    less the first one for a class method; with reloading off, the
    function called is the decorated one. *)
Theorem wrapper_passes_every_keyword :
  forall (c : Closure) (args : list PyVal) (kwargs : PyDict PyVal) (w : World),
  exists evs,
    trace (fst (wrapper c args kwargs w)) = (trace w ++ evs)%list /\
    forall f a kw, Called f a kw ∈ evs ->
      a = (if is_cls_mth c then tail args else args) /\
      dict_keys kw = dict_keys kwargs /\
      (reload_modules (config w) = false -> f = func c).
Proof.
  intros c args kwargs w. rewrite wrapper_eq.
  assert (Hnone : forall w' : World, trace w' = trace w ->
            exists evs,
              trace w' = (trace w ++ evs)%list /\
              forall f a kw, Called f a kw ∈ evs ->
                a = (if is_cls_mth c then tail args else args) /\
                dict_keys kw = dict_keys kwargs /\
                (reload_modules (config w) = false -> f = func c)).
  { intros w' Hw'. exists []. split; [rewrite app_nil_r; exact Hw'|].
    intros f a kw Hin. apply elem_of_nil in Hin. contradiction. }
  destruct (prepare_kwargs w c kwargs) as [[kwargs1 input_desc]|e] eqn:Hprep;
    [|apply Hnone; reflexivity].
  destruct (if input_is_list c then unwrap_lists c kwargs1 else Ok kwargs1)
    as [kwargs2|e] eqn:Hunwrap; [|apply Hnone; reflexivity].
  destruct (_maybe_reload_module (config w) (func c)) as [[reloaded latest_func]|e] eqn:Hload;
    [|apply Hnone; reflexivity].
  unfold _call_function_and_verify_result.
  destruct (retry_trace (config w) latest_func (if is_cls_mth c then tail args else args)
              kwargs2 (debug (opts c)) input_desc (adjusted_return_types c) (wrapped_name c)
              (return_names (opts c)) (Z.to_nat (max_tries (config w))) 0 (trace w))
    as [evs [Hevs Hcalls]].
  destruct (retry (config w) (Z.to_nat (max_tries (config w))) 0 latest_func
              (if is_cls_mth c then tail args else args) kwargs2 (debug (opts c)) input_desc
              (adjusted_return_types c) (wrapped_name c) (return_names (opts c)) (trace w))
    as [tr r].
  cbn [fst] in Hevs. subst tr. exists evs. split.
  - destruct r; reflexivity.
  - intros f a kw Hin. destruct (Hcalls f a kw Hin) as (-> & -> & ->).
    split; [reflexivity|]. split.
    + destruct (prepare_kwargs_keys w c kwargs kwargs1 input_desc Hprep) as [<- _].
      destruct (input_is_list c).
      * exact (unwrap_lists_keys c kwargs1 kwargs2 Hunwrap).
      * inversion Hunwrap. reflexivity.
    + intros Hoff. unfold _maybe_reload_module in Hload. rewrite Hoff, orb_true_r in Hload.
      inversion Hload. reflexivity.
Qed.

(** X15.  The flag [already_initialized] is set exactly when the
    arguments were prepared: an invocation whose arguments fail the first
    loop, or the loop that unwraps the lists, raises that exception and
    leaves the module as it was, flag included; once both loops are
    through, the flag is set, whatever reloading and the function do. *)
Theorem flag_set_once_arguments_are_prepared :
  forall (c : Closure) (args : list PyVal) (kwargs : PyDict PyVal) (w : World),
    (forall e, prepare_kwargs w c kwargs = Raise e ->
       wrapper c args kwargs w = (w, Raise e)) /\
    (forall kwargs1 input_desc e,
       prepare_kwargs w c kwargs = Ok (kwargs1, input_desc) ->
       input_is_list c = true ->
       unwrap_lists c kwargs1 = Raise e ->
       wrapper c args kwargs w = (w, Raise e)) /\
    (forall kwargs1 input_desc,
       prepare_kwargs w c kwargs = Ok (kwargs1, input_desc) ->
       (input_is_list c = true -> is_ok (unwrap_lists c kwargs1) = true) ->
       already_initialized (nodes (fst (wrapper c args kwargs w))) = true).
Proof.
  intros c args kwargs w. rewrite wrapper_eq. split; [|split].
  - intros e ->. reflexivity.
  - intros kwargs1 input_desc e -> -> ->. reflexivity.
  - intros kwargs1 input_desc -> Hunwrap.
    destruct (if input_is_list c then unwrap_lists c kwargs1 else Ok kwargs1)
      as [kwargs2|e] eqn:Hlists.
    + destruct (_maybe_reload_module (config w) (func c)) as [[reloaded latest_func]|e];
        [|reflexivity].
      destruct (_call_function_and_verify_result (config w) latest_func
                  (if is_cls_mth c then tail args else args) kwargs2 (debug (opts c))
                  input_desc (adjusted_return_types c) (wrapped_name c)
                  (return_names (opts c)) (trace w)) as [tr [result|e]]; reflexivity.
    + destruct (input_is_list c); [|discriminate].
      rewrite Hlists in Hunwrap. specialize (Hunwrap eq_refl). discriminate.
Qed.
End KeywordFacts.

(** ** Registration of nodes, continued *)

Lemma starts_with_hash color :
  match color with String "#" _ => true | _ => false end = true <->
  exists digits, color = String "#" digits.
Proof.
  split.
  - destruct color as [|c digits]; [discriminate|].
    destruct c as [[] [] [] [] [] [] [] []]; try discriminate.
    intros _. exists digits. reflexivity.
  - intros [digits ->]. reflexivity.
Qed.

Lemma existsb_ascii c l : existsb (Ascii.eqb c) l = true <-> c ∈ l.
Proof.
  rewrite existsb_exists, list_elem_of_In. split.
  - intros [x [Hin Heq]]. apply Ascii.eqb_eq in Heq. subst x. exact Hin.
  - intros Hin. exists c. split; [exact Hin | apply Ascii.eqb_refl].
Qed.

Lemma length_chars s : length (chars s) = String.length s.
Proof. induction s as [|c s IH]; cbn; [reflexivity|]. f_equal. exact IH. Qed.

Lemma valid_hex_color_spec color : valid_hex_color color = Ok tt <-> hex_color_code color.
Proof.
  unfold valid_hex_color, hex_color_code. split.
  - destruct (match color with String "#" _ => true | _ => false end) eqn:Hhash;
      cbn [py_assert mbind res_bind]; [|discriminate].
    apply starts_with_hash in Hhash as [digits ->].
    destruct (Nat.eqb (String.length (String "#" digits)) 7) eqn:Hlen;
      cbn [py_assert mbind res_bind]; [|discriminate].
    destruct (forallb _ _) eqn:Hall; cbn [py_assert]; [|discriminate].
    intros _. exists digits. split; [reflexivity|].
    apply Nat.eqb_eq in Hlen. cbn [String.length] in Hlen. split; [lia|].
    cbn [chars tail] in Hall. rewrite forallb_forall in Hall.
    apply Forall_forall. intros c Hc. apply existsb_ascii. apply Hall.
    apply list_elem_of_In. exact Hc.
  - intros [digits (-> & Hlen & Hall)].
    cbn [String.length]. rewrite Hlen. cbn [Nat.eqb py_assert mbind res_bind chars tail].
    replace (forallb _ (chars digits)) with true; [reflexivity|].
    symmetry. apply forallb_forall. intros c Hc. apply existsb_ascii.
    rewrite Forall_forall in Hall. apply Hall. apply list_elem_of_In. exact Hc.
Qed.

Lemma valid_hex_color_raises color :
  valid_hex_color color = Ok tt \/
  valid_hex_color color = Raise (AssertionError "Color must be a hex color code").
Proof.
  unfold valid_hex_color.
  destruct (match color with String "#" _ => true | _ => false end);
    cbn [py_assert mbind res_bind]; [|right; reflexivity].
  destruct (Nat.eqb (String.length color) 7); cbn [py_assert mbind res_bind];
    [|right; reflexivity].
  destruct (forallb _ _); cbn [py_assert]; [left|right]; reflexivity.
Qed.

Section ColourFacts.
Context `{Runtime}.

(** X16.  A colour is accepted exactly when it is [#] followed by six
    characters among [0-9] and upper-case [A-F].  Any other colour,
    lower-case digits included, makes [_create_comfy_node] raise the
    assertion error "Color must be a hex color code" before anything is
    looked up or written: the registry stays as it was, whether or not
    the module is initialised. *)
Theorem colour_is_checked_first :
  forall (color : string),
    (valid_hex_color color = Ok tt <-> hex_color_code color) /\
    (~ hex_color_code color ->
     forall (cname category : string) (node_class : option nat) (process_function : AttrVal)
            (display_name workflow_name : string)
            (required_inputs : gmap string InputSpec) (hidden_inputs : gmap string HiddenSpec)
            (optional_inputs : gmap string InputSpec) (input_is_list : bool)
            (return_types : list PyVal) (return_names : option (list string))
            (output_is_list : list bool) (description : string) (is_output_node : bool)
            (validate_inputs is_changed source_location : option string)
            (n : NodeRegistry),
       _create_comfy_node cname category node_class process_function display_name
         workflow_name required_inputs hidden_inputs optional_inputs input_is_list
         return_types return_names output_is_list description is_output_node
         validate_inputs is_changed (Some color) source_location n
       = (n, Raise (AssertionError "Color must be a hex color code"))).
Proof.
  intros color. split; [apply valid_hex_color_spec|].
  intros Hbad cname cat node_class process_function shown workflow required hidden optional
         in_list tags names out_list text is_output validate changed source_location n.
  unfold _create_comfy_node. rewrite M_bind_eq. unfold lift.
  destruct (valid_hex_color_raises color) as [Hok|Hraise].
  - apply valid_hex_color_spec in Hok. contradiction.
  - rewrite Hraise. reflexivity.
Qed.
End ColourFacts.

(** Lower-case digits are no colour. *)
Example lower_case_colour_rejected :
  ~ hex_color_code "#ff0000" /\
  hex_color_code "#FF0000" /\
  @_create_comfy_node cpu_runtime "f_comfyfunc_wrapper" "Test" None
    (AStaticMethod (UserCode "f")) "F" "F" ∅ ∅ ∅ false [] None [] "" true None None
    (Some "#ff0000") None initial_nodes
  = (initial_nodes, Raise (AssertionError "Color must be a hex color code")).
Proof.
  split; [|split].
  - intros Hcode. apply valid_hex_color_spec in Hcode. discriminate.
  - apply valid_hex_color_spec. reflexivity.
  - reflexivity.
Qed.

Lemma in_values_false `{EqDecision A} (x : A) (m : gmap string A) :
  in_values x m = false -> forall k, m !! k <> Some x.
Proof.
  unfold in_values. intros Hnot k Hk. apply bool_decide_eq_false in Hnot. apply Hnot.
  apply list_elem_of_fmap. exists (k, x). split; [reflexivity|].
  apply elem_of_map_to_list. exact Hk.
Qed.

Lemma check_duplicates_passed n cname workflow_name display_name node_class :
  check_duplicates n cname workflow_name display_name node_class = Ok tt ->
  NODE_CLASS_MAPPINGS n !! workflow_name = None /\
  (forall k, NODE_DISPLAY_NAME_MAPPINGS n !! k <> Some display_name) /\
  (forall c, node_class = Some c -> forall k, NODE_CLASS_MAPPINGS n !! k <> Some c).
Proof.
  unfold check_duplicates.
  destruct (bool_decide (NODE_CLASS_MAPPINGS n !! workflow_name = None)) eqn:Hwf;
    cbn [py_assert mbind res_bind]; [|discriminate].
  destruct (in_values display_name (NODE_DISPLAY_NAME_MAPPINGS n)) eqn:Hname;
    cbn [negb py_assert mbind res_bind]; [discriminate|].
  intros Hclass. split; [apply bool_decide_eq_true in Hwf; exact Hwf|].
  split; [apply in_values_false; exact Hname|].
  intros c ->. apply in_values_false.
  destruct (in_values c (NODE_CLASS_MAPPINGS n)); [discriminate|reflexivity].
Qed.

Section RegistryFacts.
Context `{Runtime}.

Lemma create_comfy_node_checked cname cat node_class process_function shown workflow
    required hidden optional in_list tags names out_list text is_output validate changed
    color source_location n n' :
  _create_comfy_node cname cat node_class process_function shown workflow required hidden
    optional in_list tags names out_list text is_output validate changed color
    source_location n = (n', Ok tt) ->
  already_initialized n = false ->
  check_duplicates n cname workflow shown node_class = Ok tt.
Proof.
  unfold _create_comfy_node. rewrite M_bind_eq. unfold lift.
  destruct (match color with
            | Some color => _ ← valid_hex_color color; Ok (text ++ color_lines color)
            | None => Ok text
            end) as [d|e]; [|discriminate].
  intros Hrun Hflag. rewrite Hflag in Hrun.
  destruct (check_duplicates n cname workflow shown node_class) as [[]|e];
    [reflexivity|discriminate].
Qed.

Lemma create_comfy_node_raised cname cat node_class process_function shown workflow
    required hidden optional in_list tags names out_list text is_output validate changed
    color source_location n n' e :
  _create_comfy_node cname cat node_class process_function shown workflow required hidden
    optional in_list tags names out_list text is_output validate changed color
    source_location n = (n', Raise e) ->
  n' = n.
Proof.
  unfold _create_comfy_node. rewrite M_bind_eq. unfold lift.
  destruct (match color with
            | Some color => _ ← valid_hex_color color; Ok (text ++ color_lines color)
            | None => Ok text
            end) as [d|e0]; [|intros Hrun; inversion Hrun; reflexivity].
  destruct (if already_initialized n then Ok tt
            else check_duplicates n cname workflow shown node_class) as [[]|e0];
    intros Hrun; inversion Hrun; reflexivity.
Qed.

Lemma install_node_consistent class_dict node_class workflow shown n :
  registry_consistent n ->
  (forall c, node_class = Some c -> is_Some (heap n !! c)) ->
  NODE_CLASS_MAPPINGS n !! workflow = None ->
  (forall k, NODE_DISPLAY_NAME_MAPPINGS n !! k <> Some shown) ->
  (forall c, node_class = Some c -> forall k, NODE_CLASS_MAPPINGS n !! k <> Some c) ->
  registry_consistent (install_node class_dict node_class workflow shown n).
Proof.
  intros [Hsame Hnames Hclasses Hheap Hnext] Hclosed Hfresh Hshown Hclass.
  assert (Hdistinct : forall {A} (m : gmap string A) (x : A),
            distinct_values m -> (forall k, m !! k <> Some x) ->
            distinct_values (<[workflow := x]> m)).
  { intros A m x Hm Hx k1 k2 v H1 H2.
    destruct (decide (k1 = workflow)) as [->|Hk1], (decide (k2 = workflow)) as [->|Hk2].
    - reflexivity.
    - rewrite lookup_insert_eq in H1. rewrite lookup_insert_ne in H2 by congruence.
      inversion H1; subst v. destruct (Hx k2 H2).
    - rewrite lookup_insert_eq in H2. rewrite lookup_insert_ne in H1 by congruence.
      inversion H2; subst v. destruct (Hx k1 H1).
    - rewrite lookup_insert_ne in H1, H2 by congruence. exact (Hm k1 k2 v H1 H2). }
  assert (Hids : forall (cls : nat) k,
            is_Some (<[workflow := cls]> (NODE_CLASS_MAPPINGS n) !! k) <->
            is_Some (<[workflow := shown]> (NODE_DISPLAY_NAME_MAPPINGS n) !! k)).
  { intros cls k. destruct (decide (k = workflow)) as [->|Hk].
    - rewrite !lookup_insert_eq. split; eauto.
    - rewrite !lookup_insert_ne by congruence. apply Hsame. }
  unfold install_node. destruct node_class as [c|].
  - constructor; cbn [NODE_CLASS_MAPPINGS NODE_DISPLAY_NAME_MAPPINGS heap next_address].
    + apply Hids.
    + apply Hdistinct; assumption.
    + apply Hdistinct; [assumption|]. exact (Hclass c eq_refl).
    + intros k c' Hk. destruct (decide (k = workflow)) as [->|Hne].
      * rewrite lookup_insert_eq in Hk. inversion Hk; subst c'.
        rewrite lookup_alter_eq. destruct (Hclosed c eq_refl) as [obj ->]. eauto.
      * rewrite lookup_insert_ne in Hk by congruence.
        destruct (decide (c' = c)) as [->|Hc].
        -- rewrite lookup_alter_eq. destruct (Hclosed c eq_refl) as [obj ->]. eauto.
        -- rewrite lookup_alter_ne by congruence. exact (Hheap k c' Hk).
    + intros a Ha. apply Hnext. destruct (decide (a = c)) as [->|Hc].
      * exact (Hclosed c eq_refl).
      * rewrite lookup_alter_ne in Ha by congruence. exact Ha.
  - constructor; cbn [NODE_CLASS_MAPPINGS NODE_DISPLAY_NAME_MAPPINGS heap next_address].
    + apply Hids.
    + apply Hdistinct; assumption.
    + apply Hdistinct; [assumption|]. intros k Hk.
      pose proof (Hnext _ (Hheap k _ Hk)). lia.
    + intros k c' Hk. destruct (decide (k = workflow)) as [->|Hne].
      * rewrite lookup_insert_eq in Hk. inversion Hk; subst c'.
        rewrite lookup_insert_eq. eauto.
      * rewrite lookup_insert_ne in Hk by congruence.
        pose proof (Hnext _ (Hheap k c' Hk)).
        rewrite lookup_insert_ne by lia. exact (Hheap k c' Hk).
    + intros a Ha. destruct (decide (a = next_address n)) as [->|Ha']; [lia|].
      rewrite lookup_insert_ne in Ha by congruence. pose proof (Hnext a Ha). lia.
Qed.

(** X17.  As long as no wrapper was invoked, registrations keep the
    registries one to one: after a registration that went through, both
    registries still have the same identifiers, no two identifiers share a
    display name or a class, and every registered class is a class of the
    heap.  (The class of a method is taken to be a class of the heap.) *)
Theorem registrations_keep_the_registry_consistent :
  forall (cname category : string) (node_class : option nat) (process_function : AttrVal)
         (display_name workflow_name : string)
         (required_inputs : gmap string InputSpec) (hidden_inputs : gmap string HiddenSpec)
         (optional_inputs : gmap string InputSpec) (input_is_list : bool)
         (return_types : list PyVal) (return_names : option (list string))
         (output_is_list : list bool) (description : string) (is_output_node : bool)
         (validate_inputs is_changed color source_location : option string)
         (n n' : NodeRegistry),
    already_initialized n = false ->
    registry_consistent n ->
    (forall c, node_class = Some c -> is_Some (heap n !! c)) ->
    _create_comfy_node cname category node_class process_function display_name
      workflow_name required_inputs hidden_inputs optional_inputs input_is_list
      return_types return_names output_is_list description is_output_node
      validate_inputs is_changed color source_location n = (n', Ok tt) ->
    already_initialized n' = false /\ registry_consistent n'.
Proof.
  intros cname cat node_class process_function shown workflow required hidden optional
         in_list tags names out_list text is_output validate changed color source_location
         n n' Hflag Hcons Hclosed Hrun.
  pose proof (create_comfy_node_checked _ _ _ _ _ _ _ _ _ _ _ _ _ _ _ _ _ _ _ _ _ Hrun Hflag)
    as Hchecked.
  apply check_duplicates_passed in Hchecked as (Hfresh & Hshown & Hclass).
  apply create_comfy_node_ok in Hrun as [text' ->].
  split.
  - unfold install_node. destruct node_class; exact Hflag.
  - apply install_node_consistent; assumption.
Qed.
End RegistryFacts.

Lemma initial_nodes_consistent : registry_consistent initial_nodes.
Proof.
  constructor; cbn.
  - intros k. rewrite !lookup_empty. split; intros [x Hx]; discriminate.
  - intros k1 k2 v Hk. rewrite lookup_empty in Hk. discriminate.
  - intros k1 k2 v Hk. rewrite lookup_empty in Hk. discriminate.
  - intros k c Hk. rewrite lookup_empty in Hk. discriminate.
  - intros a [obj Ha]. rewrite lookup_empty in Ha. discriminate.
Qed.

(** The first registration of a module keeps the registries consistent. *)
Lemma registrations_keep_the_registry_consistent_witness :
  registry_consistent
    (fst (@_create_comfy_node cpu_runtime "f_comfyfunc_wrapper" "Test" None
            (AStaticMethod (UserCode "f")) "F" "F" ∅ ∅ ∅ false [] None [] "" true None None
            None None initial_nodes)).
Proof.
  refine (proj2 (@registrations_keep_the_registry_consistent cpu_runtime
                   "f_comfyfunc_wrapper" "Test" None (AStaticMethod (UserCode "f")) "F" "F"
                   ∅ ∅ ∅ false [] None [] "" true None None None None initial_nodes _
                   eq_refl initial_nodes_consistent _ eq_refl)).
  intros c Hc. discriminate.
Defined.

(** ** The decorator, continued *)

Section MoreDecoratorFacts.
Context `{Runtime}.

(** A decoration that raises leaves the module as it was. *)
Lemma decorator_raised o func w w' e :
  decorator o func w = (w', Raise e) -> w' = w.
Proof.
  unfold decorator.
  destruct (_infer_input_types_from_annotations (types w) func _ _) as [inputs|e0];
    cbn [mbind res_bind]; [|intros Hdec; inversion Hdec; reflexivity].
  fold (declared_returns (types w) o func).
  destruct (declared_returns (types w) o func) as [[tags out_list]|e0];
    cbn [mbind res_bind fst]; [|intros Hdec; inversion Hdec; reflexivity].
  destruct (match truthy_names (return_names o) with
            | Some names => _
            | None => Ok tt
            end) as [[]|e0]; cbn [mbind res_bind];
    [|intros Hdec; inversion Hdec; reflexivity].
  unfold on_nodes.
  match goal with
  | |- context [_create_comfy_node ?a1 ?a2 ?a3 ?a4 ?a5 ?a6 ?a7 ?a8 ?a9 ?a10 ?a11 ?a12 ?a13
                  ?a14 ?a15 ?a16 ?a17 ?a18 ?a19 (nodes w)] =>
      destruct (_create_comfy_node a1 a2 a3 a4 a5 a6 a7 a8 a9 a10 a11 a12 a13 a14 a15 a16
                  a17 a18 a19 (nodes w)) as [n' [[]|e0]] eqn:Hcreate
  end; [discriminate|].
  apply create_comfy_node_raised in Hcreate. subst n'.
  intros Hdec. inversion Hdec. destruct w; reflexivity.
Qed.

(** A decoration that went through returned the function and installed
    one class dictionary under the workflow identifier. *)
Lemma decorator_returned o func w w' f :
  decorator o func w = (w', Ok f) ->
  f = func /\
  exists inputs tags out_list process_function text,
    _infer_input_types_from_annotations (types w) func (is_member (nodes w) func) (debug o)
    = Ok inputs /\
    declared_returns (types w) o func = Ok (tags, out_list) /\
    w' = {| config := config w; types := types w;
            nodes :=
              install_node
                (make_class_dict (f_qualname func ++ "_comfyfunc_wrapper") (category o)
                   process_function (required_inputs inputs) (hidden_inputs inputs)
                   (optional_inputs inputs) (in_values true (input_is_list_map inputs))
                   tags (return_names o) out_list text
                   (is_output_node o || Nat.eqb (length tags) 0)
                   (validate_inputs o) (is_changed o))
                (_get_node_class (nodes w) func) (workflow_id o func) (shown_name o func)
                (nodes w);
            trace := trace w |}.
Proof.
  intros Hdec. unfold decorator in Hdec. fold (is_member (nodes w) func) in Hdec.
  destruct (_infer_input_types_from_annotations (types w) func _ _) as [inputs|e] eqn:Hin;
    cbn [mbind res_bind] in Hdec; [|discriminate].
  fold (declared_returns (types w) o func) in Hdec.
  destruct (declared_returns (types w) o func) as [[tags out_list]|e];
    cbn [mbind res_bind fst] in Hdec; [|discriminate].
  destruct (match truthy_names (return_names o) with
            | Some names => _
            | None => Ok tt
            end) as [[]|e]; cbn [mbind res_bind] in Hdec; [|discriminate].
  unfold on_nodes in Hdec.
  match type of Hdec with
  | context [_create_comfy_node ?a1 ?a2 ?a3 ?a4 ?a5 ?a6 ?a7 ?a8 ?a9 ?a10 ?a11 ?a12 ?a13
               ?a14 ?a15 ?a16 ?a17 ?a18 ?a19 (nodes w)] =>
      destruct (_create_comfy_node a1 a2 a3 a4 a5 a6 a7 a8 a9 a10 a11 a12 a13 a14 a15 a16
                  a17 a18 a19 (nodes w)) as [n' [[]|e]] eqn:Hcreate
  end; [|discriminate].
  inversion Hdec; subst w' f. clear Hdec. split; [reflexivity|].
  apply create_comfy_node_ok in Hcreate as [text' ->].
  do 5 eexists. split; [reflexivity|]. split; [reflexivity|]. reflexivity.
Qed.

(** X18.  A decoration is all or nothing.  It never touches the
    configuration, the registered types, the trace or the flag
    [already_initialized].  If it raises, the module is as it was: nothing
    is registered.  If it returns, it returns the function it was given,
    and of the registries it has written the entries of the workflow
    identifier of the function and no other. *)
Theorem decoration_is_all_or_nothing :
  forall (o : Options) (func : PyFunc) (w : World),
    let w' := fst (decorator o func w) in
    let r := snd (decorator o func w) in
    config w' = config w /\ types w' = types w /\ trace w' = trace w /\
    already_initialized (nodes w') = already_initialized (nodes w) /\
    (forall e, r = Raise e -> w' = w) /\
    (forall f, r = Ok f ->
       f = func /\
       is_Some (NODE_CLASS_MAPPINGS (nodes w') !! workflow_id o func) /\
       NODE_DISPLAY_NAME_MAPPINGS (nodes w') !! workflow_id o func = Some (shown_name o func) /\
       forall k, k <> workflow_id o func ->
         NODE_CLASS_MAPPINGS (nodes w') !! k = NODE_CLASS_MAPPINGS (nodes w) !! k /\
         NODE_DISPLAY_NAME_MAPPINGS (nodes w') !! k = NODE_DISPLAY_NAME_MAPPINGS (nodes w) !! k).
Proof.
  intros o func w w' r. subst w' r.
  destruct (decorator o func w) as [w' [f|e]] eqn:Hdec; cbn [fst snd].
  - destruct (decorator_returned o func w w' f Hdec)
      as [-> (inputs & tags & out_list & process_function & text & _ & _ & ->)].
    cbn [config types trace nodes].
    assert (Hinstall : forall class_dict node_class,
              let n' := install_node class_dict node_class (workflow_id o func)
                          (shown_name o func) (nodes w) in
              already_initialized n' = already_initialized (nodes w) /\
              is_Some (NODE_CLASS_MAPPINGS n' !! workflow_id o func) /\
              NODE_DISPLAY_NAME_MAPPINGS n' !! workflow_id o func = Some (shown_name o func) /\
              forall k, k <> workflow_id o func ->
                NODE_CLASS_MAPPINGS n' !! k = NODE_CLASS_MAPPINGS (nodes w) !! k /\
                NODE_DISPLAY_NAME_MAPPINGS n' !! k = NODE_DISPLAY_NAME_MAPPINGS (nodes w) !! k).
    { intros class_dict node_class. unfold install_node.
      destruct node_class as [c|];
        cbn [already_initialized NODE_CLASS_MAPPINGS NODE_DISPLAY_NAME_MAPPINGS];
        rewrite !lookup_insert_eq;
        (split; [reflexivity|]); (split; [eauto|]); (split; [reflexivity|]);
        intros k Hk; rewrite !lookup_insert_ne by congruence; split; reflexivity. }
    match goal with
    | |- context [install_node ?d ?c _ _ _] =>
        destruct (Hinstall d c) as (Hflag & Hcls & Hname & Hothers)
    end.
    split; [reflexivity|]. split; [reflexivity|]. split; [reflexivity|].
    split; [exact Hflag|]. split; [intros e He; discriminate|].
    intros f Hf. inversion Hf; subst f.
    split; [reflexivity|]. split; [exact Hcls|]. split; [exact Hname | exact Hothers].
  - apply decorator_raised in Hdec. subst w'.
    split; [reflexivity|]. split; [reflexivity|]. split; [reflexivity|].
    split; [reflexivity|]. split; [reflexivity|]. intros f Hf. discriminate.
Qed.

(** X19.  On the class of a method, a decoration only sets attributes:
    an attribute whose value would be [None], as [RETURN_NAMES],
    [VALIDATE_INPUTS] and [IS_CHANGED] are when the option is not given,
    keeps the value it had on the class, and so does every attribute that
    is none of the keys of the class dictionary. *)
Theorem absent_options_keep_old_attributes :
  forall (o : Options) (func : PyFunc) (w w' : World) (f : PyFunc) (c : nat) (obj : ClassObj),
    decorator o func w = (w', Ok f) ->
    _get_node_class (nodes w) func = Some c ->
    heap (nodes w) !! c = Some obj ->
    exists obj',
      heap (nodes w') !! c = Some obj' /\
      (return_names o = None ->
       dict_get (cls_dict obj') "RETURN_NAMES" = dict_get (cls_dict obj) "RETURN_NAMES") /\
      (validate_inputs o = None ->
       dict_get (cls_dict obj') "VALIDATE_INPUTS" = dict_get (cls_dict obj) "VALIDATE_INPUTS") /\
      (is_changed o = None ->
       dict_get (cls_dict obj') "IS_CHANGED" = dict_get (cls_dict obj) "IS_CHANGED") /\
      (forall k, k ∉ fixed_keys -> k <> f_qualname func ++ "_comfyfunc_wrapper" ->
         dict_get (cls_dict obj') k = dict_get (cls_dict obj) k).
Proof.
  intros o func w w' f c obj Hdec Hclass Hobj.
  destruct (decorator_returned o func w w' f Hdec)
    as [-> (inputs & tags & out_list & process_function & text & _ & _ & ->)].
  rewrite Hclass. unfold install_node. cbn [nodes heap].
  rewrite lookup_alter_eq, Hobj. cbn [fmap option_fmap option_map].
  eexists. split; [reflexivity|]. unfold setattrs. cbn [cls_dict].
  assert (Hget : forall k,
            dict_get
              (make_class_dict (f_qualname func ++ "_comfyfunc_wrapper") (category o)
                 process_function (required_inputs inputs) (hidden_inputs inputs)
                 (optional_inputs inputs) (in_values true (input_is_list_map inputs))
                 tags (return_names o) out_list text
                 (is_output_node o || Nat.eqb (length tags) 0)
                 (validate_inputs o) (is_changed o)) k = None ->
            dict_get
              (fold_left (fun d '(k, v) => dict_set d k v)
                 (make_class_dict (f_qualname func ++ "_comfyfunc_wrapper") (category o)
                    process_function (required_inputs inputs) (hidden_inputs inputs)
                    (optional_inputs inputs) (in_values true (input_is_list_map inputs))
                    tags (return_names o) out_list text
                    (is_output_node o || Nat.eqb (length tags) 0)
                    (validate_inputs o) (is_changed o)) (cls_dict obj)) k
            = dict_get (cls_dict obj) k).
  { intros k Hk. rewrite dict_get_update by apply make_class_dict_NoDup.
    rewrite Hk. reflexivity. }
  split; [|split; [|split]].
  - intros Hnone. apply Hget.
    rewrite make_class_dict_get by apply wrapped_name_fresh. rewrite Hnone. reflexivity.
  - intros Hnone. apply Hget.
    rewrite make_class_dict_get by apply wrapped_name_fresh. rewrite Hnone. reflexivity.
  - intros Hnone. apply Hget.
    rewrite make_class_dict_get by apply wrapped_name_fresh. rewrite Hnone. reflexivity.
  - intros k Hfixed Hk. apply Hget.
    rewrite make_class_dict_get by apply wrapped_name_fresh.
    rewrite dict_get_None; [reflexivity|].
    change (k ∉ (fixed_keys ++ [(f_qualname func ++ "_comfyfunc_wrapper")%string])%list).
    intros Hin. apply elem_of_app in Hin as [Hin|Hin]; [contradiction|].
    apply list_elem_of_singleton in Hin. contradiction.
Qed.
End MoreDecoratorFacts.

(** [Filters.sharpen] decorated again without output names: the names of
    the decoration before stay on the class. *)
Lemma absent_options_keep_old_attributes_witness :
  exists obj',
    heap (nodes (fst (@decorator cpu_runtime default_options sharpen reloaded_world))) !! 0
    = Some obj' /\
    dict_get (cls_dict obj') "RETURN_NAMES" = Some (ANames ["sharpened"]).
Proof.
  destruct (@absent_options_keep_old_attributes cpu_runtime default_options sharpen
              reloaded_world
              (fst (@decorator cpu_runtime default_options sharpen reloaded_world))
              sharpen 0 filters_class)
    as [obj' (Hobj & Hnames & _)].
  - rewrite (surjective_pairing (@decorator cpu_runtime default_options sharpen
                                   reloaded_world)) at 1.
    f_equal.
  - vm_compute. reflexivity.
  - vm_compute. reflexivity.
  - exists obj'. split; [exact Hobj|]. rewrite (Hnames eq_refl). reflexivity.
Defined.

Section OutputNamesFacts.
Context `{Runtime}.

(** X20.  Output names that do not match the return types in number make
    the decoration fail, and register nothing.  With explicit
    [return_types] the error is the assertion error that gives both
    counts; with return types inferred from the annotation, the message of
    the assertion takes the length of [return_types], which is [None], and
    what comes out is a type error. *)
Theorem wrong_number_of_output_names :
  forall (o : Options) (func : PyFunc) (w : World) (inputs : InputTypes)
         (tags : list PyVal) (flags : list bool) (names : list string),
    _infer_input_types_from_annotations (types w) func (is_member (nodes w) func) (debug o)
    = Ok inputs ->
    declared_returns (types w) o func = Ok (tags, flags) ->
    truthy_names (return_names o) = Some names ->
    length names <> length tags ->
    decorator o func w
    = (w, Raise match return_types o with
                | Some l =>
                    AssertionError
                      ("Number of output names must match number of return types. Got "
                       ++ str_nat (length names) ++ " names and "
                       ++ str_nat (length l) ++ " return types.")
                | None => TypeError "object of type 'NoneType' has no len()"
                end).
Proof.
  intros o func w inputs tags flags names Hin Hret Hnames Hlen.
  unfold decorator. fold (is_member (nodes w) func). rewrite Hin. cbn [mbind res_bind].
  fold (declared_returns (types w) o func). rewrite Hret. cbn [mbind res_bind fst].
  rewrite Hnames. apply Nat.eqb_neq in Hlen. rewrite Hlen.
  destruct (return_types o); reflexivity.
Qed.
End OutputNamesFacts.

(** [invert] returns one mask: two names for it are a type error. *)
Lemma wrong_number_of_output_names_witness :
  @decorator cpu_runtime two_names invert initial_world
  = (initial_world, Raise (TypeError "object of type 'NoneType' has no len()")).
Proof.
  apply (@wrong_number_of_output_names cpu_runtime two_names invert initial_world
           (inputs invert_closure) [VStr "MASK"] [false] ["mask"; "inverse"]).
  - vm_compute. reflexivity.
  - vm_compute. reflexivity.
  - reflexivity.
  - cbn. lia.
Defined.

(** ** The introspection of a signature, continued *)

(** One turn of the loop of the introspection, map by map. *)
Lemma infer_param_step r acc p acc' :
  infer_param r acc p = Ok acc' ->
  exists spec is_opt is_hid,
    _annotate_input r (p_annotation p) (p_default p) = Ok (spec, is_opt, is_hid) /\
    input_type_map acc' = <[p_name p := p_annotation p]> (input_type_map acc) /\
    input_is_list_map acc'
    = <[p_name p := origin_is_list (p_annotation p)]> (input_is_list_map acc) /\
    (if String.eqb (p_name p) "unique_id" then
       required_inputs acc' = required_inputs acc /\
       hidden_inputs acc' = <[p_name p := HiddenName "UNIQUE_ID"]> (hidden_inputs acc) /\
       optional_inputs acc' = optional_inputs acc
     else if String.eqb (p_name p) "extra_pnginfo" then
       required_inputs acc' = required_inputs acc /\
       hidden_inputs acc' = <[p_name p := HiddenName "EXTRA_PNGINFO"]> (hidden_inputs acc) /\
       optional_inputs acc' = optional_inputs acc
     else if negb is_opt then
       required_inputs acc' = <[p_name p := spec]> (required_inputs acc) /\
       hidden_inputs acc' = hidden_inputs acc /\
       optional_inputs acc' = optional_inputs acc
     else if is_hid then
       required_inputs acc' = required_inputs acc /\
       hidden_inputs acc' = <[p_name p := HiddenEntry spec]> (hidden_inputs acc) /\
       optional_inputs acc' = optional_inputs acc
     else
       required_inputs acc' = required_inputs acc /\
       hidden_inputs acc' = hidden_inputs acc /\
       optional_inputs acc' = <[p_name p := spec]> (optional_inputs acc)).
Proof.
  intros Hrun. unfold infer_param in Hrun.
  destruct (_annotate_input r (p_annotation p) (p_default p)) as [[[spec is_opt] is_hid]|e];
    cbn [mbind res_bind] in Hrun; [|discriminate].
  exists spec, is_opt, is_hid. split; [reflexivity|].
  cbn [required_inputs hidden_inputs optional_inputs input_is_list_map input_type_map]
    in Hrun.
  destruct (String.eqb (p_name p) "unique_id");
    [inversion Hrun; subst acc'; cbn; auto|].
  destruct (String.eqb (p_name p) "extra_pnginfo");
    [inversion Hrun; subst acc'; cbn; auto|].
  destruct is_opt; cbn [negb] in Hrun |- *.
  - destruct is_hid; inversion Hrun; subst acc'; cbn; auto.
  - inversion Hrun; subst acc'; cbn; auto.
Qed.

(** A turn of the loop touches the name of its parameter only. *)
Lemma infer_param_others r acc p acc' k :
  infer_param r acc p = Ok acc' -> k <> p_name p -> entry acc' k = entry acc k.
Proof.
  intros Hrun Hk.
  destruct (infer_param_step r acc p acc' Hrun)
    as (spec & is_opt & is_hid & _ & Htypes & Hlists & Hplace).
  unfold entry. rewrite Htypes, Hlists. rewrite !lookup_insert_ne by congruence.
  destruct (String.eqb (p_name p) "unique_id");
    [destruct Hplace as (-> & -> & ->); rewrite ?lookup_insert_ne by congruence; reflexivity|].
  destruct (String.eqb (p_name p) "extra_pnginfo");
    [destruct Hplace as (-> & -> & ->); rewrite ?lookup_insert_ne by congruence; reflexivity|].
  destruct (negb is_opt);
    [destruct Hplace as (-> & -> & ->); rewrite ?lookup_insert_ne by congruence; reflexivity|].
  destruct is_hid;
    destruct Hplace as (-> & -> & ->); rewrite ?lookup_insert_ne by congruence; reflexivity.
Qed.

(** The loop of the introspection, parameter by parameter: when no name
    comes twice, what the maps hold for a parameter in the end is what its
    own turn left, and that turn found for the name what was there before
    the loop. *)
Lemma infer_params_entries r params : forall acc acc',
  NoDup (map p_name params) ->
  infer_params r acc params = Ok acc' ->
  (forall k, k ∉ map p_name params -> entry acc' k = entry acc k) /\
  (forall p, p ∈ params ->
     exists acc0 acc1,
       infer_param r acc0 p = Ok acc1 /\
       entry acc0 (p_name p) = entry acc (p_name p) /\
       entry acc' (p_name p) = entry acc1 (p_name p)).
Proof.
  induction params as [|p params IH]; intros acc acc' Hnodup Hrun.
  - inversion Hrun; subst acc'. split; [reflexivity|].
    intros p Hp. apply elem_of_nil in Hp. contradiction.
  - cbn [infer_params] in Hrun. cbn [map] in Hnodup.
    apply NoDup_cons in Hnodup as [Hfresh Hnodup].
    destruct (infer_param r acc p) as [acc1|e] eqn:Hstep; cbn [mbind res_bind] in Hrun;
      [|discriminate].
    destruct (IH acc1 acc' Hnodup Hrun) as [Hout Hin]. split.
    + intros k Hk. cbn [map] in Hk. apply not_elem_of_cons in Hk as [Hne Hk].
      rewrite (Hout k Hk). exact (infer_param_others r acc p acc1 k Hstep Hne).
    + intros q Hq. apply elem_of_cons in Hq as [->|Hq].
      * exists acc, acc1. split; [exact Hstep|]. split; [reflexivity|].
        exact (Hout (p_name p) Hfresh).
      * destruct (Hin q Hq) as (acc0 & acc2 & Hturn & Hbefore & Hafter).
        exists acc0, acc2. split; [exact Hturn|]. split; [|exact Hafter].
        rewrite Hbefore. apply (infer_param_others r acc p acc1 _ Hstep).
        intros Heq. apply Hfresh. rewrite <- Heq. apply list_elem_of_fmap. eauto.
Qed.

Lemma inspected_NoDup func skip_first :
  NoDup (map p_name (f_parameters func)) -> NoDup (map p_name (inspected func skip_first)).
Proof.
  unfold inspected. intros Hnodup. destruct skip_first; [|exact Hnodup].
  destruct (f_parameters func) as [|p params]; [constructor|].
  cbn [map tail] in *. apply NoDup_cons in Hnodup as [_ Hnodup]. exact Hnodup.
Qed.

Lemma infer_input_types_loop r func skip_first debug inputs :
  _infer_input_types_from_annotations r func skip_first debug = Ok inputs ->
  infer_params r no_inputs (inspected func skip_first) = Ok inputs.
Proof.
  unfold _infer_input_types_from_annotations, inspected. intros Hrun.
  destruct (if skip_first && debug then _ else Ok tt) as [[]|e];
    cbn [mbind res_bind] in Hrun; [exact Hrun|discriminate].
Qed.

(** What the maps hold for an inspected parameter is what one turn of the
    loop makes of the empty maps. *)
Lemma inferred_entry r func skip_first debug inputs p :
  NoDup (map p_name (f_parameters func)) ->
  _infer_input_types_from_annotations r func skip_first debug = Ok inputs ->
  p ∈ inspected func skip_first ->
  exists acc0 acc1,
    infer_param r acc0 p = Ok acc1 /\
    entry acc0 (p_name p) = (None, None, None, None, None) /\
    entry inputs (p_name p) = entry acc1 (p_name p).
Proof.
  intros Hnodup Hrun Hp. apply infer_input_types_loop in Hrun.
  destruct (infer_params_entries r _ _ _ (inspected_NoDup func skip_first Hnodup) Hrun)
    as [_ Hin].
  destruct (Hin p Hp) as (acc0 & acc1 & Hturn & Hbefore & Hafter).
  exists acc0, acc1. split; [exact Hturn|]. split; [|exact Hafter].
  rewrite Hbefore. unfold entry, no_inputs. cbn. rewrite !lookup_empty. reflexivity.
Qed.

Lemma entry_eq acc k a b c d e :
  entry acc k = (a, b, c, d, e) ->
  required_inputs acc !! k = a /\ hidden_inputs acc !! k = b /\
  optional_inputs acc !! k = c /\ input_is_list_map acc !! k = d /\
  input_type_map acc !! k = e.
Proof. unfold entry. intros Heq. repeat split; congruence. Qed.

(** The three places of a parameter after its turn, when its name was in
    none of them before. *)
Lemma infer_param_place r acc p acc' :
  infer_param r acc p = Ok acc' ->
  entry acc (p_name p) = (None, None, None, None, None) ->
  exists spec is_opt is_hid,
    _annotate_input r (p_annotation p) (p_default p) = Ok (spec, is_opt, is_hid) /\
    entry acc' (p_name p)
    = (if String.eqb (p_name p) "unique_id" then (None, Some (HiddenName "UNIQUE_ID"), None)
       else if String.eqb (p_name p) "extra_pnginfo"
            then (None, Some (HiddenName "EXTRA_PNGINFO"), None)
       else if negb is_opt then (Some spec, None, None)
       else if is_hid then (None, Some (HiddenEntry spec), None)
       else (None, None, Some spec),
       Some (origin_is_list (p_annotation p)), Some (p_annotation p)).
Proof.
  intros Hrun Hbefore.
  destruct (infer_param_step r acc p acc' Hrun)
    as (spec & is_opt & is_hid & Hann & Htypes & Hlists & Hplace).
  exists spec, is_opt, is_hid. split; [exact Hann|].
  apply entry_eq in Hbefore as (Hreq & Hhid & Hopt & _ & _).
  unfold entry. rewrite Htypes, Hlists, !lookup_insert_eq.
  destruct (String.eqb (p_name p) "unique_id");
    [destruct Hplace as (-> & -> & ->); rewrite lookup_insert_eq, Hreq, Hopt; reflexivity|].
  destruct (String.eqb (p_name p) "extra_pnginfo");
    [destruct Hplace as (-> & -> & ->); rewrite lookup_insert_eq, Hreq, Hopt; reflexivity|].
  destruct (negb is_opt);
    [destruct Hplace as (-> & -> & ->); rewrite lookup_insert_eq, Hhid, Hopt; reflexivity|].
  destruct is_hid; destruct Hplace as (-> & -> & ->); rewrite lookup_insert_eq.
  - rewrite Hreq, Hopt. reflexivity.
  - rewrite Hreq, Hhid. reflexivity.
Qed.

(** X21.  The introspection puts every parameter it inspects into exactly
    one of the required, the hidden and the optional inputs, and records
    its annotation and whether that is a list; a name that is no inspected
    parameter is in none of the five maps.  (The names of a signature are
    distinct.) *)
Theorem every_parameter_has_one_place :
  forall (r : TypeRegistry) (func : PyFunc) (skip_first debug : bool) (inputs : InputTypes),
    NoDup (map p_name (f_parameters func)) ->
    _infer_input_types_from_annotations r func skip_first debug = Ok inputs ->
    (forall p, p ∈ inspected func skip_first ->
       placed inputs (p_name p) = 1 /\
       input_type_map inputs !! p_name p = Some (p_annotation p) /\
       input_is_list_map inputs !! p_name p = Some (origin_is_list (p_annotation p))) /\
    (forall k, k ∉ map p_name (inspected func skip_first) ->
       placed inputs k = 0 /\
       input_type_map inputs !! k = None /\
       input_is_list_map inputs !! k = None).
Proof.
  intros r func skip_first debug inputs Hnodup Hrun. split.
  - intros p Hp.
    destruct (inferred_entry r func skip_first debug inputs p Hnodup Hrun Hp)
      as (acc0 & acc1 & Hturn & Hbefore & Hafter).
    destruct (infer_param_place r acc0 p acc1 Hturn Hbefore)
      as (spec & is_opt & is_hid & _ & Hentry).
    rewrite Hentry in Hafter. unfold placed.
    destruct (String.eqb (p_name p) "unique_id");
      [apply entry_eq in Hafter as (-> & -> & -> & -> & ->); auto|].
    destruct (String.eqb (p_name p) "extra_pnginfo");
      [apply entry_eq in Hafter as (-> & -> & -> & -> & ->); auto|].
    destruct (negb is_opt);
      [apply entry_eq in Hafter as (-> & -> & -> & -> & ->); auto|].
    destruct is_hid; apply entry_eq in Hafter as (-> & -> & -> & -> & ->); auto.
  - intros k Hk. pose proof (infer_input_types_loop _ _ _ _ _ Hrun) as Hloop.
    destruct (infer_params_entries r _ _ _ (inspected_NoDup func skip_first Hnodup) Hloop)
      as [Hout _].
    specialize (Hout k Hk). unfold placed.
    apply entry_eq in Hout as (-> & -> & -> & -> & ->).
    unfold no_inputs. cbn. rewrite !lookup_empty. auto.
Qed.

(** Both parameters of [blend] have their place. *)
Lemma every_parameter_has_one_place_witness :
  placed (inputs blend_closure) "strength" = 1 /\
  input_is_list_map (inputs blend_closure) !! "images" = Some true.
Proof.
  destruct (every_parameter_has_one_place initial_types blend false false
              (inputs blend_closure)) as [Hin _].
  - apply (bool_decide_unpack _). vm_compute. exact I.
  - vm_compute. reflexivity.
  - split.
    + refine (proj1 (Hin {| p_name := "strength"; p_annotation := builtin "int";
                            p_default := DefEmpty |} _)).
      apply elem_of_cons. right. apply elem_of_cons. left. reflexivity.
    + refine (proj2 (proj2 (Hin {| p_name := "images";
                                   p_annotation :=
                                     TyAlias (Some {| __module__ := "builtins";
                                                      __qualname__ := "list" |})
                                       OriginList [ImageTensor];
                                   p_default := DefEmpty |} _))).
      apply elem_of_cons. left. reflexivity.
Defined.

(** X22.  A parameter named [unique_id] or [extra_pnginfo] is a hidden
    input with the fixed value "UNIQUE_ID" or "EXTRA_PNGINFO", whatever
    its annotation and its default say, and is neither required nor
    optional. *)
Theorem reserved_names_are_hidden :
  forall (r : TypeRegistry) (func : PyFunc) (skip_first debug : bool) (inputs : InputTypes)
         (p : Param),
    NoDup (map p_name (f_parameters func)) ->
    _infer_input_types_from_annotations r func skip_first debug = Ok inputs ->
    p ∈ inspected func skip_first ->
    (p_name p = "unique_id" ->
     entry inputs "unique_id"
     = (None, Some (HiddenName "UNIQUE_ID"), None,
        Some (origin_is_list (p_annotation p)), Some (p_annotation p))) /\
    (p_name p = "extra_pnginfo" ->
     entry inputs "extra_pnginfo"
     = (None, Some (HiddenName "EXTRA_PNGINFO"), None,
        Some (origin_is_list (p_annotation p)), Some (p_annotation p))).
Proof.
  intros r func skip_first debug inputs p Hnodup Hrun Hp.
  destruct (inferred_entry r func skip_first debug inputs p Hnodup Hrun Hp)
    as (acc0 & acc1 & Hturn & Hbefore & Hafter).
  destruct (infer_param_place r acc0 p acc1 Hturn Hbefore)
    as (spec & is_opt & is_hid & _ & Hentry).
  rewrite Hentry in Hafter. split; intros Hname; rewrite Hname in Hafter; exact Hafter.
Qed.

(** [unique_id] of [stamp] has no default and is hidden all the same. *)
Lemma reserved_names_are_hidden_witness :
  hidden_inputs
    (match _infer_input_types_from_annotations initial_types stamp false false with
     | Ok inputs => inputs
     | Raise _ => no_inputs
     end) !! "unique_id" = Some (HiddenName "UNIQUE_ID").
Proof.
  destruct (reserved_names_are_hidden initial_types stamp false false
              (match _infer_input_types_from_annotations initial_types stamp false false with
               | Ok inputs => inputs
               | Raise _ => no_inputs
               end)
              {| p_name := "unique_id"; p_annotation := builtin "int"; p_default := DefEmpty |})
    as [Hid _].
  - apply (bool_decide_unpack _). vm_compute. exact I.
  - vm_compute. reflexivity.
  - apply elem_of_cons. right. apply elem_of_cons. left. reflexivity.
  - specialize (Hid eq_refl). apply entry_eq in Hid as (_ & Hhid & _). exact Hhid.
Defined.

(** The two flags of [_annotate_input], by the default of the parameter. *)
Lemma annotate_input_flags r annotation default spec is_opt is_hid :
  _annotate_input r annotation default = Ok (spec, is_opt, is_hid) ->
  is_opt = match default with
           | DefEmpty | DefChoice _ | DefValue (VAnyType _) => false
           | DefNone | DefValue _ => true
           | DefStringInput _ _ _ optional _ | DefNumberInput _ _ _ _ _ _ optional _ => optional
           end /\
  is_hid = match default with
           | DefStringInput _ _ _ _ hidden | DefNumberInput _ _ _ _ _ _ _ hidden => hidden
           | _ => false
           end.
Proof.
  unfold _annotate_input.
  destruct (_get_type_str r annotation) as [type_name|e]; cbn [mbind res_bind];
    [|discriminate].
  destruct default as [| |choices|value ml fi optional hidden
                       |d mn mx step rnd display optional hidden|v];
    try (intros Heq; inversion Heq; split; reflexivity);
    destruct (_get_fully_qualified_name annotation) as [key|e]; cbn [mbind res_bind];
    try discriminate; intros Heq; inversion Heq; split; reflexivity.
Qed.

(** X23.  Where a parameter goes is decided by its default.  Without a
    default, with a [Choice], or with an [AnyType] instance as default
    (whose [__ne__] answers [False] to the comparison with
    [Parameter.empty]) it is required.  With [None] or any other plain
    value it is optional.  With a [StringInput] or [NumberInput] it is
    required unless [optional] is set, whatever [hidden] says; with
    [optional] set it is hidden if [hidden] is set, and optional if not.
    (For a name that is not reserved.) *)
Theorem place_follows_the_default :
  forall (r : TypeRegistry) (func : PyFunc) (skip_first debug : bool) (inputs : InputTypes)
         (p : Param),
    NoDup (map p_name (f_parameters func)) ->
    _infer_input_types_from_annotations r func skip_first debug = Ok inputs ->
    p ∈ inspected func skip_first ->
    p_name p <> "unique_id" ->
    p_name p <> "extra_pnginfo" ->
    match p_default p with
    | DefEmpty | DefChoice _ | DefValue (VAnyType _) =>
        is_Some (required_inputs inputs !! p_name p)
    | DefNone | DefValue _ =>
        is_Some (optional_inputs inputs !! p_name p)
    | DefStringInput _ _ _ optional hidden | DefNumberInput _ _ _ _ _ _ optional hidden =>
        if negb optional then is_Some (required_inputs inputs !! p_name p)
        else if hidden then is_Some (hidden_inputs inputs !! p_name p)
        else is_Some (optional_inputs inputs !! p_name p)
    end.
Proof.
  intros r func skip_first debug inputs p Hnodup Hrun Hp Hid Hpng.
  destruct (inferred_entry r func skip_first debug inputs p Hnodup Hrun Hp)
    as (acc0 & acc1 & Hturn & Hbefore & Hafter).
  destruct (infer_param_place r acc0 p acc1 Hturn Hbefore)
    as (spec & is_opt & is_hid & Hann & Hentry).
  rewrite Hentry in Hafter. clear Hentry.
  apply String.eqb_neq in Hid, Hpng. rewrite Hid, Hpng in Hafter.
  apply annotate_input_flags in Hann as [Hopt Hhid].
  assert (Hplace : if negb is_opt then is_Some (required_inputs inputs !! p_name p)
                   else if is_hid then is_Some (hidden_inputs inputs !! p_name p)
                   else is_Some (optional_inputs inputs !! p_name p)).
  { destruct (negb is_opt); [apply entry_eq in Hafter as (-> & _); eauto|].
    destruct is_hid;
      [apply entry_eq in Hafter as (_ & -> & _)
      |apply entry_eq in Hafter as (_ & _ & -> & _)]; eauto. }
  clear Hafter. subst is_opt is_hid.
  destruct (p_default p) as [| |choices|value ml fi optional hidden
                             |d mn mx step rnd display optional hidden|v];
    try exact Hplace.
  destruct v; exact Hplace.
Qed.

(** The mask of [invert] has the default [None]: it is optional. *)
Lemma place_follows_the_default_witness :
  is_Some (optional_inputs (inputs invert_closure) !! "mask").
Proof.
  apply (place_follows_the_default initial_types invert false false (inputs invert_closure)
           {| p_name := "mask"; p_annotation := MaskTensor; p_default := DefNone |}).
  - apply (bool_decide_unpack _). vm_compute. exact I.
  - vm_compute. reflexivity.
  - apply elem_of_cons. left. reflexivity.
  - discriminate.
  - discriminate.
Defined.

(** The loop over the arguments of a tuple: one tag and one flag for each,
    in order. *)
Lemma infer_tuple_returns_aligned r return_args : forall tags flags,
  infer_tuple_returns r return_args = Ok (tags, flags) ->
  length tags = length return_args /\
  flags = map origin_is_list return_args /\
  Forall (known_tag r) tags.
Proof.
  induction return_args as [|arg rest IH]; intros tags flags Hrun.
  - inversion Hrun. split; [reflexivity|]. split; [reflexivity|constructor].
  - cbn [infer_tuple_returns] in Hrun.
    destruct (if origin_is_list arg then _ else _) as [[tag is_list]|e] eqn:Hhead;
      cbn [mbind res_bind] in Hrun; [|discriminate].
    destruct (infer_tuple_returns r rest) as [[tags' flags']|e];
      cbn [mbind res_bind] in Hrun; [|discriminate].
    inversion Hrun; subst tags flags. clear Hrun.
    destruct (IH tags' flags' eq_refl) as (Hlen & Hflags & Hknown).
    assert (Htag : is_list = origin_is_list arg /\ known_tag r tag).
    { destruct (origin_is_list arg).
      - destruct (get_args arg) as [|list_arg others]; [discriminate|].
        destruct (_get_type_str r list_arg) as [t|e] eqn:Ht; cbn [mbind res_bind] in Hhead;
          [|discriminate].
        inversion Hhead; subst. split; [reflexivity|].
        exact (get_type_str_known r list_arg _ Ht).
      - destruct (_get_type_str r arg) as [t|e] eqn:Ht; cbn [mbind res_bind] in Hhead;
          [|discriminate].
        inversion Hhead; subst. split; [reflexivity|].
        exact (get_type_str_known r arg _ Ht). }
    destruct Htag as [-> Htag]. cbn [length map]. rewrite Hlen, Hflags.
    split; [reflexivity|]. split; [reflexivity|]. constructor; assumption.
Qed.

(** X24.  The return types and the list flags the introspection derives
    have the same length, and every return type is a tag of the registry
    or the wildcard.  For an explicit list of types there is one tag per
    type, flagged as a list exactly when the type is a list alias; for an
    annotation that is no tuple there is at most one tag. *)
Theorem inferred_returns_are_aligned :
  forall (r : TypeRegistry) (func_or_types : list PyType + PyFunc) (debug : bool)
         (tags : list PyVal) (flags : list bool),
    _infer_return_types_from_annotations r func_or_types debug = Ok (tags, flags) ->
    length tags = length flags /\
    Forall (known_tag r) tags /\
    match func_or_types with
    | inl types => length tags = length types /\ flags = map origin_is_list types
    | inr func =>
        if origin_is_tuple (f_return_annotation func)
        then length tags = length (get_args (f_return_annotation func))
        else length tags <= 1
    end.
Proof.
  intros r func_or_types debug tags flags Hrun.
  unfold _infer_return_types_from_annotations in Hrun.
  destruct func_or_types as [types|func].
  - destruct (infer_tuple_returns_aligned r types tags flags Hrun) as (Hlen & Hflags & Hknown).
    split; [rewrite Hflags, length_map; exact Hlen|]. split; [exact Hknown|].
    split; assumption.
  - destruct (origin_is_tuple (f_return_annotation func)).
    + destruct (infer_tuple_returns_aligned r _ tags flags Hrun) as (Hlen & Hflags & Hknown).
      split; [rewrite Hflags, length_map; exact Hlen|]. split; [exact Hknown|exact Hlen].
    + destruct (origin_is_list (f_return_annotation func)).
      * destruct (if debug then _ else Ok tt) as [[]|e]; cbn [mbind res_bind] in Hrun;
          [|discriminate].
        destruct (get_args (f_return_annotation func)) as [|a others]; [discriminate|].
        destruct (_get_type_str r a) as [t|e] eqn:Ht; cbn [mbind res_bind] in Hrun;
          [|discriminate].
        inversion Hrun; subst. split; [reflexivity|].
        split; [|cbn; lia]. constructor; [|constructor].
        exact (get_type_str_known r a _ Ht).
      * destruct (negb (is_empty (f_return_annotation func))).
        -- destruct (_get_type_str r (f_return_annotation func)) as [t|e] eqn:Ht;
             cbn [mbind res_bind] in Hrun; [|discriminate].
           inversion Hrun; subst. split; [reflexivity|].
           split; [|cbn; lia]. constructor; [|constructor].
           exact (get_type_str_known r _ _ Ht).
        -- inversion Hrun; subst. split; [reflexivity|]. split; [constructor|cbn; lia].
Qed.

(** The return annotation of [blend] gives one tag and one flag. *)
Lemma inferred_returns_are_aligned_witness :
  length [VStr "IMAGE"] = length [false] /\ Forall (known_tag initial_types) [VStr "IMAGE"].
Proof.
  destruct (inferred_returns_are_aligned initial_types (inr blend) false [VStr "IMAGE"] [false])
    as (Hlen & Hknown & _).
  - vm_compute. reflexivity.
  - split; [exact Hlen | exact Hknown].
Defined.

(** ** The verification of results, continued *)

Section PlainResultFacts.
Context `{Runtime}.
Variables (cfg : Config) (func : PyFunc) (args : list PyVal) (kwargs : PyDict PyVal)
          (debug : bool) (input_desc : list string) (adjusted_return_types : list PyVal)
          (wrapped_name : string) (return_names : option (list string)).

Lemma verify_tensor_plain ret name tensor_type shapes dims channels :
  plain_value ret = true ->
  is_ok (_verify_tensor cfg ret name tensor_type shapes dims channels) = true.
Proof.
  intros Hplain. destruct ret; try discriminate; cbn [_verify_tensor];
    destruct (negb (verify_tensors cfg)); reflexivity.
Qed.

Lemma verify_return_type_plain ret return_type name :
  plain_value ret = true ->
  hashable return_type = Ok tt ->
  is_ok (_verify_return_type cfg ret return_type name) = true.
Proof.
  intros Hplain Hhash. unfold _verify_return_type. rewrite Hhash. cbn [mbind res_bind].
  destruct (str_value return_type) as [tag|]; [|reflexivity].
  destruct (dict_get tensor_types tag); [|reflexivity].
  apply verify_tensor_plain. exact Hplain.
Qed.

Lemma verify_returns_plain code_origin_loc result : forall i buffer,
  forallb plain_value result = true ->
  Forall (fun return_type => hashable return_type = Ok tt) adjusted_return_types ->
  i + length result <= length adjusted_return_types ->
  (forall names, truthy_names return_names = Some names ->
     i + length result <= length names) ->
  exists buffer',
    verify_returns cfg debug code_origin_loc return_names adjusted_return_types i result buffer
    = (buffer', Ok tt).
Proof.
  induction result as [|ret rest IH]; intros i buffer Hplain Hhash Htypes Hnames;
    cbn [verify_returns].
  - eexists. reflexivity.
  - cbn [forallb] in Hplain. apply andb_true_iff in Hplain as [Hret Hrest].
    cbn [length] in Htypes, Hnames.
    rewrite M_bind_eq.
    assert (Hlog : exists buffer1,
              (if debug
               then log_record "INFO" ("Result " ++ str_nat i ++ " is " ++ repr_type ret)
               else mret tt) buffer = (buffer1, Ok tt)).
    { destruct debug; eexists; reflexivity. }
    destruct Hlog as [buffer1 ->]. rewrite M_bind_eq. unfold lift at 1.
    assert (Hname : exists name,
              match truthy_names return_names with
              | Some names =>
                  match names !! i with
                  | Some n => Ok ("'" ++ n ++ "'")
                  | None => Raise (IndexError "list index out of range")
                  end
              | None => Ok ("return_" ++ str_nat i)
              end = Ok name).
    { destruct (truthy_names return_names) as [names|] eqn:Htruthy; [|eauto].
      specialize (Hnames names eq_refl).
      destruct (lookup_lt_is_Some_2 names i) as [n ->]; [lia|]. eauto. }
    destruct Hname as [name ->]. cbn [mbind res_bind].
    destruct (lookup_lt_is_Some_2 adjusted_return_types i) as [ty Hty]; [lia|].
    rewrite Hty. cbn [mbind res_bind].
    assert (Hok : is_ok (_verify_return_type cfg ret ty name) = true).
    { apply verify_return_type_plain; [exact Hret|].
      rewrite Forall_forall in Hhash. apply Hhash. eapply list_elem_of_lookup_2. exact Hty. }
    destruct (_verify_return_type cfg ret ty name) as [v|e]; [|discriminate].
    apply IH; [exact Hrest | exact Hhash | lia |].
    intros names Htruthy. specialize (Hnames names Htruthy). lia.
Qed.

Lemma all_to_plain d l : forallb plain_value l = true -> map (_all_to d) l = l.
Proof.
  induction l as [|v l IH]; [reflexivity|]. cbn [forallb map]. intros Hplain.
  apply andb_true_iff in Hplain as [Hv Hl]. rewrite (IH Hl).
  destruct v; try discriminate; reflexivity.
Qed.

(** X25.  A declared return type is enforced on tensors only.  A function
    that returns the declared number of values, none of them a tensor or a
    list, succeeds at the call whatever the declared tags are, IMAGE and
    MASK included, as long as they can be hashed, as strings and the
    wildcard can; its values are handed back as they are.  (With output
    names, if any, as many as return types.) *)
Theorem only_tensors_are_verified :
  forall (tr : list Event) (out : string) (result : PyVal),
    (1 <= max_tries cfg)%Z ->
    behaviour func (calls_made tr) args kwargs = (out, Ok result) ->
    length adjusted_return_types <> 0 ->
    length (as_tuple result) = length adjusted_return_types ->
    (forall names, truthy_names return_names = Some names ->
       length names = length adjusted_return_types) ->
    Forall (fun return_type => hashable return_type = Ok tt) adjusted_return_types ->
    forallb plain_value (as_tuple result) = true ->
    _call_function_and_verify_result cfg func args kwargs debug input_desc
      adjusted_return_types wrapped_name return_names tr
    = ((tr ++ [Called func args kwargs])%list, Ok (VTuple (as_tuple result))).
Proof.
  intros tr out result Hmax Hcall HN Hlen Hnames Hhash Hplain.
  unfold _call_function_and_verify_result.
  destruct (Z.to_nat (max_tries cfg)) as [|remaining] eqn:Hrem; [lia|].
  rewrite retry_step. unfold attempt. rewrite M_bind_eq, Hcall.
  unfold check_result.
  destruct (Nat.eqb_spec (length adjusted_return_types) 0) as [|_]; [contradiction|].
  rewrite M_bind_eq. unfold lift. fold (as_tuple result).
  rewrite Hlen, Nat.eqb_refl. cbn [py_assert].
  rewrite M_bind_eq.
  destruct (warn_none_returns (as_tuple result) 0 ("" ++ out)) as [buffer1 Hwarn].
  rewrite Hwarn. rewrite M_bind_eq.
  destruct (verify_returns_plain (code_origin_loc_of func (co_firstlineno func))
              (as_tuple result) 0 buffer1 Hplain Hhash) as [buffer2 Hver].
  - cbn [Nat.add]. lia.
  - intros names Htruthy. rewrite (Hnames names Htruthy). cbn [Nat.add]. lia.
  - rewrite Hver. cbn. rewrite (all_to_plain Cpu (as_tuple result) Hplain). reflexivity.
Qed.
End PlainResultFacts.

(** [pair] returns two numbers: they pass for an image and a mask. *)
Lemma only_tensors_are_verified_witness :
  @_call_function_and_verify_result cpu_runtime two_tries pair_function [] [] false []
    [VStr "IMAGE"; VStr "MASK"] "pair_comfyfunc_wrapper" None []
  = ([Called pair_function [] []], Ok (VTuple [VInt 1; VInt 2])).
Proof.
  apply (@only_tensors_are_verified cpu_runtime two_tries pair_function [] [] false []
           [VStr "IMAGE"; VStr "MASK"] "pair_comfyfunc_wrapper" None [] ""
           (VTuple [VInt 1; VInt 2])).
  - discriminate.
  - reflexivity.
  - discriminate.
  - reflexivity.
  - intros names Hnames. discriminate.
  - repeat constructor.
  - reflexivity.
Defined.

(** ** The preview of a result *)

(** X26.  [get_first_result] goes down the first elements of nested
    tuples and lists until it finds something that is neither: what it
    returns is never a tuple or a list, it is [None] for an empty tuple or
    list, what the first element gives for one that is not empty, and the
    argument itself when that is no sequence. *)
Theorem first_result_is_no_sequence :
  forall v : PyVal,
    match Preview.get_first_result v with
    | VTuple _ | VList _ => False
    | _ => True
    end /\
    match v with
    | VTuple [] | VList [] => Preview.get_first_result v = VNone
    | VTuple (first :: _) | VList (first :: _) =>
        Preview.get_first_result v = Preview.get_first_result first
    | _ => Preview.get_first_result v = v
    end.
Proof.
  intros v. split.
  - revert v. fix IH 1. intros [ | | | | | |t|l|l|]; cbn [Preview.get_first_result];
      try exact I; destruct l as [|first rest]; try exact I; apply IH.
  - destruct v as [ | | | | | |t|l|l|]; try reflexivity; destruct l; reflexivity.
Qed.

Section PreviewFacts.
Context `{Runtime}.

(** X27.  The preview of what [_call_function_and_verify_result] returned
    never fails the assertion on the length, and never changes the result:
    it gives the result back, alone or under ["result"], unless writing
    the image fails.  For a node without return types the result is
    [(None,)], and no preview is made of it. *)
Theorem preview_keeps_the_result :
  forall (save_temp_image : Tensor -> res string)
         (cfg : Config) (func : PyFunc) (args : list PyVal) (kwargs : PyDict PyVal)
         (debug : bool) (input_desc : list string) (adjusted_return_types : list PyVal)
         (wrapped_name : string) (return_names : option (list string))
         (tr tr' : list Event) (v : PyVal),
    _call_function_and_verify_result cfg func args kwargs debug input_desc
      adjusted_return_types wrapped_name return_names tr = (tr', Ok v) ->
    ((exists p, Preview._add_preview true save_temp_image v = Ok p /\ Preview.result_of p = v) \/
     (exists t e, save_temp_image t = Raise e /\
                  Preview._add_preview true save_temp_image v = Raise e)) /\
    (length adjusted_return_types = 0 ->
     Preview._add_preview true save_temp_image v = Ok (Preview.Unchanged v)).
Proof.
  intros save cfg func args kwargs debug input_desc art wname names tr tr' v Hrun.
  unfold _call_function_and_verify_result in Hrun.
  destruct (retry_returns _ _ _ _ _ _ _ _ _ _ _ _ _ _ Hrun)
    as [n [out [result (_ & -> & Hlen)]]].
  unfold normalized.
  destruct (Nat.eqb_spec (length art) 0) as [H0|HN].
  - split; [left; eexists; split; reflexivity|]. intros _. reflexivity.
  - split; [|intros H0; contradiction].
    specialize (Hlen HN).
    unfold Preview._add_preview. cbn [mbind res_bind py_len].
    rewrite length_map, Hlen.
    destruct (length art) as [|k] eqn:Hart; [contradiction|].
    cbn [Nat.leb py_assert mbind res_bind].
    destruct (Preview.get_first_result (VTuple (map (_all_to Cpu) (as_tuple result))))
      as [ | | | | | |t|l|l|];
      try (left; eexists; split; reflexivity).
    destruct (save t) as [filename|e] eqn:Hsave; cbn [mbind res_bind].
    + left. eexists. split; reflexivity.
    + right. exists t, e. split; [exact Hsave|reflexivity].
Qed.
End PreviewFacts.

(** [save_image] has no return type: no preview of its result. *)
Lemma preview_keeps_the_result_witness :
  Preview._add_preview true no_image_preview (VTuple [VNone])
  = Ok (Preview.Unchanged (VTuple [VNone])).
Proof.
  refine (proj2 (@preview_keeps_the_result cpu_runtime no_image_preview two_tries save_image
                   [] [("image", VTensor pixel)] false [] [] "save_image_comfyfunc_wrapper"
                   None [] [Called save_image [] [("image", VTensor pixel)]]
                   (VTuple [VNone]) _) eq_refl).
  reflexivity.
Defined.

(** ** Reloading the module of a function *)

Section ReloadFacts.
Variables (S Mod : Type).
Variable import_module : string -> M S Mod.
Variable file_of : Mod -> S -> res string.
Variable getmtime : string -> S -> res Q.
Variable module_attr : Mod -> string -> S -> option PyFunc.
Variable reload : Mod -> M S unit.

Abbreviation maybe_reload :=
  (HotReload._maybe_reload_module S Mod import_module file_of getmtime module_attr reload).

Lemma time_of_insert l module_name t m :
  HotReload.time_of
    {| HotReload.module_reload_times := <[module_name := t]> (HotReload.module_reload_times l);
       HotReload.func_dict := HotReload.func_dict l |} m
  = if decide (m = module_name) then t else HotReload.time_of l m.
Proof.
  unfold HotReload.time_of. cbn [HotReload.module_reload_times].
  destruct (decide (m = module_name)) as [->|Hne].
  - rewrite lookup_insert_eq. reflexivity.
  - rewrite lookup_insert_ne by congruence. reflexivity.
Qed.

(** X28.  The ledger of the reloads only moves forward.  Whatever the
    importer does, a call of [_maybe_reload_module] never lowers the
    recorded time of a module and never touches the cached function of
    another name.  If it answers [False], the ledger is as it was and the
    function is the one given or the one cached under its name; if it
    answers [True], the recorded time of the module has gone up and the
    function is cached under its name.  With reloading off, nothing is
    imported and the function given comes back. *)
Theorem reload_ledger_only_moves_forward :
  forall (cfg : Config) (func : PyFunc) (s s' : S) (l l' : HotReload.Ledger)
         (r : res (bool * PyFunc)),
    maybe_reload cfg func (s, l) = ((s', l'), r) ->
    (forall m, (HotReload.time_of l m <= HotReload.time_of l' m)%Q) /\
    (forall k, k <> f_name func ->
       HotReload.func_dict l' !! k = HotReload.func_dict l !! k) /\
    (forall latest, r = Ok (false, latest) ->
       l' = l /\
       (latest = func \/ HotReload.func_dict l !! f_name func = Some latest)) /\
    (forall latest, r = Ok (true, latest) ->
       reload_modules cfg = true /\
       (HotReload.time_of l (f_module func) < HotReload.time_of l' (f_module func))%Q /\
       HotReload.func_dict l' !! f_name func = Some latest) /\
    (reload_modules cfg = false -> s' = s /\ l' = l /\ r = Ok (false, func)).
Proof.
  intros cfg func s s' l l' r Hrun.
  assert (Hsame : forall (s0 : S) (r0 : res (bool * PyFunc)),
            ((s0, l), r0) = ((s', l'), r) ->
            (forall latest, r0 = Ok (true, latest) -> False) ->
            (forall latest, r0 = Ok (false, latest) ->
               latest = func \/ HotReload.func_dict l !! f_name func = Some latest) ->
            (reload_modules cfg = false -> s0 = s /\ r0 = Ok (false, func)) ->
            (forall m, (HotReload.time_of l m <= HotReload.time_of l' m)%Q) /\
            (forall k, k <> f_name func ->
               HotReload.func_dict l' !! k = HotReload.func_dict l !! k) /\
            (forall latest, r = Ok (false, latest) ->
               l' = l /\
               (latest = func \/ HotReload.func_dict l !! f_name func = Some latest)) /\
            (forall latest, r = Ok (true, latest) ->
               reload_modules cfg = true /\
               (HotReload.time_of l (f_module func)
                < HotReload.time_of l' (f_module func))%Q /\
               HotReload.func_dict l' !! f_name func = Some latest) /\
            (reload_modules cfg = false -> s' = s /\ l' = l /\ r = Ok (false, func))).
  { intros s0 r0 Heq Hnot Hcached Hoff. inversion Heq; subst s0 l' r0.
    split; [intros m; apply Qle_refl|]. split; [reflexivity|].
    split; [intros latest Hr; split; [reflexivity|exact (Hcached latest Hr)]|].
    split; [intros latest Hr; destruct (Hnot latest Hr)|].
    intros Hflag. destruct (Hoff Hflag) as [-> ->]. auto. }
  unfold HotReload._maybe_reload_module in Hrun.
  destruct (String.eqb (f_module func) "" || negb (reload_modules cfg)) eqn:Hskip.
  { apply (Hsame s _ Hrun); [discriminate| |auto].
    intros latest Hr. inversion Hr. left. reflexivity. }
  apply orb_false_iff in Hskip as [_ Hon]. apply negb_false_iff in Hon.
  assert (Hoff : forall (s0 : S) (r0 : res (bool * PyFunc)),
            reload_modules cfg = false -> s0 = s /\ r0 = Ok (false, func))
    by (intros s0 r0 Hflag; congruence).
  destruct (import_module (f_module func) s) as [s1 [module|e]].
  2: { apply (Hsame s1 _ Hrun); [discriminate|discriminate|apply Hoff]. }
  destruct (module_file ← file_of module s1; getmtime module_file s1) as [t|e].
  2: { apply (Hsame s1 _ Hrun); [discriminate|discriminate|apply Hoff]. }
  destruct (negb (Qle_bool t (HotReload.time_of l (f_module func)))
            && bool_decide (is_Some (module_attr module (f_name func) s1))) eqn:Hnewer.
  2: { destruct (HotReload.func_dict l !! f_name func) as [cached|] eqn:Hcache;
         apply (Hsame s1 _ Hrun); try discriminate; try apply Hoff;
         intros latest Hr; inversion Hr; subst; auto. }
  apply andb_true_iff in Hnewer as [Hnewer _]. apply negb_true_iff in Hnewer.
  assert (Hlt : (HotReload.time_of l (f_module func) < t)%Q).
  { apply Qnot_le_lt. intros Hle. apply Qle_bool_iff in Hle. congruence. }
  destruct (reload module s1) as [s2 [[]|e]].
  2: { apply (Hsame s2 _ Hrun); [discriminate|discriminate|apply Hoff]. }
  assert (Htimes : forall m,
            (HotReload.time_of l m
             <= HotReload.time_of
                  {| HotReload.module_reload_times :=
                       <[f_module func := t]> (HotReload.module_reload_times l);
                     HotReload.func_dict := HotReload.func_dict l |} m)%Q).
  { intros m. rewrite time_of_insert. destruct (decide (m = f_module func)) as [->|_].
    - apply Qlt_le_weak. exact Hlt.
    - apply Qle_refl. }
  destruct (module_attr module (f_name func) s2) as [latest|];
    inversion Hrun; subst s' l' r; clear Hrun.
  - split; [exact Htimes|].
    split; [intros k Hk; cbn; rewrite lookup_insert_ne by congruence; reflexivity|].
    split; [discriminate|]. split; [|intros Hflag; congruence].
    intros latest' Hr. inversion Hr; subst latest'. split; [exact Hon|]. split.
    + pose proof (time_of_insert l (f_module func) t (f_module func)) as Ht.
      rewrite decide_True in Ht by reflexivity. unfold HotReload.time_of in *.
      cbn [HotReload.module_reload_times] in *. rewrite Ht. exact Hlt.
    + cbn. apply lookup_insert_eq.
  - split; [exact Htimes|]. split; [reflexivity|].
    split; [discriminate|]. split; [discriminate|]. intros Hflag. congruence.
Qed.

(** X29.  The cache of reloaded functions goes by the bare name.  Once a
    function was reloaded, a function of the same [__name__], be it the
    same function or one of another module, whose file is not newer than
    the recorded time of its module, gets the reloaded function of the
    first; nothing is reloaded and the ledger stays. *)
Theorem reloaded_function_is_shared_by_name :
  forall (cfg : Config) (func1 func2 : PyFunc) (s s1 s2 : S) (l l1 : HotReload.Ledger)
         (latest : PyFunc) (module2 : Mod) (file2 : string) (t2 : Q),
    maybe_reload cfg func1 (s, l) = ((s1, l1), Ok (true, latest)) ->
    f_name func2 = f_name func1 ->
    f_module func2 <> "" ->
    import_module (f_module func2) s1 = (s2, Ok module2) ->
    file_of module2 s2 = Ok file2 ->
    getmtime file2 s2 = Ok t2 ->
    (t2 <= HotReload.time_of l1 (f_module func2))%Q ->
    maybe_reload cfg func2 (s1, l1) = ((s2, l1), Ok (false, latest)).
Proof.
  intros cfg func1 func2 s s1 s2 l l1 latest module2 file2 t2 Hfirst Hname Hmodule Himport
         Hfile Htime Hold.
  assert (Hfacts : reload_modules cfg = true /\
                   HotReload.func_dict l1 !! f_name func1 = Some latest).
  { unfold HotReload._maybe_reload_module in Hfirst.
    destruct (String.eqb (f_module func1) "" || negb (reload_modules cfg)) eqn:Hskip;
      [discriminate|].
    apply orb_false_iff in Hskip as [_ Hon]. apply negb_false_iff in Hon.
    split; [exact Hon|].
    destruct (import_module (f_module func1) s) as [s0 [module|e]]; [|discriminate].
    destruct (module_file ← file_of module s0; getmtime module_file s0) as [t|e];
      [|discriminate].
    destruct (negb (Qle_bool t (HotReload.time_of l (f_module func1)))
              && bool_decide (is_Some (module_attr module (f_name func1) s0))).
    - destruct (reload module s0) as [s3 [[]|e]]; [|discriminate].
      destruct (module_attr module (f_name func1) s3) as [f|]; [|discriminate].
      inversion Hfirst; subst. cbn. apply lookup_insert_eq.
    - destruct (HotReload.func_dict l !! f_name func1); discriminate. }
  destruct Hfacts as [Hon Hcached].
  unfold HotReload._maybe_reload_module.
  apply String.eqb_neq in Hmodule. rewrite Hmodule, Hon. cbn [negb orb].
  rewrite Himport, Hfile. cbn [mbind res_bind]. rewrite Htime.
  apply Qle_bool_iff in Hold. rewrite Hold. cbn [negb andb].
  rewrite Hname, Hcached. reflexivity.
Qed.
End ReloadFacts.

(** [flaky] of [example.py], written at time 5, is reloaded once. *)
Lemma reload_ledger_only_moves_forward_witness :
  HotReload._maybe_reload_module nat string import_by_name file_by_name mtime_of_example
    flaky_everywhere count_reload default_config flaky (0, empty_ledger)
  = ((1, {| HotReload.module_reload_times := {[ "example" := 5%Q ]};
            HotReload.func_dict := {[ "flaky" := flaky ]} |}),
     Ok (true, flaky)) /\
  (HotReload.time_of empty_ledger "example"
   < HotReload.time_of {| HotReload.module_reload_times := {[ "example" := 5%Q ]};
                          HotReload.func_dict := {[ "flaky" := flaky ]} |} "example")%Q.
Proof.
  assert (Hrun : HotReload._maybe_reload_module nat string import_by_name file_by_name
                   mtime_of_example flaky_everywhere count_reload default_config flaky
                   (0, empty_ledger)
                 = ((1, {| HotReload.module_reload_times := {[ "example" := 5%Q ]};
                           HotReload.func_dict := {[ "flaky" := flaky ]} |}),
                    Ok (true, flaky))) by reflexivity.
  split; [exact Hrun|].
  destruct (reload_ledger_only_moves_forward nat string import_by_name file_by_name
              mtime_of_example flaky_everywhere count_reload default_config flaky _ _ _ _ _
              Hrun) as (_ & _ & _ & Htrue & _).
  exact (proj1 (proj2 (Htrue flaky eq_refl))).
Defined.

(** After that, the function [flaky] of the module [other] is answered
    with the [flaky] of [example]. *)
Lemma reloaded_function_is_shared_by_name_witness :
  HotReload._maybe_reload_module nat string import_by_name file_by_name mtime_of_example
    flaky_everywhere count_reload default_config other_flaky
    (1, {| HotReload.module_reload_times := {[ "example" := 5%Q ]};
           HotReload.func_dict := {[ "flaky" := flaky ]} |})
  = ((1, {| HotReload.module_reload_times := {[ "example" := 5%Q ]};
            HotReload.func_dict := {[ "flaky" := flaky ]} |}),
     Ok (false, flaky)).
Proof.
  apply (reloaded_function_is_shared_by_name nat string import_by_name file_by_name
           mtime_of_example flaky_everywhere count_reload default_config flaky other_flaky
           0 1 1 empty_ledger _ flaky "other" "other.py" 0%Q).
  - reflexivity.
  - reflexivity.
  - discriminate.
  - reflexivity.
  - reflexivity.
  - reflexivity.
  - vm_compute. discriminate.
Defined.

(** ** Plain functions and the globals of the module *)

Lemma split_without_separator sep s :
  (forall c, c ∈ chars s -> c <> sep) -> split sep s = [s].
Proof.
  induction s as [|c s IH]; intros Hfree; [reflexivity|].
  cbn [split]. destruct (Ascii.eqb_spec c sep) as [->|_].
  - exfalso. apply (Hfree sep); [|reflexivity]. cbn [chars]. apply elem_of_cons. left. reflexivity.
  - rewrite IH; [reflexivity|]. intros c' Hc'. apply Hfree. cbn [chars].
    apply elem_of_cons. right. exact Hc'.
Qed.

(** A function whose qualified name has no dot is a plain function: the
    decorator finds no class for it, whatever the globals of the module
    and of the function hold. *)
Lemma plain_functions_have_no_class n func :
  (forall c, c ∈ chars (f_qualname func) -> c <> "."%char) ->
  _get_node_class n func = None.
Proof.
  intros Hplain. unfold _get_node_class.
  rewrite (split_without_separator "." (f_qualname func) Hplain). reflexivity.
Qed.

Section GlobalsFacts.
Context `{Runtime}.

Lemma create_comfy_node_globals cname cat process_function shown workflow
    required hidden optional in_list tags names out_list text is_output validate changed
    color source_location g n :
  _create_comfy_node cname cat None process_function shown workflow required hidden
    optional in_list tags names out_list text is_output validate changed color
    source_location (set_globals g n)
  = (set_globals g
       (fst (_create_comfy_node cname cat None process_function shown workflow required
               hidden optional in_list tags names out_list text is_output validate changed
               color source_location n)),
     snd (_create_comfy_node cname cat None process_function shown workflow required hidden
            optional in_list tags names out_list text is_output validate changed color
            source_location n)).
Proof.
  unfold _create_comfy_node. rewrite !M_bind_eq. unfold lift.
  destruct (match color with
            | Some color => _ ← valid_hex_color color; Ok (text ++ color_lines color)
            | None => Ok text
            end) as [d|e]; [|reflexivity].
  cbn [already_initialized set_globals].
  destruct (already_initialized n); [reflexivity|].
  unfold check_duplicates. cbn [NODE_CLASS_MAPPINGS NODE_DISPLAY_NAME_MAPPINGS set_globals].
  destruct (py_assert (bool_decide (NODE_CLASS_MAPPINGS n !! workflow = None)) _) as [[]|e];
    cbn [mbind res_bind]; [|reflexivity].
  destruct (py_assert (negb (in_values shown (NODE_DISPLAY_NAME_MAPPINGS n))) _) as [[]|e];
    cbn [mbind res_bind]; reflexivity.
Qed.

(** The decorator treats a plain function the same whatever the globals
    of the module hold: the examples, which start from registries without
    globals, hold for the globals the module really has. *)
Lemma decorator_of_a_plain_function o func g w :
  (forall c, c ∈ chars (f_qualname func) -> c <> "."%char) ->
  decorator o func (with_globals g w)
  = (with_globals g (fst (decorator o func w)), snd (decorator o func w)).
Proof.
  intros Hplain. unfold decorator. cbv zeta.
  rewrite !(plain_functions_have_no_class _ func Hplain).
  cbn [_is_static_method _is_class_method types config with_globals].
  destruct (_infer_input_types_from_annotations (types w) func _ _) as [inputs|e];
    cbn [mbind res_bind]; [|reflexivity].
  destruct (match return_types o with
            | Some l => _
            | None => _
            end) as [[tags out_list]|e]; cbn [mbind res_bind fst]; [|reflexivity].
  destruct (match truthy_names (return_names o) with
            | Some names => _
            | None => Ok tt
            end) as [[]|e]; cbn [mbind res_bind]; [|reflexivity].
  unfold on_nodes.
  change (nodes (with_globals g w)) with (set_globals g (nodes w)).
  change (config (with_globals g w)) with (config w).
  change (types (with_globals g w)) with (types w).
  change (trace (with_globals g w)) with (trace w).
  rewrite create_comfy_node_globals.
  match goal with
  | |- context [_create_comfy_node ?a1 ?a2 ?a3 ?a4 ?a5 ?a6 ?a7 ?a8 ?a9 ?a10 ?a11 ?a12 ?a13
                  ?a14 ?a15 ?a16 ?a17 ?a18 ?a19 (nodes w)] =>
      destruct (_create_comfy_node a1 a2 a3 a4 a5 a6 a7 a8 a9 a10 a11 a12 a13 a14 a15 a16
                  a17 a18 a19 (nodes w)) as [n' [[]|e]]
  end; reflexivity.
Qed.
End GlobalsFacts.

(** The functions of the examples that are decorated in [initial_world]
    are plain functions. *)
Example examples_are_plain_functions :
  forall n,
    _get_node_class n save_image = None /\ _get_node_class n save__image = None /\
    _get_node_class n invert = None /\ _get_node_class n threshold = None /\
    _get_node_class n blend = None /\ _get_node_class n mix = None /\
    _get_node_class n stamp = None.
Proof. intros n. repeat split; reflexivity. Qed.
